(** * Swing-trade basket generator: a shallow embedding of the services

    The development follows the Python sources under [backend/app]:
    [models.py], [services/market_data.py], [services/trade_validador.py],
    [services/basket_calculator.py] and [services/excel_generator.py].

    Modelling conventions.
    - A Python [float] is an IEEE binary64 value.  Where the outcome of the
      code depends on rounding, on NaN or on the exceptions of [int] (the
      verdict of [validate_trade] at its thresholds, the clients kept by
      [filter_eligible_clients], the share count of
      [calculate_share_quantity], the exceptions of [generate_basket], the
      rows of the client table that become clients), the function is
      embedded on primitive binary64 values, in module [Binary64], and the
      statements about it are made there.
    - The market data service, the summary, the spreadsheet and the control
      flow of the endpoint are embedded with a float read as the exact
      rational of type [Q] that it stands for: the statements made there
      are about which branch is taken, what is cached or written, the shape
      of the results and the formulas of the code; the values they mention
      are those of the code up to rounding, and NaN and the infinities are
      outside that reading.
    - A Python [int] is a [Z]; [len] is a [nat].
    - A Python [str] is a [string] of bytes; [upper] acts on ASCII letters.
    - A raised exception is the [Raise] branch of [result].
    - [logger] calls do not influence any result; only the warning of
      [generate_basket] is kept, as an explicit log.
    - The f-string diagnostics interpolate formatted floats; a diagnostic is
      kept as a structured value: its status mark and the interpolated data.
    - The clock, the quote provider and the output directory are explicit:
      [datetime.now()] is an argument, the provider a function from symbols
      to replies, the files written a finite map from paths to sheets. *)

From Stdlib Require Import QArith Qround Qabs Lqa ZArith Lia.
From Stdlib Require Import List String Ascii.
From Stdlib Require Import Uint63 PrimFloat SpecFloat FloatOps FloatAxioms.
From stdpp Require Import base option list strings gmap.
Import ListNotations.

Local Open Scope Q_scope.

(** ** Python primitives *)

Inductive exn : Type :=
| ZeroDivisionError
| OverflowError (msg : string)
| ValueError (msg : string).

Inductive result (A : Type) : Type :=
| Ok (a : A)
| Raise (e : exn).
Arguments Ok {A} a.
Arguments Raise {A} e.

#[global] Instance result_ret : MRet result := fun A a => Ok a.

#[global] Instance result_bind : MBind result := fun A B k m =>
  match m with
  | Ok a => k a
  | Raise e => Raise e
  end.

(** [a < b] on floats. *)
Definition Qltb (a b : Q) : bool := negb (Qle_bool b a).

(** [a / b] on floats: a zero divisor raises. *)
Definition py_truediv (a b : Q) : result Q :=
  if Qeq_bool b 0 then Raise ZeroDivisionError else Ok (a / b).

(** [int(x)] on a float: truncation towards zero. *)
Definition py_int (x : Q) : Z := Z.quot (Qnum x) (Z.pos (Qden x)).

(** [sum(xs)] on floats. *)
Definition py_sum (xs : list Q) : Q := fold_left Qplus xs 0.

(** [min(xs)] and [max(xs)]: the first extremal element; an empty argument
    raises. *)
Definition py_min (xs : list Q) : result Q :=
  match xs with
  | [] => Raise (ValueError "min() arg is an empty sequence")
  | x :: rest => Ok (fold_left (fun best y => if Qltb y best then y else best) rest x)
  end.

Definition py_max (xs : list Q) : result Q :=
  match xs with
  | [] => Raise (ValueError "max() arg is an empty sequence")
  | x :: rest => Ok (fold_left (fun best y => if Qltb best y then y else best) rest x)
  end.

(** [s.upper()] on ASCII text. *)
Definition upper_ascii (c : ascii) : ascii :=
  let n := nat_of_ascii c in
  if ((97 <=? n)%nat && (n <=? 122)%nat)%bool then ascii_of_nat (n - 32) else c.

Fixpoint upper (s : string) : string :=
  match s with
  | EmptyString => EmptyString
  | String c s' => String (upper_ascii c) (upper s')
  end.

(** [needle in hay] on strings. *)
Fixpoint contains (needle hay : string) : bool :=
  (String.prefix needle hay ||
   match hay with
   | EmptyString => false
   | String _ hay' => contains needle hay'
   end)%bool.

(** [s.endswith(suffix)]; used in statements only. *)
Fixpoint endswith (s suffix : string) : bool :=
  (String.eqb s suffix ||
   match s with
   | EmptyString => false
   | String _ s' => endswith s' suffix
   end)%bool.

(** ** models.py *)

Module TradeInput.
Record t : Type := mk {
  ticker : string;
  entry_price : Q;
  stop_loss : Q;
  target : Q
}.

(** The pydantic constraints: the three [gt=0] fields and the validators
    on [ticker], [stop_loss] and [target]. *)
Definition valid (tr : t) : Prop :=
  ticker tr <> EmptyString /\
  0 < entry_price tr /\ 0 < stop_loss tr /\ 0 < target tr /\
  stop_loss tr < entry_price tr /\ entry_price tr < target tr.
End TradeInput.

Module Client.
Record t : Type := mk {
  account_number : string;
  equity_advisor : string;
  advisor : string;
  client_name : string;
  strategy : string;
  net_total : Q;
  net_available : Q;
  average_operation_value : Q
}.
End Client.

(** A diagnostic line: the leading mark of the f-string and its data. *)
Inductive mark : Type := Pass | Fail | Info.

Module TechnicalValidation.
Inductive message : Type :=
| CouldNotFetch (ticker : string)
| InsufficientLiquidity (daily_liquidity minimum : Q)
| LiquidityOK (daily_liquidity : Q)
| StopLossTooHigh (stop_loss_percent maximum : Q)
| StopLossOK (stop_loss_percent : Q)
| LowRiskReward (risk_reward_ratio minimum : Q)
| RiskRewardOK (risk_reward_ratio : Q)
| MaximumQuantity (max_quantity : Z) (volume_percent : Q)
| TradeApproved (ticker : string)
| TradeRejected (ticker : string).

Definition mark_of (m : message) : mark :=
  match m with
  | CouldNotFetch _ | InsufficientLiquidity _ _ | StopLossTooHigh _ _
  | LowRiskReward _ _ | TradeRejected _ => Fail
  | LiquidityOK _ | StopLossOK _ | RiskRewardOK _ | TradeApproved _ => Pass
  | MaximumQuantity _ _ => Info
  end.

Record t : Type := mk {
  valid : bool;
  daily_liquidity : Q;
  stop_loss_percent : Q;
  risk_reward_ratio : Q;
  max_quantity : Z;
  messages : list message
}.
End TechnicalValidation.

Module ClientOrder.
Record t : Type := mk {
  account_number : string;
  push_validity : string;
  order_validity : string;
  ticker : string;
  strategy : string;
  direction : string;
  quantity : Z;
  apparent_quantity : string;
  minimum_quantity : string;
  price_type : string;
  limit_price : Q;
  trigger_type : string;
  upper_trigger_price : string;
  upper_limit_price : string;
  lower_trigger_price : string;
  lower_limit_price : string;
  (* internal control, not exported *)
  client_name : option string;
  invested_amount : option Q
}.

(** The constructor call of [generate_basket]: the seven keyword arguments
    it passes, every other field at its declared default. *)
Definition make (account_number ticker : string) (quantity : Z)
    (price_type : string) (limit_price : Q)
    (client_name : string) (invested_amount : Q) : t :=
  {| account_number := account_number;
     push_validity := "hoje";
     order_validity := "hoje";
     ticker := ticker;
     strategy := "position";
     direction := "compra";
     quantity := quantity;
     apparent_quantity := EmptyString;
     minimum_quantity := EmptyString;
     price_type := price_type;
     limit_price := limit_price;
     trigger_type := EmptyString;
     upper_trigger_price := EmptyString;
     upper_limit_price := EmptyString;
     lower_trigger_price := EmptyString;
     lower_limit_price := EmptyString;
     client_name := Some client_name;
     invested_amount := Some invested_amount |}.
End ClientOrder.

(** ** services/market_data.py *)

Module MarketDataService.

(** One row of the price history returned by the quote provider. *)
Record Bar : Type := {
  Open : Q; High : Q; Low : Q; Close : Q; Volume : Q
}.

(** The keys of the info dictionary that the service reads; either may be
    missing. *)
Record Info : Type := {
  longName : option string;
  sector : option string
}.

(** What the quote provider answers for a symbol.  [history = None] and
    [info = None] stand for an exception raised while the history, resp.
    the info dictionary, is read. *)
Record Reply : Type := {
  history : option (list Bar);
  info : option Info
}.

Definition Provider : Type := string -> Reply.

(** The dictionary built by [get_ticker_data]. *)
Record Data : Type := {
  ticker : string;
  ticker_b3 : string;
  current_price : Q;
  average_daily_volume : Q;
  daily_liquidity : Q;
  open_price : Q;
  high_price : Q;
  low_price : Q;
  change_percent : Q;
  company_name : string;
  sector_name : string
}.

(** The service object: its cache, which maps a symbol to a pair of the
    data and a timestamp that is always [None], and the symbols requested
    from the provider so far (most recent last). *)
Record t : Type := {
  cache : gmap string (Data * option Z);
  requested : list string
}.

Definition init : t := {| cache := ∅; requested := [] |}.

(** [series.tail(n)] *)
Definition tail {A : Type} (n : nat) (l : list A) : list A :=
  skipn (length l - n) l.

(** [series.mean()] of a non-empty series *)
Definition mean (xs : list Q) : Q :=
  fold_left Qplus xs 0 / inject_Z (Z.of_nat (length xs)).

(** [series.iloc[-k]], for an index that is in range *)
Definition iloc_back (k : nat) (xs : list Q) : Q :=
  nth (length xs - k) xs 0.

(** The symbol under which a ticker is looked up, [ticker_b3]. *)
Definition normalize (ticker : string) : string :=
  if contains ".SA" (upper ticker) then ticker else ticker +:+ ".SA".

(** Any exception raised on the way is caught and turned into [None].  The
    arithmetic on the history is that of numpy and does not raise. *)
Definition get_ticker_data (provider : Provider) (ticker : string) (self : t)
    : option Data * t :=
  let ticker_b3 := normalize ticker in
  match cache self !! ticker_b3 with
  | Some (cached_data, timestamp) => (Some cached_data, self)
  | None =>
      let stock := provider ticker_b3 in
      let self := {| cache := cache self;
                     requested := requested self ++ [ticker_b3] |} in
      match history stock with
      | None => (None, self)
      | Some [] => (None, self)
      | Some hist =>
          match info stock with
          | None => (None, self)
          | Some info =>
              let avg_volume := mean (tail 20 (map Volume hist)) in
              let avg_price := mean (tail 20 (map Close hist)) in
              let daily_liquidity := avg_volume * avg_price in
              let current_price := iloc_back 1 (map Close hist) in
              let data :=
                {| ticker := ticker;
                   ticker_b3 := ticker_b3;
                   current_price := current_price;
                   average_daily_volume := avg_volume;
                   daily_liquidity := daily_liquidity;
                   open_price := iloc_back 1 (map Open hist);
                   high_price := iloc_back 1 (map High hist);
                   low_price := iloc_back 1 (map Low hist);
                   change_percent :=
                     if (1 <? length hist)%nat
                     then (current_price / iloc_back 2 (map Close hist) - 1) * 100
                     else 0;
                   company_name := default ticker (longName info);
                   sector_name := default "N/A" (sector info) |} in
              ((Some data),
               {| cache := <[ticker_b3 := (data, None)]> (cache self);
                  requested := requested self |})
          end
      end
  end.

Definition clear_cache (self : t) : t :=
  {| cache := ∅; requested := requested self |}.

End MarketDataService.

(** ** services/trade_validador.py *)

Module TradeValidator.
Import TechnicalValidation.

Definition MIN_LIQUIDITY : Q := 30000000.
Definition MAX_STOP_LOSS : Q := 8 # 100.
Definition MIN_RISK_REWARD : Q := 133 # 100.
Definition MAX_VOLUME_PERCENT : Q := 1 # 100.

Definition validate_trade (provider : MarketDataService.Provider)
    (trade : TradeInput.t) (market_service : MarketDataService.t)
    : result TechnicalValidation.t * MarketDataService.t :=
  let messages := [] in
  let valid := true in
  let '(market_data, market_service) :=
    MarketDataService.get_ticker_data provider (TradeInput.ticker trade)
      market_service in
  (match market_data with
   | None =>
       Ok {| valid := false;
             daily_liquidity := 0;
             stop_loss_percent := 0;
             risk_reward_ratio := 0;
             max_quantity := 0;
             messages := [CouldNotFetch (TradeInput.ticker trade)] |}
   | Some market_data =>
       let daily_liquidity := MarketDataService.daily_liquidity market_data in
       let avg_volume := MarketDataService.average_daily_volume market_data in
       (* rule 1 *)
       let '(valid, messages) :=
         if Qltb daily_liquidity MIN_LIQUIDITY
         then (false, messages ++ [InsufficientLiquidity daily_liquidity MIN_LIQUIDITY])
         else (valid, messages ++ [LiquidityOK daily_liquidity]) in
       (* rule 2 *)
       q ← py_truediv (TradeInput.stop_loss trade - TradeInput.entry_price trade)
                      (TradeInput.entry_price trade);
       let stop_loss_percent := Qabs q in
       let '(valid, messages) :=
         if Qltb MAX_STOP_LOSS stop_loss_percent
         then (false, messages ++ [StopLossTooHigh stop_loss_percent MAX_STOP_LOSS])
         else (valid, messages ++ [StopLossOK stop_loss_percent]) in
       (* rule 3 *)
       let risk := Qabs (TradeInput.entry_price trade - TradeInput.stop_loss trade) in
       let reward := Qabs (TradeInput.target trade - TradeInput.entry_price trade) in
       risk_reward_ratio ← (if Qltb 0 risk then py_truediv reward risk else Ok 0);
       let '(valid, messages) :=
         if Qltb risk_reward_ratio MIN_RISK_REWARD
         then (false, messages ++ [LowRiskReward risk_reward_ratio MIN_RISK_REWARD])
         else (valid, messages ++ [RiskRewardOK risk_reward_ratio]) in
       (* rule 4 *)
       let max_quantity := py_int (avg_volume * MAX_VOLUME_PERCENT) in
       let messages := messages ++ [MaximumQuantity max_quantity MAX_VOLUME_PERCENT] in
       (* final *)
       let messages :=
         if valid
         then TradeApproved (TradeInput.ticker trade) :: messages
         else TradeRejected (TradeInput.ticker trade) :: messages in
       Ok {| valid := valid;
             daily_liquidity := daily_liquidity;
             stop_loss_percent := stop_loss_percent;
             risk_reward_ratio := risk_reward_ratio;
             max_quantity := max_quantity;
             messages := messages |}
   end,
   market_service).

End TradeValidator.

(** ** services/basket_calculator.py *)

Module BasketCalculator.

Definition MIN_NET_TOTAL : Q := 20000.
Definition CAPITAL_PERCENT_PER_OPERATION : Q := 1 # 2.

(** The three diagnostics of [filter_eligible_clients]. *)
Inductive message : Type :=
| InsufficientNetTotal (client_name account_number : string) (net_total minimum : Q)
| InsufficientBalance (client_name account_number : string) (net_available needs : Q)
| Eligible (client_name account_number : string) (required_amount : Q).

Definition mark_of (m : message) : mark :=
  match m with
  | InsufficientNetTotal _ _ _ _ | InsufficientBalance _ _ _ _ => Fail
  | Eligible _ _ _ => Pass
  end.

(** One iteration of the loop of [filter_eligible_clients] on the pair
    [(eligible, messages)]. *)
Definition filter_eligible_clients_body
    (acc : list Client.t * list message) (client : Client.t)
    : list Client.t * list message :=
  let '(eligible, messages) := acc in
  if Qltb (Client.net_total client) MIN_NET_TOTAL then
    (eligible,
     messages ++ [InsufficientNetTotal (Client.client_name client)
                    (Client.account_number client)
                    (Client.net_total client) MIN_NET_TOTAL])
  else
    let required_amount := Client.net_total client * CAPITAL_PERCENT_PER_OPERATION in
    if Qltb (Client.net_available client) required_amount then
      (eligible,
       messages ++ [InsufficientBalance (Client.client_name client)
                      (Client.account_number client)
                      (Client.net_available client) required_amount])
    else
      (eligible ++ [client],
       messages ++ [Eligible (Client.client_name client)
                      (Client.account_number client) required_amount]).

Definition filter_eligible_clients (clients : list Client.t)
    : list Client.t * list message :=
  fold_left filter_eligible_clients_body clients ([], []).

Definition calculate_share_quantity
    (client : Client.t) (entry_price : Q) (max_quantity : Z) : result (Z * Q) :=
  let available_capital := Client.net_total client * CAPITAL_PERCENT_PER_OPERATION in
  q ← py_truediv available_capital entry_price;
  let ideal_quantity := py_int q in
  let final_quantity := Z.min ideal_quantity max_quantity in
  let invested_amount := inject_Z final_quantity * entry_price in
  if Qltb (Client.net_available client) invested_amount then
    q' ← py_truediv (Client.net_available client) entry_price;
    let final_quantity := py_int q' in
    let invested_amount := inject_Z final_quantity * entry_price in
    Ok (final_quantity, invested_amount)
  else
    Ok (final_quantity, invested_amount).

(** The warning logged for a skipped client. *)
Inductive log_record : Type :=
| ZeroQuantitySkipping (account_number : string).

(** The loop of [generate_basket] on the pair [(orders, warnings)]; an
    exception of [calculate_share_quantity] leaves the loop. *)
Fixpoint generate_basket_loop (trade : TradeInput.t)
    (validation : TechnicalValidation.t) (clients : list Client.t)
    (orders : list ClientOrder.t) (warnings : list log_record)
    : result (list ClientOrder.t * list log_record) :=
  match clients with
  | [] => Ok (orders, warnings)
  | client :: clients =>
      '(quantity, invested_amount) ←
        calculate_share_quantity client (TradeInput.entry_price trade)
          (TechnicalValidation.max_quantity validation);
      if (quantity =? 0)%Z then
        generate_basket_loop trade validation clients orders
          (warnings ++ [ZeroQuantitySkipping (Client.account_number client)])
      else
        let order :=
          ClientOrder.make (Client.account_number client)
            (TradeInput.ticker trade) quantity "l"
            (TradeInput.entry_price trade)
            (Client.client_name client) invested_amount in
        generate_basket_loop trade validation clients (orders ++ [order]) warnings
  end.

(** Returns the orders, and the warnings logged on the way. *)
Definition generate_basket (trade : TradeInput.t) (clients : list Client.t)
    (validation : TechnicalValidation.t)
    : result (list ClientOrder.t * list log_record) :=
  generate_basket_loop trade validation clients [] [].

(** The dictionary returned by [calculate_summary]. *)
Record Summary : Type := {
  total_orders : Z;
  total_shares : Z;
  total_invested : Q;
  average_investment : Q;
  min_investment : Q;
  max_investment : Q
}.

(** Truth value of an [Optional[float]]: [None] and [0.0] are false. *)
Definition truthy (x : option Q) : bool :=
  match x with
  | None => false
  | Some a => negb (Qeq_bool a 0)
  end.

Definition calculate_summary (orders : list ClientOrder.t) : result Summary :=
  match orders with
  | [] =>
      Ok {| total_orders := 0; total_shares := 0; total_invested := 0;
            average_investment := 0; min_investment := 0; max_investment := 0 |}
  | _ =>
      let amounts :=
        omap (fun order =>
                if truthy (ClientOrder.invested_amount order)
                then ClientOrder.invested_amount order else None) orders in
      let total_orders := Z.of_nat (length orders) in
      let total_shares := fold_left Z.add (map ClientOrder.quantity orders) 0%Z in
      let total_invested := py_sum amounts in
      average_investment ←
        py_truediv (py_sum amounts) (inject_Z (Z.of_nat (length amounts)));
      min_investment ← py_min amounts;
      max_investment ← py_max amounts;
      Ok {| total_orders := total_orders;
            total_shares := total_shares;
            total_invested := total_invested;
            average_investment := average_investment;
            min_investment := min_investment;
            max_investment := max_investment |}
  end.

End BasketCalculator.

(** ** services/excel_generator.py *)

Module ExcelGenerator.

Definition COLUMNS : list string :=
  [ "NUMERO_CONTA"; "VALIDADE_PUSH"; "VALIDADE_ORDEM"; "ATIVO"; "ESTRATEGIA";
    "DIRECAO"; "QUANTIDADE"; "QUANTIDADE_APARENTE"; "QUANTIDADE_MINIMA";
    "TIPO_PRECO"; "PRECO_LIMITE"; "TIPO_DISPARO"; "PRECO_DISPARO_CIMA";
    "PRECO_LIMITE_CIMA"; "PRECO_DISPARO_BAIXO"; "PRECO_LIMITE_BAIXO" ].

(** A spreadsheet cell; [NaN] is the missing-value marker of a data frame. *)
Inductive cell : Type :=
| Str (s : string)
| Int (z : Z)
| Float (q : Q)
| NaN.

Record DataFrame : Type := {
  columns : list string;
  rows : list (list cell)
}.

(** The dictionary of [order_to_dict], in the order of its literal. *)
Definition order_to_dict (order : ClientOrder.t) : list (string * cell) :=
  [ ("NUMERO_CONTA", Str (ClientOrder.account_number order));
    ("VALIDADE_PUSH", Str (ClientOrder.push_validity order));
    ("VALIDADE_ORDEM", Str (ClientOrder.order_validity order));
    ("ATIVO", Str (ClientOrder.ticker order));
    ("ESTRATEGIA", Str (ClientOrder.strategy order));
    ("DIRECAO", Str (ClientOrder.direction order));
    ("QUANTIDADE", Int (ClientOrder.quantity order));
    ("QUANTIDADE_APARENTE", Str (ClientOrder.apparent_quantity order));
    ("QUANTIDADE_MINIMA", Str (ClientOrder.minimum_quantity order));
    ("TIPO_PRECO", Str (ClientOrder.price_type order));
    ("PRECO_LIMITE", Float (ClientOrder.limit_price order));
    ("TIPO_DISPARO", Str (ClientOrder.trigger_type order));
    ("PRECO_DISPARO_CIMA", Str (ClientOrder.upper_trigger_price order));
    ("PRECO_LIMITE_CIMA", Str (ClientOrder.upper_limit_price order));
    ("PRECO_DISPARO_BAIXO", Str (ClientOrder.lower_trigger_price order));
    ("PRECO_LIMITE_BAIXO", Str (ClientOrder.lower_limit_price order)) ].

(** [d.get(key)], the missing-value marker when the key is absent. *)
Fixpoint dict_get (key : string) (d : list (string * cell)) : cell :=
  match d with
  | [] => NaN
  | (k, v) :: d' => if String.eqb k key then v else dict_get key d'
  end.

(** [pd.DataFrame(data, columns=columns)] on a list of dictionaries. *)
Definition DataFrame_of (data : list (list (string * cell)))
    (columns : list string) : DataFrame :=
  {| columns := columns;
     rows := map (fun d => map (fun c => dict_get c d) columns) data |}.

(** [df[col] = df[col].fillna(value)] *)
Definition fillna (col : string) (value : cell) (df : DataFrame) : DataFrame :=
  {| columns := columns df;
     rows :=
       map (fun row =>
              map (fun '(c, x) =>
                     if String.eqb c col
                     then match x with NaN => value | _ => x end
                     else x)
                  (combine (columns df) row))
           (rows df) |}.

(** The value of [datetime.now()], to the second. *)
Record datetime : Type := {
  year : N; month : N; day : N;
  hour : N; minute : N; second : N
}.

(** The ranges of the fields; years below 1000 are left out, as their
    rendering by [%Y] depends on the platform. *)
Definition datetime_ok (d : datetime) : Prop :=
  (1000 <= year d <= 9999 /\ 1 <= month d <= 12 /\ 1 <= day d <= 31 /\
   hour d < 24 /\ minute d < 60 /\ second d < 60)%N.

Definition digit (n : N) : ascii := ascii_of_N (48 + n mod 10).

(** Zero-padded decimal fields of [strftime]. *)
Definition pad2 (n : N) : string :=
  String (digit (n / 10)) (String (digit n) EmptyString).

Definition pad4 (n : N) : string :=
  String (digit (n / 1000)) (String (digit (n / 100)) (pad2 n)).

(** [now.strftime("%Y%m%d_%H%M%S")] *)
Definition strftime (now : datetime) : string :=
  pad4 (year now) +:+ pad2 (month now) +:+ pad2 (day now) +:+ "_" +:+
  pad2 (hour now) +:+ pad2 (minute now) +:+ pad2 (second now).

(** The generator object; the files written so far are part of its state. *)
Record t : Type := {
  output_dir : string;
  files : gmap string DataFrame
}.

Definition empty_columns : list string :=
  [ "QUANTIDADE_APARENTE"; "QUANTIDADE_MINIMA"; "TIPO_DISPARO";
    "PRECO_DISPARO_CIMA"; "PRECO_LIMITE_CIMA";
    "PRECO_DISPARO_BAIXO"; "PRECO_LIMITE_BAIXO" ].

Definition generate_excel (now : datetime) (orders : list ClientOrder.t)
    (ticker : string) (self : t) : result string * t :=
  match orders with
  | [] => (Raise (ValueError "Cannot generate Excel: no orders provided"), self)
  | _ =>
      let data := map order_to_dict orders in
      let df := DataFrame_of data COLUMNS in
      let df := fold_left (fun df col => fillna col (Str EmptyString) df)
                          empty_columns df in
      let timestamp := strftime now in
      let filename := "basket_" +:+ ticker +:+ "_" +:+ timestamp +:+ ".xlsx" in
      let filepath := output_dir self +:+ "/" +:+ filename in
      (Ok filepath,
       {| output_dir := output_dir self;
          files := <[filepath := df]> (files self) |})
  end.

End ExcelGenerator.

(** ** The services on IEEE doubles

    A Python [float] is an IEEE binary64 value: every operation rounds to
    nearest, a comparison with NaN is false, a division by zero raises, and
    [int] raises on NaN and on an infinity.  The verdict of
    [validate_trade] at its thresholds, the clients that
    [filter_eligible_clients] keeps, the share count of
    [calculate_share_quantity], the exceptions of [generate_basket] and the
    rows that the endpoint turns into clients all depend on this.  The
    module below embeds these functions on primitive binary64 values; the
    statements about them are about the doubles that the code computes. *)

#[local] Set Warnings "-inexact-float".

Module Binary64.

(** *** Python primitives *)

(** [int(x)]: truncation towards zero; NaN and the infinities raise. *)
Definition py_int (x : float) : result Z :=
  match Prim2SF x with
  | S754_zero _ => Ok 0%Z
  | S754_finite negative m e =>
      let magnitude :=
        if (0 <=? e)%Z then Z.shiftl (Z.pos m) e else Z.shiftr (Z.pos m) (- e) in
      Ok (if negative then (- magnitude)%Z else magnitude)
  | S754_infinity _ => Raise (OverflowError "cannot convert float infinity to integer")
  | S754_nan => Raise (ValueError "cannot convert float NaN to integer")
  end.

(** The conversion of an [int] operand of a float operation: the nearest
    double, ties to even; an [int] beyond the range of the doubles raises. *)
Definition of_int (n : Z) : result float :=
  match binary_normalize prec emax n 0 false with
  | S754_infinity _ => Raise (OverflowError "int too large to convert to float")
  | x => Ok (SF2Prim x)
  end.

(** [n * x] for an [int] and a [float]. *)
Definition py_mul_int (n : Z) (x : float) : result float :=
  n ← of_int n;
  Ok (PrimFloat.mul n x).

(** [a / b]: a zero divisor, of either sign, raises. *)
Definition py_truediv (a b : float) : result float :=
  if PrimFloat.eqb b 0%float then Raise ZeroDivisionError
  else Ok (PrimFloat.div a b).

(** *** models.py *)

Module TradeInput.
Record t : Type := mk {
  ticker : string;
  entry_price : float;
  stop_loss : float;
  target : float
}.
End TradeInput.

Module Client.
Record t : Type := mk {
  account_number : string;
  equity_advisor : string;
  advisor : string;
  client_name : string;
  strategy : string;
  net_total : float;
  net_available : float;
  average_operation_value : float
}.
End Client.

Module TechnicalValidation.
Inductive message : Type :=
| CouldNotFetch (ticker : string)
| InsufficientLiquidity (daily_liquidity minimum : float)
| LiquidityOK (daily_liquidity : float)
| StopLossTooHigh (stop_loss_percent maximum : float)
| StopLossOK (stop_loss_percent : float)
| LowRiskReward (risk_reward_ratio minimum : float)
| RiskRewardOK (risk_reward_ratio : float)
| MaximumQuantity (max_quantity : Z) (volume_percent : float)
| TradeApproved (ticker : string)
| TradeRejected (ticker : string).

Definition mark_of (m : message) : mark :=
  match m with
  | CouldNotFetch _ | InsufficientLiquidity _ _ | StopLossTooHigh _ _
  | LowRiskReward _ _ | TradeRejected _ => Fail
  | LiquidityOK _ | StopLossOK _ | RiskRewardOK _ | TradeApproved _ => Pass
  | MaximumQuantity _ _ => Info
  end.

Record t : Type := mk {
  valid : bool;
  daily_liquidity : float;
  stop_loss_percent : float;
  risk_reward_ratio : float;
  max_quantity : Z;
  messages : list message
}.
End TechnicalValidation.

Module ClientOrder.
Record t : Type := mk {
  account_number : string;
  push_validity : string;
  order_validity : string;
  ticker : string;
  strategy : string;
  direction : string;
  quantity : Z;
  apparent_quantity : string;
  minimum_quantity : string;
  price_type : string;
  limit_price : float;
  trigger_type : string;
  upper_trigger_price : string;
  upper_limit_price : string;
  lower_trigger_price : string;
  lower_limit_price : string;
  (* internal control, not exported *)
  client_name : option string;
  invested_amount : option float
}.

(** The constructor call of [generate_basket]. *)
Definition make (account_number ticker : string) (quantity : Z)
    (price_type : string) (limit_price : float)
    (client_name : string) (invested_amount : float) : t :=
  {| account_number := account_number;
     push_validity := "hoje";
     order_validity := "hoje";
     ticker := ticker;
     strategy := "position";
     direction := "compra";
     quantity := quantity;
     apparent_quantity := EmptyString;
     minimum_quantity := EmptyString;
     price_type := price_type;
     limit_price := limit_price;
     trigger_type := EmptyString;
     upper_trigger_price := EmptyString;
     upper_limit_price := EmptyString;
     lower_trigger_price := EmptyString;
     lower_limit_price := EmptyString;
     client_name := Some client_name;
     invested_amount := Some invested_amount |}.
End ClientOrder.

(** *** services/trade_validador.py *)

Module MarketDataService.

(** The dictionary that [get_ticker_data] returns. *)
Record Data : Type := {
  ticker : string;
  ticker_b3 : string;
  current_price : float;
  average_daily_volume : float;
  daily_liquidity : float;
  open_price : float;
  high_price : float;
  low_price : float;
  change_percent : float;
  company_name : string;
  sector_name : string
}.

End MarketDataService.

Module TradeValidator.
Import TechnicalValidation.

Definition MIN_LIQUIDITY : float := 30000000%float.
Definition MAX_STOP_LOSS : float := 0.08%float.
Definition MIN_RISK_REWARD : float := 1.33%float.
Definition MAX_VOLUME_PERCENT : float := 0.01%float.

Section Service.

(** The market data service that the validator holds: its state, and its
    method [get_ticker_data]. *)
Variable service : Type.
Variable get_ticker_data : string -> service -> option MarketDataService.Data * service.

Definition validate_trade (trade : TradeInput.t) (market_service : service)
    : result TechnicalValidation.t * service :=
  let messages := [] in
  let valid := true in
  let '(market_data, market_service) :=
    get_ticker_data (TradeInput.ticker trade) market_service in
  (match market_data with
   | None =>
       Ok {| valid := false;
             daily_liquidity := 0%float;
             stop_loss_percent := 0%float;
             risk_reward_ratio := 0%float;
             max_quantity := 0;
             messages := [CouldNotFetch (TradeInput.ticker trade)] |}
   | Some market_data =>
       let daily_liquidity := MarketDataService.daily_liquidity market_data in
       let avg_volume := MarketDataService.average_daily_volume market_data in
       (* rule 1 *)
       let '(valid, messages) :=
         if PrimFloat.ltb daily_liquidity MIN_LIQUIDITY
         then (false, messages ++ [InsufficientLiquidity daily_liquidity MIN_LIQUIDITY])
         else (valid, messages ++ [LiquidityOK daily_liquidity]) in
       (* rule 2 *)
       q ← py_truediv (PrimFloat.sub (TradeInput.stop_loss trade)
                         (TradeInput.entry_price trade))
                      (TradeInput.entry_price trade);
       let stop_loss_percent := PrimFloat.abs q in
       let '(valid, messages) :=
         if PrimFloat.ltb MAX_STOP_LOSS stop_loss_percent
         then (false, messages ++ [StopLossTooHigh stop_loss_percent MAX_STOP_LOSS])
         else (valid, messages ++ [StopLossOK stop_loss_percent]) in
       (* rule 3 *)
       let risk :=
         PrimFloat.abs (PrimFloat.sub (TradeInput.entry_price trade)
                          (TradeInput.stop_loss trade)) in
       let reward :=
         PrimFloat.abs (PrimFloat.sub (TradeInput.target trade)
                          (TradeInput.entry_price trade)) in
       risk_reward_ratio ←
         (if PrimFloat.ltb 0%float risk then py_truediv reward risk else Ok 0%float);
       let '(valid, messages) :=
         if PrimFloat.ltb risk_reward_ratio MIN_RISK_REWARD
         then (false, messages ++ [LowRiskReward risk_reward_ratio MIN_RISK_REWARD])
         else (valid, messages ++ [RiskRewardOK risk_reward_ratio]) in
       (* rule 4 *)
       max_quantity ← py_int (PrimFloat.mul avg_volume MAX_VOLUME_PERCENT);
       let messages := messages ++ [MaximumQuantity max_quantity MAX_VOLUME_PERCENT] in
       (* final *)
       let messages :=
         if valid
         then TradeApproved (TradeInput.ticker trade) :: messages
         else TradeRejected (TradeInput.ticker trade) :: messages in
       Ok {| valid := valid;
             daily_liquidity := daily_liquidity;
             stop_loss_percent := stop_loss_percent;
             risk_reward_ratio := risk_reward_ratio;
             max_quantity := max_quantity;
             messages := messages |}
   end,
   market_service).

End Service.

End TradeValidator.

(** *** services/basket_calculator.py *)

Module BasketCalculator.

Definition MIN_NET_TOTAL : float := 20000%float.
Definition CAPITAL_PERCENT_PER_OPERATION : float := 0.5%float.

Inductive message : Type :=
| InsufficientNetTotal (client_name account_number : string) (net_total minimum : float)
| InsufficientBalance (client_name account_number : string) (net_available needs : float)
| Eligible (client_name account_number : string) (required_amount : float).

Definition mark_of (m : message) : mark :=
  match m with
  | InsufficientNetTotal _ _ _ _ | InsufficientBalance _ _ _ _ => Fail
  | Eligible _ _ _ => Pass
  end.

(** One iteration of the loop of [filter_eligible_clients]. *)
Definition filter_eligible_clients_body
    (acc : list Client.t * list message) (client : Client.t)
    : list Client.t * list message :=
  let '(eligible, messages) := acc in
  if PrimFloat.ltb (Client.net_total client) MIN_NET_TOTAL then
    (eligible,
     messages ++ [InsufficientNetTotal (Client.client_name client)
                    (Client.account_number client)
                    (Client.net_total client) MIN_NET_TOTAL])
  else
    let required_amount :=
      PrimFloat.mul (Client.net_total client) CAPITAL_PERCENT_PER_OPERATION in
    if PrimFloat.ltb (Client.net_available client) required_amount then
      (eligible,
       messages ++ [InsufficientBalance (Client.client_name client)
                      (Client.account_number client)
                      (Client.net_available client) required_amount])
    else
      (eligible ++ [client],
       messages ++ [Eligible (Client.client_name client)
                      (Client.account_number client) required_amount]).

Definition filter_eligible_clients (clients : list Client.t)
    : list Client.t * list message :=
  fold_left filter_eligible_clients_body clients ([], []).

Definition calculate_share_quantity
    (client : Client.t) (entry_price : float) (max_quantity : Z)
    : result (Z * float) :=
  let available_capital :=
    PrimFloat.mul (Client.net_total client) CAPITAL_PERCENT_PER_OPERATION in
  q ← py_truediv available_capital entry_price;
  ideal_quantity ← py_int q;
  let final_quantity := Z.min ideal_quantity max_quantity in
  invested_amount ← py_mul_int final_quantity entry_price;
  (* safety check *)
  if PrimFloat.ltb (Client.net_available client) invested_amount then
    q' ← py_truediv (Client.net_available client) entry_price;
    final_quantity ← py_int q';
    invested_amount ← py_mul_int final_quantity entry_price;
    Ok (final_quantity, invested_amount)
  else
    Ok (final_quantity, invested_amount).

(** The warning logged for a skipped client. *)
Inductive log_record : Type :=
| ZeroQuantitySkipping (account_number : string).

(** The loop of [generate_basket] on the pair [(orders, warnings)]; an
    exception of [calculate_share_quantity] leaves the loop. *)
Fixpoint generate_basket_loop (trade : TradeInput.t)
    (validation : TechnicalValidation.t) (clients : list Client.t)
    (orders : list ClientOrder.t) (warnings : list log_record)
    : result (list ClientOrder.t * list log_record) :=
  match clients with
  | [] => Ok (orders, warnings)
  | client :: clients =>
      '(quantity, invested_amount) ←
        calculate_share_quantity client (TradeInput.entry_price trade)
          (TechnicalValidation.max_quantity validation);
      if (quantity =? 0)%Z then
        generate_basket_loop trade validation clients orders
          (warnings ++ [ZeroQuantitySkipping (Client.account_number client)])
      else
        let order :=
          ClientOrder.make (Client.account_number client)
            (TradeInput.ticker trade) quantity "l"
            (TradeInput.entry_price trade)
            (Client.client_name client) invested_amount in
        generate_basket_loop trade validation clients (orders ++ [order]) warnings
  end.

(** Returns the orders, and the warnings logged on the way. *)
Definition generate_basket (trade : TradeInput.t) (clients : list Client.t)
    (validation : TechnicalValidation.t)
    : result (list ClientOrder.t * list log_record) :=
  generate_basket_loop trade validation clients [] [].

End BasketCalculator.

(** *** main.py: the rows of the client table *)

Module Main.

(** A cell of the uploaded client table as the endpoint uses it: the text
    that [str] gives for it, and what [float] gives: a double, NaN for a
    blank cell of a numeric column, or an exception, [None] here, for text
    that is no number. *)
Record Cell : Type := {
  as_str : string;
  as_float : option float
}.

(** A row of the table, by column; [None] is a column the table lacks. *)
Record Row : Type := {
  NUMERO_CONTA : option Cell;
  ASSESSOR_RV : option Cell;
  ADVISOR : option Cell;
  CLIENTE : option Cell;
  ESTRATEGIA : option Cell;
  NET_TOTAL : option Cell;
  NET_DISPONIVEL : option Cell;
  VALOR_MEDIO_POR_OPERACAO : option Cell
}.

(** [str(row[key])]: a missing column raises. *)
Definition str_item (c : option Cell) : option string := as_str <$> c.

(** [str(row.get(key, ''))] *)
Definition str_get (c : option Cell) : string :=
  match c with Some c => as_str c | None => EmptyString end.

(** [float(row[key])]: a missing column and text that is no number raise. *)
Definition float_item (c : option Cell) : option float := c ≫= as_float.

(** The body of the [try] that builds a [Client] from a row; [None] when it
    raises, in which case the row is skipped. *)
Definition client_of_row (row : Row) : option Client.t :=
  account_number ← str_item (NUMERO_CONTA row);
  let equity_advisor := str_get (ASSESSOR_RV row) in
  let advisor := str_get (ADVISOR row) in
  client_name ← str_item (CLIENTE row);
  let strategy := str_get (ESTRATEGIA row) in
  net_total ← float_item (NET_TOTAL row);
  (* the default of [row.get] is evaluated first: [row['NET TOTAL']] *)
  default_available ← NET_TOTAL row;
  net_available ← as_float (default default_available (NET_DISPONIVEL row));
  average_operation_value ←
    match VALOR_MEDIO_POR_OPERACAO row with
    | Some c => as_float c
    | None => Some 0%float
    end;
  Some (Client.mk account_number equity_advisor advisor client_name strategy
          net_total net_available average_operation_value).

(** The loop over the rows of the table. *)
Definition clients_of_rows (rows : list Row) : list Client.t :=
  fold_left (fun clients row =>
               match client_of_row row with
               | Some client => clients ++ [client]
               | None => clients
               end) rows [].

End Main.

End Binary64.

(** ** Vocabulary of the statements

    The definitions below are not part of the program: they name the
    quantities and conditions that the properties talk about. *)

Import BasketCalculator.

(** A client as the allocation sees it: only the two capital fields matter. *)
Definition client_with (net_total net_available : Q) : Client.t :=
  Client.mk "0001" "RV" "ADV" "client" "position" net_total net_available 0.

(** The quantity before the safety check, as [calculate_share_quantity]
    computes it. *)
Definition pre_clamp_quantity (client : Client.t) (entry_price : Q)
    (max_quantity : Z) : Z :=
  Z.min (py_int (Client.net_total client * (1 # 2) / entry_price)) max_quantity.

(** The eligibility condition of [filter_eligible_clients], and the test
    that the loop performs. *)
Definition eligible (client : Client.t) : Prop :=
  MIN_NET_TOTAL <= Client.net_total client /\
  Client.net_total client * CAPITAL_PERCENT_PER_OPERATION <= Client.net_available client.

Definition eligibleb (client : Client.t) : bool :=
  negb (Qltb (Client.net_total client) MIN_NET_TOTAL) &&
  negb (Qltb (Client.net_available client)
             (Client.net_total client * CAPITAL_PERCENT_PER_OPERATION)).

(** The diagnostic that the loop body appends for one client. *)
Definition diagnostic (client : Client.t) : message :=
  let name := Client.client_name client in
  let account := Client.account_number client in
  if Qltb (Client.net_total client) MIN_NET_TOTAL then
    InsufficientNetTotal name account (Client.net_total client) MIN_NET_TOTAL
  else if Qltb (Client.net_available client)
               (Client.net_total client * CAPITAL_PERCENT_PER_OPERATION) then
    InsufficientBalance name account (Client.net_available client)
      (Client.net_total client * CAPITAL_PERCENT_PER_OPERATION)
  else
    Eligible name account (Client.net_total client * CAPITAL_PERCENT_PER_OPERATION).

(** The order that [generate_basket] builds for a client that gets
    [quantity] shares for [invested]. *)
Definition order_for (trade : TradeInput.t) (client : Client.t)
    (quantity : Z) (invested : Q) : ClientOrder.t :=
  ClientOrder.make (Client.account_number client) (TradeInput.ticker trade)
    quantity "l" (TradeInput.entry_price trade) (Client.client_name client) invested.

(** The trade of the scenarios: entry 20, stop 19, target 21.5. *)
Definition example_trade : TradeInput.t :=
  TradeInput.mk "PETR4" 20 19 (43 # 2).

(** An order as [calculate_summary] sees it: quantity and invested amount. *)
Definition order_with (quantity : Z) (invested_amount : option Q) : ClientOrder.t :=
  ClientOrder.mk "0001" "hoje" "hoje" "PETR4" "position" "compra" quantity
    EmptyString EmptyString "l" 20 EmptyString EmptyString EmptyString
    EmptyString EmptyString (Some "client") invested_amount.

(** The invested amounts that are present, and those that [calculate_summary]
    keeps: present and not zero. *)
Definition present_amounts (orders : list ClientOrder.t) : list Q :=
  omap ClientOrder.invested_amount orders.

Definition kept_amounts (orders : list ClientOrder.t) : list Q :=
  List.filter (fun a => negb (Qeq_bool a 0)) (present_amounts orders).

(** [m] is a least, resp. greatest, element of [xs]. *)
Definition is_min (m : Q) (xs : list Q) : Prop :=
  In m xs /\ forall x, In x xs -> m <= x.

Definition is_max (m : Q) (xs : list Q) : Prop :=
  In m xs /\ forall x, In x xs -> x <= m.

(** Sums of a list, written by structural recursion. *)
Definition Zsum (l : list Z) : Z := fold_right Z.add 0%Z l.

Definition Qsum (l : list Q) : Q := fold_right Qplus 0 l.

(** The summary with every field zero. *)
Definition zero_summary : Summary :=
  {| total_orders := 0; total_shares := 0; total_invested := 0;
     average_investment := 0; min_investment := 0; max_investment := 0 |}.

(** A provider that knows no symbol: every history is empty. *)
Definition no_data : MarketDataService.Provider :=
  fun _ => {| MarketDataService.history := Some [];
              MarketDataService.info := None |}.

(** A provider answering every symbol with [days] identical rows. *)
Definition flat_history (days : nat) (close volume : Q) : MarketDataService.Provider :=
  fun _ =>
    {| MarketDataService.history :=
         Some (repeat {| MarketDataService.Open := close;
                         MarketDataService.High := close;
                         MarketDataService.Low := close;
                         MarketDataService.Close := close;
                         MarketDataService.Volume := volume |} days);
       MarketDataService.info :=
         Some {| MarketDataService.longName := Some "Petrobras";
                 MarketDataService.sector := None |} |}.

(** The data that a fetch returns, when it returns some. *)
Definition fetched_data (provider : MarketDataService.Provider) (ticker : string)
    (service : MarketDataService.t) : MarketDataService.Data :=
  default
    {| MarketDataService.ticker := EmptyString;
       MarketDataService.ticker_b3 := EmptyString;
       MarketDataService.current_price := 0;
       MarketDataService.average_daily_volume := 0;
       MarketDataService.daily_liquidity := 0;
       MarketDataService.open_price := 0;
       MarketDataService.high_price := 0;
       MarketDataService.low_price := 0;
       MarketDataService.change_percent := 0;
       MarketDataService.company_name := EmptyString;
       MarketDataService.sector_name := EmptyString |}
    (fst (MarketDataService.get_ticker_data provider ticker service)).

(** The sixteen cells exported for an order, in column order. *)
Definition export_row (order : ClientOrder.t) : list ExcelGenerator.cell :=
  [ ExcelGenerator.Str (ClientOrder.account_number order);
    ExcelGenerator.Str (ClientOrder.push_validity order);
    ExcelGenerator.Str (ClientOrder.order_validity order);
    ExcelGenerator.Str (ClientOrder.ticker order);
    ExcelGenerator.Str (ClientOrder.strategy order);
    ExcelGenerator.Str (ClientOrder.direction order);
    ExcelGenerator.Int (ClientOrder.quantity order);
    ExcelGenerator.Str (ClientOrder.apparent_quantity order);
    ExcelGenerator.Str (ClientOrder.minimum_quantity order);
    ExcelGenerator.Str (ClientOrder.price_type order);
    ExcelGenerator.Float (ClientOrder.limit_price order);
    ExcelGenerator.Str (ClientOrder.trigger_type order);
    ExcelGenerator.Str (ClientOrder.upper_trigger_price order);
    ExcelGenerator.Str (ClientOrder.upper_limit_price order);
    ExcelGenerator.Str (ClientOrder.lower_trigger_price order);
    ExcelGenerator.Str (ClientOrder.lower_limit_price order) ].

(** The seven optional fields of an order, in column order. *)
Definition optional_fields (order : ClientOrder.t) : list string :=
  [ ClientOrder.apparent_quantity order; ClientOrder.minimum_quantity order;
    ClientOrder.trigger_type order; ClientOrder.upper_trigger_price order;
    ClientOrder.upper_limit_price order; ClientOrder.lower_trigger_price order;
    ClientOrder.lower_limit_price order ].

(** The cell of a row under a column name. *)
Definition cell_at (df : ExcelGenerator.DataFrame) (row : list ExcelGenerator.cell)
    (col : string) : option ExcelGenerator.cell :=
  snd <$> List.find (fun '(c, _) => String.eqb c col)
            (combine (ExcelGenerator.columns df) row).

(** The timestamp of the file-name pattern of the specification,
    [YYYYMMDDHHMMSS]: fourteen digits, no separator. *)
Definition claimed_timestamp (now : ExcelGenerator.datetime) : string :=
  ExcelGenerator.pad4 (ExcelGenerator.year now) +:+
  ExcelGenerator.pad2 (ExcelGenerator.month now) +:+
  ExcelGenerator.pad2 (ExcelGenerator.day now) +:+
  ExcelGenerator.pad2 (ExcelGenerator.hour now) +:+
  ExcelGenerator.pad2 (ExcelGenerator.minute now) +:+
  ExcelGenerator.pad2 (ExcelGenerator.second now).

Definition is_digit (c : ascii) : bool :=
  (48 <=? nat_of_ascii c)%nat && (nat_of_ascii c <=? 57)%nat.

Fixpoint all_digits (s : string) : bool :=
  match s with
  | EmptyString => true
  | String c s' => is_digit c && all_digits s'
  end.

(** 2 January 2024, 03:04:05. *)
Definition example_now : ExcelGenerator.datetime :=
  {| ExcelGenerator.year := 2024; ExcelGenerator.month := 1;
     ExcelGenerator.day := 2; ExcelGenerator.hour := 3;
     ExcelGenerator.minute := 4; ExcelGenerator.second := 5 |}.

(** A generator that has written nothing yet. *)
Definition fresh_generator : ExcelGenerator.t :=
  {| ExcelGenerator.output_dir := "output"; ExcelGenerator.files := ∅ |}.

(** ** models.py: construction of a [TradeInput] *)

Module TradeInputFields.

(** The characters that [str.strip()] removes, within ASCII. *)
Definition is_space (c : ascii) : bool :=
  let n := nat_of_ascii c in
  ((9 <=? n)%nat && (n <=? 13)%nat) || ((28 <=? n)%nat && (n <=? 32)%nat).

Fixpoint lstrip (s : string) : string :=
  match s with
  | EmptyString => EmptyString
  | String c s' => if is_space c then lstrip s' else s
  end.

Fixpoint rstrip (s : string) : string :=
  match s with
  | EmptyString => EmptyString
  | String c s' =>
      match rstrip s' with
      | EmptyString => if is_space c then EmptyString else String c EmptyString
      | rest => String c rest
      end
  end.

(** [s.strip()] *)
Definition strip (s : string) : string := lstrip (rstrip s).

(** One entry of a [ValidationError]: the field and what failed, the [gt=0]
    constraint of the field or the validator of the class. *)
Inductive field_error : Type :=
| ticker_empty
| entry_price_not_positive
| stop_loss_not_positive
| stop_loss_not_below_entry
| target_not_positive
| target_not_above_entry.

Inductive construction : Type :=
| Constructed (trade : TradeInput.t)
| ValidationError (errors : list field_error).

(** [validate_ticker] *)
Definition validate_ticker (v : string) : list field_error + string :=
  let v := strip (upper v) in
  match v with
  | EmptyString => inl [ticker_empty]
  | _ => inr v
  end.

(** The constraint [gt=0] of a price field. *)
Definition gt0 (e : field_error) (v : Q) : list field_error + Q :=
  if Qltb 0 v then inr v else inl [e].

(** [validate_stop_loss]; [entry_price] is [values.get('entry_price')], absent
    when that field did not validate. *)
Definition validate_stop_loss (v : Q) (entry_price : option Q) : list field_error + Q :=
  match entry_price with
  | Some entry => if Qle_bool entry v then inl [stop_loss_not_below_entry] else inr v
  | None => inr v
  end.

(** [validate_target] *)
Definition validate_target (v : Q) (entry_price : option Q) : list field_error + Q :=
  match entry_price with
  | Some entry => if Qle_bool v entry then inl [target_not_above_entry] else inr v
  | None => inr v
  end.

Definition errors_of {A : Type} (r : list field_error + A) : list field_error :=
  match r with inl es => es | inr _ => [] end.

Definition value_of {A : Type} (r : list field_error + A) : option A :=
  match r with inl _ => None | inr a => Some a end.

(** [TradeInput(ticker=..., entry_price=..., stop_loss=..., target=...)]: the
    fields are validated in the order of their declaration, the validator of
    a field runs when its constraint holds, and the errors of all fields are
    collected. *)
Definition TradeInput_init (ticker : string) (entry_price stop_loss target : Q)
    : construction :=
  let r_ticker := validate_ticker ticker in
  let r_entry := gt0 entry_price_not_positive entry_price in
  let r_stop :=
    match gt0 stop_loss_not_positive stop_loss with
    | inr v => validate_stop_loss v (value_of r_entry)
    | inl es => inl es
    end in
  let r_target :=
    match gt0 target_not_positive target with
    | inr v => validate_target v (value_of r_entry)
    | inl es => inl es
    end in
  match r_ticker, r_entry, r_stop, r_target with
  | inr ticker, inr entry_price, inr stop_loss, inr target =>
      Constructed (TradeInput.mk ticker entry_price stop_loss target)
  | _, _, _, _ =>
      ValidationError (errors_of r_ticker ++ errors_of r_entry ++
                       errors_of r_stop ++ errors_of r_target)
  end.

End TradeInputFields.

(** ** services/market_data.py: the two accessors *)

Module MarketDataAccessors.

Definition get_daily_liquidity (provider : MarketDataService.Provider)
    (ticker : string) (self : MarketDataService.t) : option Q * MarketDataService.t :=
  let '(data, self) := MarketDataService.get_ticker_data provider ticker self in
  (MarketDataService.daily_liquidity <$> data, self).

Definition get_current_price (provider : MarketDataService.Provider)
    (ticker : string) (self : MarketDataService.t) : option Q * MarketDataService.t :=
  let '(data, self) := MarketDataService.get_ticker_data provider ticker self in
  (MarketDataService.current_price <$> data, self).

End MarketDataAccessors.

(** ** services/trade_validador.py: [quick_validate] *)

Module QuickValidate.

(** The text returned beside the flag: the diagnostics joined by newlines,
    or the text of the exception that was caught. *)
Inductive text : Type :=
| Joined (messages : list TechnicalValidation.message)
| ValidationErrorText (errors : list TradeInputFields.field_error)
| ExceptionText (e : exn).


End QuickValidate.

(** ** services/excel_generator.py: [validate_format] *)

Module ExcelFormat.

(** [pd.read_excel(filepath)]: the frame that was written under the path; a
    path that holds no file raises.  [validate_format] looks at the header
    and the number of rows only, so the way cell values are read back is
    left out. *)
Definition read_excel (filepath : string) (self : ExcelGenerator.t)
    : option ExcelGenerator.DataFrame :=
  ExcelGenerator.files self !! filepath.

Definition list_string_eqb (a b : list string) : bool :=
  bool_decide (a = b).

Definition validate_format (filepath : string) (self : ExcelGenerator.t) : bool :=
  match read_excel filepath self with
  | None => false
  | Some df =>
      if negb (list_string_eqb (ExcelGenerator.columns df) ExcelGenerator.COLUMNS)
      then false
      else if (length (ExcelGenerator.rows df) =? 0)%nat then false
      else true
  end.

End ExcelFormat.

(** ** main.py: the basket endpoint *)

Module Main.

(** The module imports the validator as [services.trade_validator]; the
    class modelled is [TradeValidator] of [services/trade_validador.py], the
    only one in the sources. *)

(** A cell of the uploaded client table as the endpoint uses it: the text
    that [str] gives for it, and the number that [float] gives, if [float]
    accepts it.  The conversions themselves are those of the libraries.
    Numbers are finite here: a cell that [float] turns into NaN or an
    infinity, such as a blank cell of a CSV file, is outside this reading;
    the conversion of rows with such cells is that of [Binary64.Main]. *)
Record Cell : Type := {
  as_str : string;
  as_float : option Q
}.

(** A row of the table, by column; [None] is a column the table lacks. *)
Record Row : Type := {
  NUMERO_CONTA : option Cell;
  ASSESSOR_RV : option Cell;
  ADVISOR : option Cell;
  CLIENTE : option Cell;
  ESTRATEGIA : option Cell;
  NET_TOTAL : option Cell;
  NET_DISPONIVEL : option Cell;
  VALOR_MEDIO_POR_OPERACAO : option Cell
}.

(** [str(row[key])]: a missing column raises. *)
Definition str_item (c : option Cell) : option string := as_str <$> c.

(** [str(row.get(key, ''))] *)
Definition str_get (c : option Cell) : string :=
  match c with Some c => as_str c | None => EmptyString end.

(** [float(row[key])]: a missing column and a value that is no number raise. *)
Definition float_item (c : option Cell) : option Q := c ≫= as_float.

(** The body of the [try] that builds a [Client] from a row; [None] when it
    raises, in which case the row is skipped. *)
Definition client_of_row (row : Row) : option Client.t :=
  account_number ← str_item (NUMERO_CONTA row);
  let equity_advisor := str_get (ASSESSOR_RV row) in
  let advisor := str_get (ADVISOR row) in
  client_name ← str_item (CLIENTE row);
  let strategy := str_get (ESTRATEGIA row) in
  net_total ← float_item (NET_TOTAL row);
  (* the default of [row.get] is evaluated first: [row['NET TOTAL']] *)
  default_available ← NET_TOTAL row;
  net_available ← as_float (default default_available (NET_DISPONIVEL row));
  average_operation_value ←
    match VALOR_MEDIO_POR_OPERACAO row with
    | Some c => as_float c
    | None => Some 0
    end;
  Some (Client.mk account_number equity_advisor advisor client_name strategy
          net_total net_available average_operation_value).

(** The loop over the rows of the table. *)
Definition clients_of_rows (rows : list Row) : list Client.t :=
  fold_left (fun clients row =>
               match client_of_row row with
               | Some client => clients ++ [client]
               | None => clients
               end) rows [].

Record BasketOutput : Type := {
  trade_valid : bool;
  technical_validation : TechnicalValidation.t;
  orders : list ClientOrder.t;
  total_clients : nat;
  total_orders : nat;
  total_invested_amount : Q;
  (* [{}] on a rejected trade *)
  summary : option BasketCalculator.Summary;
  timestamp : ExcelGenerator.datetime
}.

(** The services created when the module is loaded. *)
Record Services : Type := {
  market_service : MarketDataService.t;
  excel_generator : ExcelGenerator.t
}.

(** [POST /api/gerar-basket] on a trade and the rows of the uploaded table.
    [Raise] stands for the response 500 that any exception is turned into.
    The clock is read by [generate_excel], at [excel_time], and when the
    response is built, at [response_time]. *)
Definition gerar_basket (provider : MarketDataService.Provider)
    (excel_time response_time : ExcelGenerator.datetime)
    (trade : TradeInput.t) (rows : list Row)
    (services : Services) : result BasketOutput * Services :=
  let '(validation, market) :=
    TradeValidator.validate_trade provider trade (market_service services) in
  let services := {| market_service := market;
                     excel_generator := excel_generator services |} in
  match validation with
  | Raise e => (Raise e, services)
  | Ok validation =>
      if negb (TechnicalValidation.valid validation) then
        (Ok {| trade_valid := false;
               technical_validation := validation;
               orders := [];
               total_clients := 0;
               total_orders := 0;
               total_invested_amount := 0;
               summary := None;
               timestamp := response_time |}, services)
      else
        let clients := clients_of_rows rows in
        let '(eligible_clients, messages) :=
          BasketCalculator.filter_eligible_clients clients in
        match BasketCalculator.generate_basket trade eligible_clients validation with
        | Raise e => (Raise e, services)
        | Ok (orders, warnings) =>
            (* [if orders: excel_path = generate_excel(...)] *)
            let '(raised, generator) :=
              match orders with
              | [] => (None, excel_generator services)
              | _ =>
                  match ExcelGenerator.generate_excel excel_time orders
                          (TradeInput.ticker trade) (excel_generator services) with
                  | (Ok excel_path, generator) => (None, generator)
                  | (Raise e, generator) => (Some e, generator)
                  end
              end in
            let services := {| market_service := market_service services;
                               excel_generator := generator |} in
            match raised with
            | Some e => (Raise e, services)
            | None =>
                match BasketCalculator.calculate_summary orders with
                | Raise e => (Raise e, services)
                | Ok summary =>
                    (Ok {| trade_valid := true;
                           technical_validation := validation;
                           orders := orders;
                           total_clients := length clients;
                           total_orders := length orders;
                           total_invested_amount :=
                             BasketCalculator.total_invested summary;
                           summary := Some summary;
                           timestamp := response_time |}, services)
                end
            end
        end
  end.

End Main.

(** ** Vocabulary of the further properties *)

(** Every cache entry sits under the symbol recorded in its data, a symbol
    that contains [.SA], with no timestamp. *)
Definition cache_keyed (self : MarketDataService.t) : Prop :=
  forall symbol data timestamp,
    MarketDataService.cache self !! symbol = Some (data, timestamp) ->
    MarketDataService.ticker_b3 data = symbol /\
    contains ".SA" (upper symbol) = true /\
    timestamp = None.

(** A provider whose histories hold no negative volume or closing price. *)
Definition nonneg_provider (provider : MarketDataService.Provider) : Prop :=
  forall symbol hist,
    MarketDataService.history (provider symbol) = Some hist ->
    Forall (fun bar => 0 <= MarketDataService.Volume bar /\
                       0 <= MarketDataService.Close bar) hist.

Definition data_nonneg (data : MarketDataService.Data) : Prop :=
  0 <= MarketDataService.average_daily_volume data /\
  0 <= MarketDataService.daily_liquidity data /\
  0 <= MarketDataService.current_price data.

Definition cache_nonneg (self : MarketDataService.t) : Prop :=
  forall symbol data timestamp,
    MarketDataService.cache self !! symbol = Some (data, timestamp) ->
    data_nonneg data.

(** The dictionary that [get_ticker_data] builds from a history that is not
    empty and the info of the symbol. *)
Definition snapshot_of (ticker ticker_b3 : string)
    (hist : list MarketDataService.Bar) (info : MarketDataService.Info)
    : MarketDataService.Data :=
  let avg_volume :=
    MarketDataService.mean
      (MarketDataService.tail 20 (map MarketDataService.Volume hist)) in
  let avg_price :=
    MarketDataService.mean
      (MarketDataService.tail 20 (map MarketDataService.Close hist)) in
  let current_price :=
    MarketDataService.iloc_back 1 (map MarketDataService.Close hist) in
  {| MarketDataService.ticker := ticker;
     MarketDataService.ticker_b3 := ticker_b3;
     MarketDataService.current_price := current_price;
     MarketDataService.average_daily_volume := avg_volume;
     MarketDataService.daily_liquidity := avg_volume * avg_price;
     MarketDataService.open_price :=
       MarketDataService.iloc_back 1 (map MarketDataService.Open hist);
     MarketDataService.high_price :=
       MarketDataService.iloc_back 1 (map MarketDataService.High hist);
     MarketDataService.low_price :=
       MarketDataService.iloc_back 1 (map MarketDataService.Low hist);
     MarketDataService.change_percent :=
       if (1 <? length hist)%nat
       then (current_price
             / MarketDataService.iloc_back 2 (map MarketDataService.Close hist) - 1) * 100
       else 0;
     MarketDataService.company_name := default ticker (MarketDataService.longName info);
     MarketDataService.sector_name := default "N/A" (MarketDataService.sector info) |}.

(** The pair that [calculate_share_quantity] returns at a price that is not
    zero. *)
Definition allocation (client : Client.t) (entry_price : Q) (max_quantity : Z) : Z * Q :=
  let pre := pre_clamp_quantity client entry_price max_quantity in
  if Qltb (Client.net_available client) (inject_Z pre * entry_price)
  then (py_int (Client.net_available client / entry_price),
        inject_Z (py_int (Client.net_available client / entry_price)) * entry_price)
  else (pre, inject_Z pre * entry_price).

(** What one client adds to the basket, and to the warnings. *)
Definition orders_of_client (trade : TradeInput.t) (validation : TechnicalValidation.t)
    (client : Client.t) : list ClientOrder.t :=
  let alloc := allocation client (TradeInput.entry_price trade)
                 (TechnicalValidation.max_quantity validation) in
  if (fst alloc =? 0)%Z then [] else [order_for trade client (fst alloc) (snd alloc)].

Definition warnings_of_client (trade : TradeInput.t) (validation : TechnicalValidation.t)
    (client : Client.t) : list log_record :=
  let alloc := allocation client (TradeInput.entry_price trade)
                 (TechnicalValidation.max_quantity validation) in
  if (fst alloc =? 0)%Z then [ZeroQuantitySkipping (Client.account_number client)] else [].

(** The fields of an order that [generate_basket] fixes from the trade. *)
Definition order_of_trade (trade : TradeInput.t) (order : ClientOrder.t) : Prop :=
  ClientOrder.ticker order = TradeInput.ticker trade /\
  ClientOrder.price_type order = "l" /\
  ClientOrder.limit_price order = TradeInput.entry_price trade /\
  ClientOrder.push_validity order = "hoje" /\
  ClientOrder.order_validity order = "hoje" /\
  ClientOrder.strategy order = "position" /\
  ClientOrder.direction order = "compra" /\
  optional_fields order = repeat EmptyString 7 /\
  ClientOrder.quantity order <> 0%Z /\
  ClientOrder.invested_amount order
    = Some (inject_Z (ClientOrder.quantity order) * TradeInput.entry_price trade).

(** An order without its two internal fields. *)
Definition scrub (order : ClientOrder.t) : ClientOrder.t :=
  {| ClientOrder.account_number := ClientOrder.account_number order;
     ClientOrder.push_validity := ClientOrder.push_validity order;
     ClientOrder.order_validity := ClientOrder.order_validity order;
     ClientOrder.ticker := ClientOrder.ticker order;
     ClientOrder.strategy := ClientOrder.strategy order;
     ClientOrder.direction := ClientOrder.direction order;
     ClientOrder.quantity := ClientOrder.quantity order;
     ClientOrder.apparent_quantity := ClientOrder.apparent_quantity order;
     ClientOrder.minimum_quantity := ClientOrder.minimum_quantity order;
     ClientOrder.price_type := ClientOrder.price_type order;
     ClientOrder.limit_price := ClientOrder.limit_price order;
     ClientOrder.trigger_type := ClientOrder.trigger_type order;
     ClientOrder.upper_trigger_price := ClientOrder.upper_trigger_price order;
     ClientOrder.upper_limit_price := ClientOrder.upper_limit_price order;
     ClientOrder.lower_trigger_price := ClientOrder.lower_trigger_price order;
     ClientOrder.lower_limit_price := ClientOrder.lower_limit_price order;
     ClientOrder.client_name := None;
     ClientOrder.invested_amount := None |}.

(** The orders that the endpoint builds from the rows of the client table,
    once the trade is accepted. *)
Definition orders_of_rows (trade : TradeInput.t) (validation : TechnicalValidation.t)
    (rows : list Main.Row) : list ClientOrder.t :=
  flat_map (orders_of_client trade validation)
           (List.filter eligibleb (Main.clients_of_rows rows)).

(** What a row adds to the clients. *)
Definition clients_of_row (row : Main.Row) : list Client.t :=
  match Main.client_of_row row with
  | Some client => [client]
  | None => []
  end.

(** A cell holding a number, and a cell holding text that is no number. *)
Definition number_cell (text : string) (value : Q) : Main.Cell :=
  {| Main.as_str := text; Main.as_float := Some value |}.

Definition text_cell (text : string) : Main.Cell :=
  {| Main.as_str := text; Main.as_float := None |}.

(** A row with the three required columns only. *)
Definition example_row (account : string) (net_total : Main.Cell) : Main.Row :=
  {| Main.NUMERO_CONTA := Some (text_cell account);
     Main.ASSESSOR_RV := None;
     Main.ADVISOR := None;
     Main.CLIENTE := Some (text_cell "client");
     Main.ESTRATEGIA := None;
     Main.NET_TOTAL := Some net_total;
     Main.NET_DISPONIVEL := None;
     Main.VALOR_MEDIO_POR_OPERACAO := None |}.

Definition example_services : Main.Services :=
  {| Main.market_service := MarketDataService.init;
     Main.excel_generator := fresh_generator |}.

(** ** Vocabulary of the statements on doubles *)

Module Doubles.

(** The rational number that a finite double is; 0 for the others. *)
Definition exact (x : float) : Q :=
  match Prim2SF x with
  | S754_finite negative m e =>
      let magnitude :=
        if (0 <=? e)%Z then inject_Z (Z.shiftl (Z.pos m) e)
        else Z.pos m # Z.to_pos (2 ^ (- e)) in
      if negative then - magnitude else magnitude
  | _ => 0
  end.

(** A double that is a number: not NaN. *)
Definition is_number (x : float) : bool := negb (PrimFloat.is_nan x).

(** NaN, a zero of either sign, or a value whose sign bit is clear. *)
Definition signed_nonneg (x : spec_float) : Prop :=
  match x with
  | S754_nan | S754_zero _ => True
  | S754_infinity s | S754_finite s _ _ => s = false
  end.

(** A value above zero. *)
Definition above_zero (x : spec_float) : Prop :=
  match x with
  | S754_infinity false | S754_finite false _ _ => True
  | _ => False
  end.

(** The two tests that [filter_eligible_clients] performs on a client. *)
Definition eligibleb (client : Binary64.Client.t) : bool :=
  negb (PrimFloat.ltb (Binary64.Client.net_total client)
          Binary64.BasketCalculator.MIN_NET_TOTAL) &&
  negb (PrimFloat.ltb (Binary64.Client.net_available client)
          (PrimFloat.mul (Binary64.Client.net_total client)
             Binary64.BasketCalculator.CAPITAL_PERCENT_PER_OPERATION)).

(** The eligibility condition on numbers: at least the minimum net total,
    and a net available capital of at least half of the net total. *)
Definition eligible (client : Binary64.Client.t) : Prop :=
  PrimFloat.leb Binary64.BasketCalculator.MIN_NET_TOTAL
    (Binary64.Client.net_total client) = true /\
  PrimFloat.leb
    (PrimFloat.mul (Binary64.Client.net_total client)
       Binary64.BasketCalculator.CAPITAL_PERCENT_PER_OPERATION)
    (Binary64.Client.net_available client) = true.

(** The diagnostic that the loop body appends for one client. *)
Definition diagnostic (client : Binary64.Client.t) : Binary64.BasketCalculator.message :=
  let name := Binary64.Client.client_name client in
  let account := Binary64.Client.account_number client in
  let required :=
    PrimFloat.mul (Binary64.Client.net_total client)
      Binary64.BasketCalculator.CAPITAL_PERCENT_PER_OPERATION in
  if PrimFloat.ltb (Binary64.Client.net_total client)
       Binary64.BasketCalculator.MIN_NET_TOTAL then
    Binary64.BasketCalculator.InsufficientNetTotal name account
      (Binary64.Client.net_total client) Binary64.BasketCalculator.MIN_NET_TOTAL
  else if PrimFloat.ltb (Binary64.Client.net_available client) required then
    Binary64.BasketCalculator.InsufficientBalance name account
      (Binary64.Client.net_available client) required
  else Binary64.BasketCalculator.Eligible name account required.


(** A client given by its account and its two capital fields. *)
Definition client_with (account : string) (net_total net_available : float)
    : Binary64.Client.t :=
  Binary64.Client.mk account "RV" "ADV" "client" "position"
    net_total net_available 0%float.

(** A validation result given by its maximum quantity. *)
Definition validation_with (max_quantity : Z) : Binary64.TechnicalValidation.t :=
  Binary64.TechnicalValidation.mk true 50000000%float 0.05%float 1.5%float
    max_quantity [].

(** The order that [generate_basket] builds for a client. *)
Definition order_for (trade : Binary64.TradeInput.t) (client : Binary64.Client.t)
    (quantity : Z) (invested_amount : float) : Binary64.ClientOrder.t :=
  Binary64.ClientOrder.make (Binary64.Client.account_number client)
    (Binary64.TradeInput.ticker trade) quantity "l"
    (Binary64.TradeInput.entry_price trade)
    (Binary64.Client.client_name client) invested_amount.

(** The seven optional fields of an order. *)
Definition optional_fields (order : Binary64.ClientOrder.t) : list string :=
  [Binary64.ClientOrder.apparent_quantity order;
   Binary64.ClientOrder.minimum_quantity order;
   Binary64.ClientOrder.trigger_type order;
   Binary64.ClientOrder.upper_trigger_price order;
   Binary64.ClientOrder.upper_limit_price order;
   Binary64.ClientOrder.lower_trigger_price order;
   Binary64.ClientOrder.lower_limit_price order].

(** The fields of an order that [generate_basket] fixes from the trade: the
    invested amount is the product, rounded, of the quantity as a double and
    the entry price. *)
Definition order_of_trade (trade : Binary64.TradeInput.t)
    (order : Binary64.ClientOrder.t) : Prop :=
  Binary64.ClientOrder.ticker order = Binary64.TradeInput.ticker trade /\
  Binary64.ClientOrder.price_type order = "l" /\
  Binary64.ClientOrder.limit_price order = Binary64.TradeInput.entry_price trade /\
  Binary64.ClientOrder.push_validity order = "hoje" /\
  Binary64.ClientOrder.order_validity order = "hoje" /\
  Binary64.ClientOrder.strategy order = "position" /\
  Binary64.ClientOrder.direction order = "compra" /\
  optional_fields order = repeat EmptyString 7 /\
  Binary64.ClientOrder.quantity order <> 0%Z /\
  exists invested_amount,
    Binary64.py_mul_int (Binary64.ClientOrder.quantity order)
      (Binary64.TradeInput.entry_price trade) = Ok invested_amount /\
    Binary64.ClientOrder.invested_amount order = Some invested_amount.

Definition account_of_warning (w : Binary64.BasketCalculator.log_record) : string :=
  match w with Binary64.BasketCalculator.ZeroQuantitySkipping account => account end.

(** What one client adds to the basket, and to the warnings, when its
    allocation returns. *)
Definition orders_of_client (trade : Binary64.TradeInput.t)
    (validation : Binary64.TechnicalValidation.t) (client : Binary64.Client.t)
    : list Binary64.ClientOrder.t :=
  match Binary64.BasketCalculator.calculate_share_quantity client
          (Binary64.TradeInput.entry_price trade)
          (Binary64.TechnicalValidation.max_quantity validation) with
  | Ok (quantity, invested_amount) =>
      if (quantity =? 0)%Z then [] else [order_for trade client quantity invested_amount]
  | Raise _ => []
  end.

Definition warnings_of_client (trade : Binary64.TradeInput.t)
    (validation : Binary64.TechnicalValidation.t) (client : Binary64.Client.t)
    : list Binary64.BasketCalculator.log_record :=
  match Binary64.BasketCalculator.calculate_share_quantity client
          (Binary64.TradeInput.entry_price trade)
          (Binary64.TechnicalValidation.max_quantity validation) with
  | Ok (quantity, _) =>
      if (quantity =? 0)%Z
      then [Binary64.BasketCalculator.ZeroQuantitySkipping
              (Binary64.Client.account_number client)]
      else []
  | Raise _ => []
  end.

(** The exception of the first client, in list order, whose allocation
    raises. *)
Fixpoint allocation_error (trade : Binary64.TradeInput.t)
    (validation : Binary64.TechnicalValidation.t) (clients : list Binary64.Client.t)
    : option exn :=
  match clients with
  | [] => None
  | client :: clients =>
      match Binary64.BasketCalculator.calculate_share_quantity client
              (Binary64.TradeInput.entry_price trade)
              (Binary64.TechnicalValidation.max_quantity validation) with
      | Raise e => Some e
      | Ok _ => allocation_error trade validation clients
      end
  end.

(** The mark of a rule that passed or failed. *)
Definition verdict (passed : bool) : mark := if passed then Pass else Fail.

(** The stop-loss percent and the risk/reward ratio that [validate_trade]
    computes for a trade. *)
Definition stop_loss_percent_of (trade : Binary64.TradeInput.t) : float :=
  PrimFloat.abs
    (PrimFloat.div
       (PrimFloat.sub (Binary64.TradeInput.stop_loss trade)
          (Binary64.TradeInput.entry_price trade))
       (Binary64.TradeInput.entry_price trade)).

Definition risk_reward_of (trade : Binary64.TradeInput.t) : float :=
  let risk :=
    PrimFloat.abs (PrimFloat.sub (Binary64.TradeInput.entry_price trade)
                     (Binary64.TradeInput.stop_loss trade)) in
  let reward :=
    PrimFloat.abs (PrimFloat.sub (Binary64.TradeInput.target trade)
                     (Binary64.TradeInput.entry_price trade)) in
  if PrimFloat.ltb 0%float risk then PrimFloat.div reward risk else 0%float.

(** The result that [validate_trade] builds from a dictionary, once the
    maximum quantity is computed. *)
Definition validation_of (trade : Binary64.TradeInput.t)
    (data : Binary64.MarketDataService.Data) (max_quantity : Z)
    : Binary64.TechnicalValidation.t :=
  let liquidity := Binary64.MarketDataService.daily_liquidity data in
  let slp := stop_loss_percent_of trade in
  let rr := risk_reward_of trade in
  let rule1 := negb (PrimFloat.ltb liquidity Binary64.TradeValidator.MIN_LIQUIDITY) in
  let rule2 := negb (PrimFloat.ltb Binary64.TradeValidator.MAX_STOP_LOSS slp) in
  let rule3 := negb (PrimFloat.ltb rr Binary64.TradeValidator.MIN_RISK_REWARD) in
  let valid := rule1 && rule2 && rule3 in
  {| Binary64.TechnicalValidation.valid := valid;
     Binary64.TechnicalValidation.daily_liquidity := liquidity;
     Binary64.TechnicalValidation.stop_loss_percent := slp;
     Binary64.TechnicalValidation.risk_reward_ratio := rr;
     Binary64.TechnicalValidation.max_quantity := max_quantity;
     Binary64.TechnicalValidation.messages :=
       [ if valid
         then Binary64.TechnicalValidation.TradeApproved (Binary64.TradeInput.ticker trade)
         else Binary64.TechnicalValidation.TradeRejected (Binary64.TradeInput.ticker trade);
         if rule1
         then Binary64.TechnicalValidation.LiquidityOK liquidity
         else Binary64.TechnicalValidation.InsufficientLiquidity liquidity
                Binary64.TradeValidator.MIN_LIQUIDITY;
         if rule2
         then Binary64.TechnicalValidation.StopLossOK slp
         else Binary64.TechnicalValidation.StopLossTooHigh slp
                Binary64.TradeValidator.MAX_STOP_LOSS;
         if rule3
         then Binary64.TechnicalValidation.RiskRewardOK rr
         else Binary64.TechnicalValidation.LowRiskReward rr
                Binary64.TradeValidator.MIN_RISK_REWARD;
         Binary64.TechnicalValidation.MaximumQuantity max_quantity
           Binary64.TradeValidator.MAX_VOLUME_PERCENT ] |}.

(** A market data service without state that answers every ticker with the
    same dictionary. *)
Definition constant_service (data : option Binary64.MarketDataService.Data)
    : string -> unit -> option Binary64.MarketDataService.Data * unit :=
  fun _ self => (data, self).

(** A dictionary given by its average volume and its liquidity. *)
Definition snapshot (average_daily_volume daily_liquidity : float)
    : Binary64.MarketDataService.Data :=
  {| Binary64.MarketDataService.ticker := "PETR4";
     Binary64.MarketDataService.ticker_b3 := "PETR4.SA";
     Binary64.MarketDataService.current_price := 25%float;
     Binary64.MarketDataService.average_daily_volume := average_daily_volume;
     Binary64.MarketDataService.daily_liquidity := daily_liquidity;
     Binary64.MarketDataService.open_price := 25%float;
     Binary64.MarketDataService.high_price := 25%float;
     Binary64.MarketDataService.low_price := 25%float;
     Binary64.MarketDataService.change_percent := 0%float;
     Binary64.MarketDataService.company_name := "Petrobras";
     Binary64.MarketDataService.sector_name := "N/A" |}.

(** What a row adds to the clients. *)
Definition clients_of_row (row : Binary64.Main.Row) : list Binary64.Client.t :=
  match Binary64.Main.client_of_row row with
  | Some client => [client]
  | None => []
  end.

(** A cell holding a double, and a cell holding text that is no number. *)
Definition number_cell (text : string) (value : float) : Binary64.Main.Cell :=
  {| Binary64.Main.as_str := text; Binary64.Main.as_float := Some value |}.

Definition text_cell (text : string) : Binary64.Main.Cell :=
  {| Binary64.Main.as_str := text; Binary64.Main.as_float := None |}.

(** A blank cell of a numeric column, read as NaN. *)
Definition blank_cell : Binary64.Main.Cell := number_cell "nan" PrimFloat.nan.

(** A row with the three required columns only. *)
Definition row_with (account : string) (net_total : Binary64.Main.Cell)
    : Binary64.Main.Row :=
  {| Binary64.Main.NUMERO_CONTA := Some (text_cell account);
     Binary64.Main.ASSESSOR_RV := None;
     Binary64.Main.ADVISOR := None;
     Binary64.Main.CLIENTE := Some (text_cell "client");
     Binary64.Main.ESTRATEGIA := None;
     Binary64.Main.NET_TOTAL := Some net_total;
     Binary64.Main.NET_DISPONIVEL := None;
     Binary64.Main.VALOR_MEDIO_POR_OPERACAO := None |}.

End Doubles.

(** * Properties *)

(** ** Arithmetic of the primitives *)

Section Primitives.

Lemma Qltb_lt (a b : Q) : Qltb a b = true <-> a < b.
Proof.
  unfold Qltb. rewrite negb_true_iff. split; intros H.
  - apply Qnot_le_lt. intros Hle. apply Qle_bool_iff in Hle. congruence.
  - destruct (Qle_bool b a) eqn:E; [|reflexivity].
    apply Qle_bool_iff in E. exfalso. eapply Qlt_not_le; eauto.
Qed.

Lemma Qltb_ge (a b : Q) : Qltb a b = false <-> b <= a.
Proof. unfold Qltb. rewrite negb_false_iff. apply Qle_bool_iff. Qed.

Lemma py_truediv_ok (a b : Q) : ~ b == 0 -> py_truediv a b = Ok (a / b).
Proof.
  intros Hb. unfold py_truediv.
  destruct (Qeq_bool b 0) eqn:E; [|reflexivity].
  apply Qeq_bool_iff in E. contradiction.
Qed.

Lemma py_int_nonneg (x : Q) : 0 <= x -> py_int x = Qfloor x.
Proof.
  destruct x as [n d]. unfold py_int, Qfloor, Qle. simpl. intros H.
  apply Z.quot_div_nonneg; lia.
Qed.

Lemma py_int_sign (x : Q) : 0 <= x -> (0 <= py_int x)%Z.
Proof.
  intros H. rewrite py_int_nonneg by assumption.
  change 0%Z with (Qfloor 0). now apply Qfloor_resp_le.
Qed.

(** [floor(a / p) * p <= a] for a positive price. *)
Lemma floor_div_mul_le (a p : Q) :
  0 < p -> inject_Z (Qfloor (a / p)) * p <= a.
Proof.
  intros Hp. pose proof (Qfloor_le (a / p)) as Hf.
  assert (Ha : a == (a / p) * p) by (field; lra).
  rewrite Ha at 2. apply Qmult_le_compat_r; lra.
Qed.

Lemma div_nonneg (a p : Q) : 0 <= a -> 0 < p -> 0 <= a / p.
Proof.
  intros Ha Hp. unfold Qdiv. apply Qmult_le_0_compat; [assumption|].
  apply Qlt_le_weak, Qinv_lt_0_compat, Hp.
Qed.

End Primitives.

(** ** The allocation in exact arithmetic *)

Section Allocation.

Variable client : Client.t.
Variable entry_price : Q.
Variable max_quantity : Z.
Hypothesis price_pos : 0 < entry_price.

Abbreviation pre := (pre_clamp_quantity client entry_price max_quantity).

Lemma calculate_share_quantity_eq :
  calculate_share_quantity client entry_price max_quantity =
  if Qltb (Client.net_available client) (inject_Z pre * entry_price)
  then let q := py_int (Client.net_available client / entry_price) in
       Ok (q, inject_Z q * entry_price)
  else Ok (pre, inject_Z pre * entry_price).
Proof.
  unfold calculate_share_quantity.
  rewrite !py_truediv_ok by lra. reflexivity.
Qed.

End Allocation.


(** ** Eligibility in exact arithmetic *)

Lemma eligibleb_spec (client : Client.t) : eligibleb client = true <-> eligible client.
Proof.
  unfold eligibleb, eligible.
  rewrite andb_true_iff, !negb_true_iff, !Qltb_ge. reflexivity.
Qed.

(** The amount before the safety check fits in half of a net total that is
    not negative. *)
Lemma pre_clamp_amount_le_half (client : Client.t) (entry_price : Q) (max_quantity : Z) :
  0 < entry_price -> 0 <= Client.net_total client ->
  inject_Z (pre_clamp_quantity client entry_price max_quantity) * entry_price
    <= Client.net_total client * (1 # 2).
Proof.
  intros Hp Hnt. unfold pre_clamp_quantity.
  set (h := Client.net_total client * (1 # 2)).
  assert (Hh : 0 <= h) by (unfold h; lra).
  rewrite py_int_nonneg by (apply div_nonneg; assumption).
  pose proof (floor_div_mul_le h entry_price Hp) as Hf.
  assert (Hmin : inject_Z (Z.min (Qfloor (h / entry_price)) max_quantity)
                 <= inject_Z (Qfloor (h / entry_price))).
  { rewrite <- Zle_Qle. lia. }
  apply Qle_trans with (inject_Z (Qfloor (h / entry_price)) * entry_price); [|assumption].
  apply Qmult_le_compat_r; lra.
Qed.

(** For an eligible client the amount before the safety check fits in the
    net available capital, so the check does not fire. *)
Lemma clamp_unreachable_for_eligible_aux
    (client : Client.t) (entry_price : Q) (max_quantity : Z) :
  eligible client -> 0 < entry_price ->
  let pre := pre_clamp_quantity client entry_price max_quantity in
  Qltb (Client.net_available client) (inject_Z pre * entry_price) = false /\
  inject_Z pre * entry_price <= Client.net_available client /\
  calculate_share_quantity client entry_price max_quantity
    = Ok (pre, inject_Z pre * entry_price).
Proof.
  intros [Hmin Havail] Hp pre.
  unfold MIN_NET_TOTAL, CAPITAL_PERCENT_PER_OPERATION in *.
  assert (Hle : inject_Z pre * entry_price <= Client.net_available client).
  { pose proof (pre_clamp_amount_le_half client entry_price max_quantity Hp) as H.
    fold pre in H. lra. }
  assert (Hb : Qltb (Client.net_available client) (inject_Z pre * entry_price) = false)
    by now apply Qltb_ge.
  repeat split; try assumption.
  rewrite calculate_share_quantity_eq by assumption.
  fold pre. now rewrite Hb.
Qed.


(** ** Eligibility filter: [filter_eligible_clients] *)

Lemma filter_eligible_clients_body_eq eligible_acc messages client :
  filter_eligible_clients_body (eligible_acc, messages) client =
  (eligible_acc ++ (if eligibleb client then [client] else []),
   messages ++ [diagnostic client]).
Proof.
  unfold filter_eligible_clients_body, diagnostic, eligibleb.
  destruct (Qltb (Client.net_total client) MIN_NET_TOTAL); cbn.
  - now rewrite app_nil_r.
  - destruct (Qltb (Client.net_available client) _); cbn; [now rewrite app_nil_r | reflexivity].
Qed.

Lemma filter_eligible_clients_fold clients : forall eligible_acc messages,
  fold_left filter_eligible_clients_body clients (eligible_acc, messages) =
  (eligible_acc ++ List.filter eligibleb clients, messages ++ map diagnostic clients).
Proof.
  induction clients as [|client clients IH]; intros eligible_acc messages;
    cbn [fold_left List.filter map].
  - now rewrite !app_nil_r.
  - rewrite filter_eligible_clients_body_eq, IH, <- !app_assoc.
    destruct (eligibleb client); reflexivity.
Qed.

Lemma diagnostic_mark client : mark_of (diagnostic client) = Pass <-> eligible client.
Proof.
  rewrite <- eligibleb_spec. unfold diagnostic, eligibleb.
  destruct (Qltb (Client.net_total client) MIN_NET_TOTAL); cbn; [easy|].
  destruct (Qltb (Client.net_available client) _); cbn; easy.
Qed.

(** Every allocation of an eligible client at a positive price, under a
    maximum quantity that is not negative, is not negative. *)
Lemma eligible_quantity_nonneg (client : Client.t) (entry_price : Q)
    (max_quantity : Z) (quantity : Z) (invested : Q) :
  eligible client -> 0 < entry_price -> (0 <= max_quantity)%Z ->
  calculate_share_quantity client entry_price max_quantity = Ok (quantity, invested) ->
  (0 <= quantity)%Z.
Proof.
  intros He Hp Hmax Hrun.
  destruct (clamp_unreachable_for_eligible_aux client entry_price max_quantity He Hp)
    as (_ & _ & Heq).
  rewrite Heq in Hrun. inversion Hrun; subst. clear Hrun.
  unfold pre_clamp_quantity.
  assert (0 <= py_int (Client.net_total client * (1 # 2) / entry_price))%Z.
  { apply py_int_sign, div_nonneg; [|assumption].
    destruct He as [Hmin _]. unfold MIN_NET_TOTAL in Hmin. lra. }
  lia.
Qed.


(** ** Summary: [calculate_summary] *)

Lemma fold_left_Zadd (l : list Z) : forall a, fold_left Z.add l a = (a + Zsum l)%Z.
Proof.
  induction l as [|x l IH]; intros a; unfold Zsum; cbn [fold_left fold_right];
    [lia|]. rewrite IH. unfold Zsum. lia.
Qed.

Lemma fold_left_Qplus (l : list Q) : forall a, fold_left Qplus l a == a + Qsum l.
Proof.
  induction l as [|x l IH]; intros a; unfold Qsum; cbn [fold_left fold_right];
    [lra|]. rewrite IH. unfold Qsum. lra.
Qed.

Lemma py_sum_Qsum (l : list Q) : py_sum l == Qsum l.
Proof. unfold py_sum. rewrite fold_left_Qplus. lra. Qed.

(** Dropping the zero amounts does not change the sum. *)
Lemma Qsum_filter_nonzero (l : list Q) :
  Qsum (List.filter (fun a => negb (Qeq_bool a 0)) l) == Qsum l.
Proof.
  induction l as [|x l IH]; [reflexivity|]. cbn [List.filter].
  destruct (Qeq_bool x 0) eqn:E; cbn [negb]; unfold Qsum in *; cbn [fold_right].
  - apply Qeq_bool_iff in E. rewrite IH, E. lra.
  - rewrite IH. reflexivity.
Qed.

(** The comprehension of [calculate_summary] keeps the amounts that are
    present and not zero. *)
Lemma amounts_kept (orders : list ClientOrder.t) :
  omap (fun order =>
          if truthy (ClientOrder.invested_amount order)
          then ClientOrder.invested_amount order else None) orders
  = kept_amounts orders.
Proof.
  unfold kept_amounts, present_amounts.
  induction orders as [|o orders IH]; cbn; [reflexivity|].
  destruct (ClientOrder.invested_amount o) as [a|]; cbn; [|exact IH].
  destruct (Qeq_bool a 0); cbn; now rewrite IH.
Qed.

Lemma fold_min_spec (rest : list Q) : forall x,
  let m := fold_left (fun best y => if Qltb y best then y else best) rest x in
  In m (x :: rest) /\ forall y, In y (x :: rest) -> m <= y.
Proof.
  induction rest as [|z rest IH]; intros x; cbn.
  - split; [now left|]. intros y [<-|[]]. apply Qle_refl.
  - destruct (Qltb z x) eqn:E.
    + apply Qltb_lt in E. destruct (IH z) as [Hin Hle]. cbn in Hin, Hle. split.
      * destruct Hin as [H|H]; [right; left; exact H | right; right; exact H].
      * intros y [<-|[<-|Hy]].
        -- apply Qle_trans with z; [apply Hle; now left | lra].
        -- apply Hle. now left.
        -- apply Hle. now right.
    + apply Qltb_ge in E. destruct (IH x) as [Hin Hle]. cbn in Hin, Hle. split.
      * destruct Hin as [H|H]; [left; exact H | right; right; exact H].
      * intros y [<-|[<-|Hy]].
        -- apply Hle. now left.
        -- apply Qle_trans with x; [apply Hle; now left | assumption].
        -- apply Hle. now right.
Qed.

Lemma fold_max_spec (rest : list Q) : forall x,
  let m := fold_left (fun best y => if Qltb best y then y else best) rest x in
  In m (x :: rest) /\ forall y, In y (x :: rest) -> y <= m.
Proof.
  induction rest as [|z rest IH]; intros x; cbn.
  - split; [now left|]. intros y [<-|[]]. apply Qle_refl.
  - destruct (Qltb x z) eqn:E.
    + apply Qltb_lt in E. destruct (IH z) as [Hin Hle]. cbn in Hin, Hle. split.
      * destruct Hin as [H|H]; [right; left; exact H | right; right; exact H].
      * intros y [<-|[<-|Hy]].
        -- apply Qle_trans with z; [lra | apply Hle; now left].
        -- apply Hle. now left.
        -- apply Hle. now right.
    + apply Qltb_ge in E. destruct (IH x) as [Hin Hle]. cbn in Hin, Hle. split.
      * destruct Hin as [H|H]; [left; exact H | right; right; exact H].
      * intros y [<-|[<-|Hy]].
        -- apply Hle. now left.
        -- apply Qle_trans with x; [assumption | apply Hle; now left].
        -- apply Hle. now right.
Qed.

Lemma py_min_spec (xs : list Q) :
  xs <> [] -> exists m, py_min xs = Ok m /\ is_min m xs.
Proof.
  destruct xs as [|x rest]; [congruence|]. intros _.
  eexists. split; [reflexivity|]. apply fold_min_spec.
Qed.

Lemma py_max_spec (xs : list Q) :
  xs <> [] -> exists m, py_max xs = Ok m /\ is_max m xs.
Proof.
  destruct xs as [|x rest]; [congruence|]. intros _.
  eexists. split; [reflexivity|]. apply fold_max_spec.
Qed.

(** The body of [calculate_summary] on a list that is not empty. *)
Lemma calculate_summary_nonempty (orders : list ClientOrder.t) :
  orders <> [] ->
  calculate_summary orders =
  (let amounts := kept_amounts orders in
   average_investment ←
     py_truediv (py_sum amounts) (inject_Z (Z.of_nat (length amounts)));
   min_investment ← py_min amounts;
   max_investment ← py_max amounts;
   Ok {| total_orders := Z.of_nat (length orders);
         total_shares := fold_left Z.add (map ClientOrder.quantity orders) 0%Z;
         total_invested := py_sum amounts;
         average_investment := average_investment;
         min_investment := min_investment;
         max_investment := max_investment |}).
Proof.
  destruct orders as [|o orders]; [congruence|]. intros _.
  unfold calculate_summary. rewrite amounts_kept. reflexivity.
Qed.

(** When no invested amount is kept, the average divides by zero. *)
Lemma calculate_summary_raises (orders : list ClientOrder.t) :
  orders <> [] -> kept_amounts orders = [] ->
  calculate_summary orders = Raise ZeroDivisionError.
Proof.
  intros Hne Hkept. rewrite calculate_summary_nonempty by assumption.
  rewrite Hkept. reflexivity.
Qed.

(** C6, as the code has it.  For the empty list every aggregate is zero.
    For a list that is not empty and has at least one invested amount that is
    present and not zero: total orders is the count, total shares the sum of
    the quantities, total invested the sum of the present invested amounts,
    and the average, minimum and maximum are those of the invested amounts
    that are present and not zero. *)
Theorem calculate_summary_spec (orders : list ClientOrder.t) :
  calculate_summary [] = Ok zero_summary /\
  (orders <> [] -> kept_amounts orders <> [] ->
   exists s,
     calculate_summary orders = Ok s /\
     total_orders s = Z.of_nat (length orders) /\
     total_shares s = Zsum (map ClientOrder.quantity orders) /\
     total_invested s == Qsum (present_amounts orders) /\
     average_investment s ==
       Qsum (kept_amounts orders) / inject_Z (Z.of_nat (length (kept_amounts orders))) /\
     is_min (min_investment s) (kept_amounts orders) /\
     is_max (max_investment s) (kept_amounts orders)).
Proof.
  split; [reflexivity|]. intros Hne Hkept.
  rewrite calculate_summary_nonempty by assumption. cbv zeta.
  destruct (py_min_spec _ Hkept) as (mn & Hmn & Hmin).
  destruct (py_max_spec _ Hkept) as (mx & Hmx & Hmax).
  rewrite py_truediv_ok, Hmn, Hmx.
  - eexists. split; [reflexivity|]. cbn.
    repeat apply conj; try assumption.
    + reflexivity.
    + rewrite fold_left_Zadd. lia.
    + rewrite py_sum_Qsum. apply Qsum_filter_nonzero.
    + now rewrite py_sum_Qsum.
    + apply Hmin.
    + apply Hmin.
    + apply Hmax.
    + apply Hmax.
  - intros H0. destruct (kept_amounts orders); [congruence|].
    cbn [length] in H0. revert H0. rewrite Nat2Z.inj_succ.
    unfold Qeq, inject_Z. cbn. lia.
Qed.

Lemma calculate_summary_spec_witness :
  [order_with 500 (Some 10000); order_with 750 (Some 15000)] <> [] /\
  kept_amounts [order_with 500 (Some 10000); order_with 750 (Some 15000)] <> [] /\
  exists s,
    calculate_summary [order_with 500 (Some 10000); order_with 750 (Some 15000)] = Ok s /\
    total_shares s = 1250%Z /\ total_invested s == 25000 /\
    average_investment s == 12500.
Proof.
  assert (H1 : [order_with 500 (Some 10000); order_with 750 (Some 15000)] <> [])
    by discriminate.
  assert (H2 : kept_amounts [order_with 500 (Some 10000); order_with 750 (Some 15000)] <> [])
    by discriminate.
  split; [exact H1 | split; [exact H2 |]].
  destruct (proj2 (calculate_summary_spec _) H1 H2)
    as (s & Hrun & _ & Hshares & Hinv & Havg & _).
  exists s. split; [exact Hrun | split; [exact Hshares | split]].
  - rewrite Hinv. reflexivity.
  - rewrite Havg. reflexivity.
Defined.

(** C6 as stated fails in two ways.  An order whose invested amount is
    present but zero is left out of the average, minimum and maximum: for
    amounts 0 and 10 the minimum returned is 10 and the average 10, while the
    least present amount is 0.  And a list that is not empty but holds no
    amount that is present and not zero does not return at all. *)
Lemma calculate_summary_zero_amount :
  (exists s,
     calculate_summary [order_with 1 (Some 0); order_with 2 (Some 10)] = Ok s /\
     min_investment s = 10 /\ average_investment s == 10 /\
     is_min 0 (present_amounts [order_with 1 (Some 0); order_with 2 (Some 10)]) /\
     ~ is_min (min_investment s)
         (present_amounts [order_with 1 (Some 0); order_with 2 (Some 10)])) /\
  calculate_summary [order_with 1 None] = Raise ZeroDivisionError.
Proof.
  split; [|reflexivity].
  eexists. split; [reflexivity|]. cbn.
  split; [reflexivity|]. split; [reflexivity|]. split.
  - split; [now left|]. intros x [<-|[<-|[]]]; discriminate.
  - intros [_ H]. specialize (H 0 (or_introl eq_refl)). apply H. reflexivity.
Qed.

(** ** Trade rules: [validate_trade] *)

Section Validation.

Import TechnicalValidation TradeValidator.

Variable provider : MarketDataService.Provider.
Variable trade : TradeInput.t.
Variable market_service : MarketDataService.t.

Abbreviation fetched :=
  (MarketDataService.get_ticker_data provider (TradeInput.ticker trade) market_service).

(** The validator leaves the market data service as the fetch left it. *)
Lemma validate_trade_service :
  snd (validate_trade provider trade market_service) = snd fetched.
Proof.
  unfold validate_trade. destruct fetched as [md svc]. reflexivity.
Qed.

Lemma validate_trade_absent :
  fst fetched = None ->
  fst (validate_trade provider trade market_service) =
  Ok {| valid := false; daily_liquidity := 0; stop_loss_percent := 0;
        risk_reward_ratio := 0; max_quantity := 0;
        messages := [CouldNotFetch (TradeInput.ticker trade)] |}.
Proof.
  unfold validate_trade. destruct fetched as [md svc]. cbn. now intros ->.
Qed.

End Validation.

(** C5.  When the market data of the trade's ticker is absent,
    [validate_trade] returns a result that is not valid, with daily
    liquidity, stop-loss percent, risk/reward ratio and maximum quantity all
    zero, and with exactly one diagnostic, the one saying that the data could
    not be fetched: no rule contributes a line. *)
Theorem validate_trade_no_market_data
    (provider : MarketDataService.Provider) (trade : TradeInput.t)
    (market_service : MarketDataService.t) :
  fst (MarketDataService.get_ticker_data provider (TradeInput.ticker trade)
         market_service) = None ->
  exists v,
    fst (TradeValidator.validate_trade provider trade market_service) = Ok v /\
    TechnicalValidation.valid v = false /\
    TechnicalValidation.daily_liquidity v = 0 /\
    TechnicalValidation.stop_loss_percent v = 0 /\
    TechnicalValidation.risk_reward_ratio v = 0 /\
    TechnicalValidation.max_quantity v = 0%Z /\
    TechnicalValidation.messages v
      = [TechnicalValidation.CouldNotFetch (TradeInput.ticker trade)] /\
    length (TechnicalValidation.messages v) = 1%nat.
Proof.
  intros Habsent. eexists. split.
  - apply validate_trade_absent, Habsent.
  - repeat split.
Qed.

Lemma validate_trade_no_market_data_witness :
  fst (MarketDataService.get_ticker_data no_data (TradeInput.ticker example_trade)
         MarketDataService.init) = None /\
  exists v,
    fst (TradeValidator.validate_trade no_data example_trade MarketDataService.init) = Ok v /\
    TechnicalValidation.valid v = false /\
    TechnicalValidation.messages v = [TechnicalValidation.CouldNotFetch "PETR4"].
Proof.
  assert (H : fst (MarketDataService.get_ticker_data no_data
                     (TradeInput.ticker example_trade) MarketDataService.init) = None)
    by reflexivity.
  split; [exact H|].
  destruct (validate_trade_no_market_data no_data example_trade MarketDataService.init H)
    as (v & Hrun & Hvalid & _ & _ & _ & _ & Hmsg & _).
  exists v. split; [exact Hrun | split; [exact Hvalid | exact Hmsg]].
Defined.

(** ** Market data: [get_ticker_data] *)

Lemma prefix_refl (s : string) : String.prefix s s = true.
Proof.
  induction s as [|c s IH]; [reflexivity|]. cbn.
  destruct (ascii_dec c c); [exact IH | congruence].
Qed.

Lemma append_String (c : ascii) (s t : string) :
  String c s +:+ t = String c (s +:+ t).
Proof. reflexivity. Qed.

Lemma contains_app_r (needle s : string) : contains needle (s +:+ needle) = true.
Proof.
  induction s as [|c s IH].
  - change (EmptyString +:+ needle) with needle.
    destruct needle; cbn [contains]; now rewrite prefix_refl.
  - rewrite append_String. cbn [contains]. rewrite IH. apply orb_true_r.
Qed.

Lemma upper_app (s t : string) : upper (s +:+ t) = upper s +:+ upper t.
Proof.
  induction s as [|c s IH]; [reflexivity|].
  rewrite append_String. cbn [upper]. now rewrite IH, append_String.
Qed.

Lemma endswith_contains (suffix s : string) :
  endswith s suffix = true -> contains suffix s = true.
Proof.
  induction s as [|c s IH]; cbn [endswith contains]; intros H;
    apply orb_true_iff in H; destruct H as [H|H].
  - apply String.eqb_eq in H. subst. reflexivity.
  - discriminate.
  - apply String.eqb_eq in H. subst. now rewrite prefix_refl.
  - rewrite (IH H). apply orb_true_r.
Qed.

Lemma endswith_app (s suffix : string) : endswith (s +:+ suffix) suffix = true.
Proof.
  induction s as [|c s IH].
  - change (EmptyString +:+ suffix) with suffix.
    destruct suffix; cbn [endswith]; now rewrite String.eqb_refl.
  - rewrite append_String. cbn [endswith]. rewrite IH. apply orb_true_r.
Qed.

Section MarketData.

Import MarketDataService.

Variable provider : Provider.
Variable ticker : string.
Variable self : MarketDataService.t.

Abbreviation key := (normalize ticker).

Lemma normalize_contains : contains ".SA" (upper key) = true.
Proof.
  unfold normalize. destruct (contains ".SA" (upper ticker)) eqn:E; [exact E|].
  rewrite upper_app. apply contains_app_r.
Qed.

Lemma normalize_idempotent : normalize key = key.
Proof.
  unfold normalize at 1. now rewrite normalize_contains.
Qed.

Lemma get_ticker_data_hit (data : Data) (timestamp : option Z) :
  cache self !! key = Some (data, timestamp) ->
  get_ticker_data provider ticker self = (Some data, self).
Proof. unfold get_ticker_data. now intros ->. Qed.

(** On a miss the provider is asked once, for the normalized symbol, and the
    cache either gains the data under that symbol or stays as it was. *)
Lemma get_ticker_data_miss :
  cache self !! key = None ->
  requested (snd (get_ticker_data provider ticker self)) = requested self ++ [key] /\
  match fst (get_ticker_data provider ticker self) with
  | Some data =>
      cache (snd (get_ticker_data provider ticker self))
        = <[key := (data, None)]> (cache self) /\
      ticker_b3 data = key /\
      exists hist, history (provider key) = Some hist /\ hist <> []
  | None =>
      cache (snd (get_ticker_data provider ticker self)) = cache self
  end.
Proof.
  unfold get_ticker_data. intros ->.
  destruct (history (provider key)) as [[|bar hist]|] eqn:Eh; cbn; try easy.
  destruct (info (provider key)); cbn; [|easy].
  repeat split. eexists. split; [reflexivity | discriminate].
Qed.

End MarketData.

(** C9, as the code has it.  The fetch looks the ticker up under a symbol
    that is the ticker itself when its upper-case form contains [.SA]
    anywhere, and the ticker followed by [.SA] otherwise; in particular a
    ticker ending in [.SA], in any letter case, is kept, and the symbol
    always contains [.SA] up to case.  On a cache hit for the symbol the
    cached data is returned and the service is unchanged: the provider is
    not asked.  On a miss the data computed, if any, is stored under the
    symbol; if none is computed the cache is unchanged. *)
Theorem get_ticker_data_normalizes_and_caches
    (provider : MarketDataService.Provider) (ticker : string)
    (self : MarketDataService.t) :
  let key := MarketDataService.normalize ticker in
  let run := MarketDataService.get_ticker_data provider ticker self in
  (contains ".SA" (upper ticker) = true -> key = ticker) /\
  (contains ".SA" (upper ticker) = false ->
     key = ticker +:+ ".SA" /\ endswith key ".SA" = true) /\
  (endswith (upper ticker) ".SA" = true -> key = ticker) /\
  contains ".SA" (upper key) = true /\
  (forall data timestamp,
     MarketDataService.cache self !! key = Some (data, timestamp) ->
     run = (Some data, self)) /\
  (MarketDataService.cache self !! key = None ->
   forall data, fst run = Some data ->
     MarketDataService.cache (snd run)
       = <[key := (data, None)]> (MarketDataService.cache self)) /\
  (MarketDataService.cache self !! key = None -> fst run = None ->
     MarketDataService.cache (snd run) = MarketDataService.cache self).
Proof.
  intros key run.
  assert (Hkeep : contains ".SA" (upper ticker) = true -> key = ticker).
  { intros H. unfold key, MarketDataService.normalize. now rewrite H. }
  repeat apply conj.
  - exact Hkeep.
  - intros H. unfold key, MarketDataService.normalize. rewrite H.
    split; [reflexivity | apply endswith_app].
  - intros H. apply Hkeep, endswith_contains, H.
  - apply normalize_contains.
  - intros data timestamp Hhit. now apply get_ticker_data_hit with timestamp.
  - intros Hmiss data Hsome.
    destruct (get_ticker_data_miss provider ticker self Hmiss) as [_ H].
    fold run in H. rewrite Hsome in H. apply H.
  - intros Hmiss Hnone.
    destruct (get_ticker_data_miss provider ticker self Hmiss) as [_ H].
    fold run in H. now rewrite Hnone in H.
Qed.

Lemma get_ticker_data_normalizes_and_caches_witness :
  MarketDataService.normalize "PETR4" = "PETR4.SA" /\
  MarketDataService.normalize "petr4.sa" = "petr4.sa" /\
  MarketDataService.cache
    (snd (MarketDataService.get_ticker_data (flat_history 22 25 2000000) "PETR4"
            MarketDataService.init))
  = <["PETR4.SA" := (fetched_data (flat_history 22 25 2000000) "PETR4"
                       MarketDataService.init, None)]> ∅.
Proof.
  destruct (get_ticker_data_normalizes_and_caches (flat_history 22 25 2000000) "PETR4"
              MarketDataService.init) as (_ & Happend & _ & _ & _ & Hmiss & _).
  destruct (get_ticker_data_normalizes_and_caches (flat_history 22 25 2000000) "petr4.sa"
              MarketDataService.init) as (_ & _ & Hkeep & _).
  split; [apply Happend; reflexivity | split; [apply Hkeep; reflexivity |]].
  apply (Hmiss eq_refl). reflexivity.
Defined.

(** C9 as stated fails on a ticker that contains [.SA] without ending in it:
    [PETR4.SAO] lacks the suffix, in any letter case, yet nothing is
    appended, and the provider is asked for [PETR4.SAO]. *)
Lemma normalize_suffix_absent_not_appended :
  endswith (upper "PETR4.SAO") ".SA" = false /\
  MarketDataService.normalize "PETR4.SAO" = "PETR4.SAO" /\
  MarketDataService.normalize "PETR4.SAO" <> "PETR4.SAO" +:+ ".SA" /\
  endswith (MarketDataService.normalize "PETR4.SAO") ".SA" = false /\
  MarketDataService.requested
    (snd (MarketDataService.get_ticker_data no_data "PETR4.SAO" MarketDataService.init))
  = ["PETR4.SAO"].
Proof. repeat split; discriminate. Qed.

(** ** Spreadsheet: [generate_excel] *)

Section Excel.

Import ExcelGenerator.

Lemma fillna_columns col value df : columns (fillna col value df) = columns df.
Proof. reflexivity. Qed.

(** The frame built from the orders, before the blanks are filled. *)
Lemma DataFrame_of_orders (orders : list ClientOrder.t) :
  DataFrame_of (map order_to_dict orders) COLUMNS
  = {| columns := COLUMNS; rows := map export_row orders |}.
Proof.
  unfold DataFrame_of. f_equal. rewrite map_map. apply map_ext.
  intros order. reflexivity.
Qed.

(** Filling the blanks of the seven optional columns changes no cell: they
    all hold strings already. *)
Lemma fillna_orders (orders : list ClientOrder.t) :
  fold_left (fun df col => fillna col (Str EmptyString) df) empty_columns
    {| columns := COLUMNS; rows := map export_row orders |}
  = {| columns := COLUMNS; rows := map export_row orders |}.
Proof.
  unfold empty_columns. cbn [fold_left].
  unfold fillna. cbn [columns rows].
  f_equal. rewrite !map_map.
  apply map_ext. intros order. reflexivity.
Qed.

Lemma generate_excel_nonempty (now : datetime) (orders : list ClientOrder.t)
    (ticker : string) (self : t) :
  orders <> [] ->
  generate_excel now orders ticker self =
  let filepath :=
    output_dir self +:+ "/" +:+ "basket_" +:+ ticker +:+ "_" +:+ strftime now +:+ ".xlsx" in
  (Ok filepath,
   {| output_dir := output_dir self;
      files := <[filepath := {| columns := COLUMNS; rows := map export_row orders |}]>
                 (files self) |}).
Proof.
  destruct orders as [|order orders]; [congruence|]. intros _.
  unfold generate_excel.
  rewrite DataFrame_of_orders, fillna_orders. reflexivity.
Qed.

End Excel.

(** C7.  [generate_excel] raises a [ValueError] on the empty order list and
    writes no file.  On any other list it writes one sheet whose columns are
    the sixteen mandated ones in their fixed order and whose rows are the
    orders, in order, each with its sixteen cells; the cells of the seven
    optional columns are the strings of the order's fields, hence the empty
    string, never a missing-value marker or a number, for a field left at
    its default. *)
Theorem generate_excel_sheet
    (now : ExcelGenerator.datetime) (orders : list ClientOrder.t)
    (ticker : string) (self : ExcelGenerator.t) :
  ExcelGenerator.generate_excel now [] ticker self
    = (Raise (ValueError "Cannot generate Excel: no orders provided"), self) /\
  (orders <> [] ->
   exists filepath df,
     fst (ExcelGenerator.generate_excel now orders ticker self) = Ok filepath /\
     ExcelGenerator.files (snd (ExcelGenerator.generate_excel now orders ticker self))
       = <[filepath := df]> (ExcelGenerator.files self) /\
     ExcelGenerator.columns df =
       [ "NUMERO_CONTA"; "VALIDADE_PUSH"; "VALIDADE_ORDEM"; "ATIVO"; "ESTRATEGIA";
         "DIRECAO"; "QUANTIDADE"; "QUANTIDADE_APARENTE"; "QUANTIDADE_MINIMA";
         "TIPO_PRECO"; "PRECO_LIMITE"; "TIPO_DISPARO"; "PRECO_DISPARO_CIMA";
         "PRECO_LIMITE_CIMA"; "PRECO_DISPARO_BAIXO"; "PRECO_LIMITE_BAIXO" ] /\
     length (ExcelGenerator.columns df) = 16%nat /\
     ExcelGenerator.rows df = map export_row orders /\
     Forall (fun row => length row = 16%nat) (ExcelGenerator.rows df) /\
     (forall i order, orders !! i = Some order ->
        exists row, ExcelGenerator.rows df !! i = Some row /\
          map (cell_at df row) ExcelGenerator.empty_columns
            = map (fun field => Some (ExcelGenerator.Str field)) (optional_fields order) /\
          (optional_fields order = repeat EmptyString 7 ->
           map (cell_at df row) ExcelGenerator.empty_columns
             = repeat (Some (ExcelGenerator.Str EmptyString)) 7))).
Proof.
  split; [reflexivity|]. intros Hne.
  rewrite generate_excel_nonempty by assumption. cbv zeta. cbn [fst snd].
  eexists. eexists. split; [reflexivity|]. split; [reflexivity|].
  cbn [ExcelGenerator.columns ExcelGenerator.rows ExcelGenerator.files].
  repeat apply conj; try reflexivity.
  - apply Forall_forall. intros row Hrow.
    apply list_elem_of_In, in_map_iff in Hrow. destruct Hrow as (order & <- & _). reflexivity.
  - intros i order Hi. exists (export_row order).
    split; [now rewrite list_lookup_fmap, Hi|].
    assert (Hcells : map (cell_at {| ExcelGenerator.columns := ExcelGenerator.COLUMNS;
                                      ExcelGenerator.rows := map export_row orders |}
                            (export_row order)) ExcelGenerator.empty_columns
                     = map (fun field => Some (ExcelGenerator.Str field)) (optional_fields order))
      by reflexivity.
    split; [exact Hcells|]. intros Hblank. rewrite Hcells, Hblank. reflexivity.
Qed.

Lemma generate_excel_sheet_witness :
  [order_for example_trade (client_with 20000 10000) 500 10000] <> [] /\
  exists filepath df,
    fst (ExcelGenerator.generate_excel example_now
           [order_for example_trade (client_with 20000 10000) 500 10000]
           "PETR4" fresh_generator) = Ok filepath /\
    ExcelGenerator.columns df = ExcelGenerator.COLUMNS /\
    ExcelGenerator.rows df =
      [ [ ExcelGenerator.Str "0001"; ExcelGenerator.Str "hoje"; ExcelGenerator.Str "hoje";
          ExcelGenerator.Str "PETR4"; ExcelGenerator.Str "position";
          ExcelGenerator.Str "compra"; ExcelGenerator.Int 500;
          ExcelGenerator.Str EmptyString; ExcelGenerator.Str EmptyString;
          ExcelGenerator.Str "l"; ExcelGenerator.Float 20;
          ExcelGenerator.Str EmptyString; ExcelGenerator.Str EmptyString;
          ExcelGenerator.Str EmptyString; ExcelGenerator.Str EmptyString;
          ExcelGenerator.Str EmptyString ] ].
Proof.
  assert (Hne : [order_for example_trade (client_with 20000 10000) 500 10000] <> [])
    by discriminate.
  split; [exact Hne|].
  destruct (proj2 (generate_excel_sheet example_now
                     [order_for example_trade (client_with 20000 10000) 500 10000]
                     "PETR4" fresh_generator) Hne)
    as (filepath & df & Hpath & _ & Hcols & _ & Hrows & _).
  exists filepath, df. split; [exact Hpath | split; [exact Hcols | exact Hrows]].
Defined.

Section Timestamp.

Import ExcelGenerator.

Lemma digit_inj (n m : N) : digit n = digit m -> (n mod 10 = m mod 10)%N.
Proof.
  unfold digit. intros H.
  apply (f_equal N_of_ascii) in H.
  rewrite !N_ascii_embedding in H by
    (pose proof (N.mod_upper_bound n 10); pose proof (N.mod_upper_bound m 10); lia).
  lia.
Qed.

Lemma digit_is_digit (n : N) : is_digit (digit n) = true.
Proof.
  unfold digit. pose proof (N.mod_upper_bound n 10 ltac:(lia)) as Hr.
  set (r := (n mod 10)%N) in *. clearbody r.
  assert (Hcases : (r = 0 \/ r = 1 \/ r = 2 \/ r = 3 \/ r = 4 \/ r = 5 \/ r = 6 \/
                    r = 7 \/ r = 8 \/ r = 9)%N) by lia.
  repeat (destruct Hcases as [-> | Hcases]; [reflexivity|]). now subst.
Qed.

Lemma digits2 (n : N) :
  (n < 100)%N -> (n = 10 * ((n / 10) mod 10) + n mod 10)%N.
Proof.
  intros Hn.
  pose proof (N.div_mod n 10 ltac:(lia)) as E0.
  assert (Hq : (n / 10 < 10)%N) by (apply N.Div0.div_lt_upper_bound; lia).
  rewrite (N.mod_small (n / 10) 10) by assumption. exact E0.
Qed.

Lemma digits4 (n : N) :
  (n < 10000)%N ->
  (n = 1000 * ((n / 1000) mod 10) + 100 * ((n / 100) mod 10)
       + 10 * ((n / 10) mod 10) + n mod 10)%N.
Proof.
  intros Hn.
  pose proof (N.div_mod n 10 ltac:(lia)) as E0.
  pose proof (N.div_mod (n / 10) 10 ltac:(lia)) as E1.
  pose proof (N.div_mod (n / 100) 10 ltac:(lia)) as E2.
  rewrite N.Div0.div_div in E1. change (10 * 10)%N with 100%N in E1.
  rewrite N.Div0.div_div in E2. change (100 * 10)%N with 1000%N in E2.
  assert (Hq : (n / 1000 < 10)%N) by (apply N.Div0.div_lt_upper_bound; lia).
  rewrite (N.mod_small (n / 1000) 10) by assumption. lia.
Qed.

Lemma pad2_inj (n m : N) : (n < 100)%N -> (m < 100)%N -> pad2 n = pad2 m -> n = m.
Proof.
  unfold pad2. intros Hn Hm H. injection H as H1 H0.
  apply digit_inj in H1, H0.
  rewrite (digits2 n Hn), (digits2 m Hm), H1, H0. reflexivity.
Qed.

Lemma pad4_inj (n m : N) : (n < 10000)%N -> (m < 10000)%N -> pad4 n = pad4 m -> n = m.
Proof.
  unfold pad4, pad2. intros Hn Hm H. injection H as H3 H2 H1 H0.
  apply digit_inj in H3, H2, H1, H0.
  rewrite (digits4 n Hn), (digits4 m Hm), H3, H2, H1, H0. reflexivity.
Qed.

Lemma pad2_shape (n : N) : String.length (pad2 n) = 2%nat /\ all_digits (pad2 n) = true.
Proof.
  split; [reflexivity|]. unfold pad2. cbn [all_digits]. now rewrite !digit_is_digit.
Qed.

Lemma pad4_shape (n : N) : String.length (pad4 n) = 4%nat /\ all_digits (pad4 n) = true.
Proof.
  split; [reflexivity|]. unfold pad4, pad2. cbn [all_digits]. now rewrite !digit_is_digit.
Qed.

(** The stamp is a date of eight digits, an underscore, a time of six. *)
Lemma strftime_shape (now : datetime) :
  exists date time,
    strftime now = date +:+ "_" +:+ time /\
    date = pad4 (year now) +:+ pad2 (month now) +:+ pad2 (day now) /\
    time = pad2 (hour now) +:+ pad2 (minute now) +:+ pad2 (second now) /\
    String.length date = 8%nat /\ all_digits date = true /\
    String.length time = 6%nat /\ all_digits time = true.
Proof.
  eexists. eexists. split; [|split; [reflexivity | split; [reflexivity|]]].
  - reflexivity.
  - repeat split; unfold pad4, pad2; cbv [String.append all_digits];
      now rewrite !digit_is_digit.
Qed.

Lemma strftime_inj (a b : datetime) :
  datetime_ok a -> datetime_ok b ->
  strftime a +:+ ".xlsx" = strftime b +:+ ".xlsx" -> a = b.
Proof.
  intros (Hy & Hmo & Hd & Hh & Hmi & Hs) (Hy' & Hmo' & Hd' & Hh' & Hmi' & Hs') H.
  destruct a as [y mo d h mi s], b as [y' mo' d' h' mi' s'].
  cbn [year month day hour minute second] in *.
  unfold strftime in H.
  cbn [year month day hour minute second] in H.
  assert (Hfields : pad4 y = pad4 y' /\ pad2 mo = pad2 mo' /\ pad2 d = pad2 d' /\
                    pad2 h = pad2 h' /\ pad2 mi = pad2 mi' /\ pad2 s = pad2 s').
  { unfold pad4, pad2 in *. cbv [String.append] in H.
    injection H as Y3 Y2 Y1 Y0 M1 M0 D1 D0 H1 H0 I1 I0 S1 S0.
    repeat split; congruence. }
  destruct Hfields as (Ey & Emo & Ed & Eh & Emi & Es).
  f_equal; [apply pad4_inj | apply pad2_inj ..]; solve [assumption | lia].
Qed.

End Timestamp.

(** C8, as the code has it.  For an order list that is not empty the file is
    named [basket_{ticker}_{YYYYMMDD}_{HHMMSS}.xlsx], inside the output
    directory: eight digits of the date, an underscore, six digits of the
    time of generation.  Two generations for the same ticker get the same
    name exactly when they happen within the same second; when they do not,
    both files are present afterwards, each with its own sheet. *)
Theorem generate_excel_filename
    (now1 now2 : ExcelGenerator.datetime) (orders1 orders2 : list ClientOrder.t)
    (ticker : string) (self : ExcelGenerator.t) :
  orders1 <> [] -> orders2 <> [] ->
  ExcelGenerator.datetime_ok now1 -> ExcelGenerator.datetime_ok now2 ->
  let run1 := ExcelGenerator.generate_excel now1 orders1 ticker self in
  let run2 := ExcelGenerator.generate_excel now2 orders2 ticker (snd run1) in
  exists date time path1 path2,
    fst run1 = Ok path1 /\ fst run2 = Ok path2 /\
    path1 = ExcelGenerator.output_dir self +:+ "/" +:+
            "basket_" +:+ ticker +:+ "_" +:+ date +:+ "_" +:+ time +:+ ".xlsx" /\
    date = ExcelGenerator.pad4 (ExcelGenerator.year now1) +:+
           ExcelGenerator.pad2 (ExcelGenerator.month now1) +:+
           ExcelGenerator.pad2 (ExcelGenerator.day now1) /\
    time = ExcelGenerator.pad2 (ExcelGenerator.hour now1) +:+
           ExcelGenerator.pad2 (ExcelGenerator.minute now1) +:+
           ExcelGenerator.pad2 (ExcelGenerator.second now1) /\
    String.length date = 8%nat /\ all_digits date = true /\
    String.length time = 6%nat /\ all_digits time = true /\
    (path1 = path2 <-> now1 = now2) /\
    (now1 <> now2 ->
     ExcelGenerator.files (snd run2) !! path1
       = Some {| ExcelGenerator.columns := ExcelGenerator.COLUMNS;
                 ExcelGenerator.rows := map export_row orders1 |} /\
     ExcelGenerator.files (snd run2) !! path2
       = Some {| ExcelGenerator.columns := ExcelGenerator.COLUMNS;
                 ExcelGenerator.rows := map export_row orders2 |}).
Proof.
  intros Hne1 Hne2 Hok1 Hok2 run1 run2. subst run2 run1.
  rewrite (generate_excel_nonempty now1 orders1) by assumption. cbv zeta. cbn [snd fst].
  rewrite (generate_excel_nonempty now2 orders2) by assumption. cbv zeta.
  cbn [snd fst ExcelGenerator.output_dir ExcelGenerator.files].
  destruct (strftime_shape now1) as (date & time & Hstamp & Hdate & Htime & Hshape).
  exists date, time. eexists. eexists.
  split; [reflexivity|]. split; [reflexivity|].
  split; [now rewrite Hstamp, Hdate, Htime|].
  split; [exact Hdate|]. split; [exact Htime|].
  destruct Hshape as (? & ? & ? & ?). repeat (split; [assumption|]).
  assert (Hinj : ExcelGenerator.output_dir self +:+ "/" +:+ "basket_" +:+ ticker +:+ "_" +:+
                   ExcelGenerator.strftime now1 +:+ ".xlsx"
                 = ExcelGenerator.output_dir self +:+ "/" +:+ "basket_" +:+ ticker +:+ "_" +:+
                   ExcelGenerator.strftime now2 +:+ ".xlsx" <-> now1 = now2).
  { split; [|now intros ->]. intros Heq.
    apply (inj (String.app (ExcelGenerator.output_dir self))) in Heq.
    apply (inj (String.app "/")) in Heq.
    apply (inj (String.app "basket_")) in Heq.
    apply (inj (String.app ticker)) in Heq.
    apply (inj (String.app "_")) in Heq.
    now apply strftime_inj. }
  split; [exact Hinj|].
  intros Hdiff. split.
  - rewrite lookup_insert_ne by (intros Heq; apply Hdiff; apply Hinj; now symmetry).
    apply lookup_insert_eq.
  - apply lookup_insert_eq.
Qed.

Lemma generate_excel_filename_witness :
  [order_with 500 (Some 10000)] <> [] /\ ExcelGenerator.datetime_ok example_now /\
  fst (ExcelGenerator.generate_excel example_now [order_with 500 (Some 10000)]
         "PETR4" fresh_generator)
  = Ok "output/basket_PETR4_20240102_030405.xlsx".
Proof.
  assert (Hne : [order_with 500 (Some 10000)] <> []) by discriminate.
  assert (Hok : ExcelGenerator.datetime_ok example_now) 
    by (unfold ExcelGenerator.datetime_ok, example_now; cbn; lia).
  split; [exact Hne | split; [exact Hok|]].
  destruct (generate_excel_filename example_now example_now
              [order_with 500 (Some 10000)] [order_with 500 (Some 10000)]
              "PETR4" fresh_generator Hne Hne Hok Hok)
    as (date & time & path1 & path2 & Hrun & _ & Hpath & Hdate & Htime & _).
  rewrite Hrun, Hpath, Hdate, Htime. reflexivity.
Defined.

(** C8 as stated fails: the name carries an underscore between date and
    time, so it is not [basket_{ticker}_{YYYYMMDDHHMMSS}.xlsx]; and two
    generations for one ticker within the same second share one name, the
    second sheet replacing the first. *)
Lemma generate_excel_filename_separator :
  fst (ExcelGenerator.generate_excel example_now [order_with 500 (Some 10000)]
         "PETR4" fresh_generator)
    = Ok "output/basket_PETR4_20240102_030405.xlsx" /\
  claimed_timestamp example_now = "20240102030405" /\
  "output/basket_PETR4_20240102_030405.xlsx"
    <> "output" +:+ "/" +:+ "basket_" +:+ "PETR4" +:+ "_" +:+
       claimed_timestamp example_now +:+ ".xlsx" /\
  ExcelGenerator.files
    (snd (ExcelGenerator.generate_excel example_now [order_with 7 (Some 140)] "PETR4"
            (snd (ExcelGenerator.generate_excel example_now
                    [order_with 500 (Some 10000)] "PETR4" fresh_generator))))
  = {[ "output/basket_PETR4_20240102_030405.xlsx" :=
         {| ExcelGenerator.columns := ExcelGenerator.COLUMNS;
            ExcelGenerator.rows := [export_row (order_with 7 (Some 140))] |} ]}.
Proof.
  split; [reflexivity|]. split; [reflexivity|]. split; [discriminate|].
  rewrite !generate_excel_nonempty by discriminate. cbv zeta.
  cbn [snd ExcelGenerator.files ExcelGenerator.output_dir fresh_generator map].
  rewrite insert_insert_eq. reflexivity.
Qed.

(** * Further properties *)

(** ** Construction of a [TradeInput] *)

Section Construction.

Import TradeInputFields.

Lemma gt0_inr (e : field_error) (v : Q) : 0 < v -> gt0 e v = inr v.
Proof. intros H. unfold gt0. apply Qltb_lt in H. now rewrite H. Qed.

Lemma gt0_inl (e : field_error) (v : Q) : v <= 0 -> gt0 e v = inl [e].
Proof. intros H. unfold gt0. apply Qltb_ge in H. now rewrite H. Qed.

Lemma Qle_bool_false (a b : Q) : Qle_bool a b = false <-> b < a.
Proof.
  rewrite <- Qltb_lt. unfold Qltb. destruct (Qle_bool a b); cbn; intuition congruence.
Qed.

Lemma TradeInput_init_ok (ticker : string) (entry stop target : Q) :
  strip (upper ticker) <> EmptyString ->
  0 < entry -> 0 < stop -> stop < entry -> entry < target ->
  TradeInput_init ticker entry stop target
    = Constructed (TradeInput.mk (strip (upper ticker)) entry stop target).
Proof.
  intros Ht He Hs Hse Het.
  assert (Hg : 0 < target) by lra.
  unfold TradeInput_init, validate_ticker.
  rewrite (gt0_inr _ entry He), (gt0_inr _ stop Hs), (gt0_inr _ target Hg). cbn.
  apply Qle_bool_false in Hse. apply Qle_bool_false in Het. rewrite Hse, Het.
  destruct (strip (upper ticker)); [congruence | reflexivity].
Qed.

Lemma TradeInput_init_inv (ticker : string) (entry stop target : Q) (t : TradeInput.t) :
  TradeInput_init ticker entry stop target = Constructed t ->
  t = TradeInput.mk (strip (upper ticker)) entry stop target /\
  strip (upper ticker) <> EmptyString /\
  0 < entry /\ 0 < stop /\ 0 < target /\ stop < entry /\ entry < target.
Proof.
  unfold TradeInput_init, validate_ticker, gt0.
  destruct (strip (upper ticker)) as [|c s] eqn:Et; [discriminate|].
  destruct (Qltb 0 entry) eqn:He; [|destruct (Qltb 0 stop), (Qltb 0 target); cbn; discriminate].
  destruct (Qltb 0 stop) eqn:Hs; [|destruct (Qltb 0 target); cbn;
                                    try destruct (Qle_bool target entry); discriminate].
  destruct (Qltb 0 target) eqn:Hg; cbn;
    [|destruct (Qle_bool entry stop); discriminate].
  destruct (Qle_bool entry stop) eqn:Hse; [destruct (Qle_bool target entry); discriminate|].
  destruct (Qle_bool target entry) eqn:Het; [discriminate|].
  intros H. inversion H; subst. clear H.
  apply Qltb_lt in He, Hs, Hg. apply Qle_bool_false in Hse, Het.
  repeat split; try assumption. discriminate.
Qed.

Lemma TradeInput_init_errors (ticker : string) (entry stop target : Q)
    (errors : list field_error) :
  TradeInput_init ticker entry stop target = ValidationError errors -> errors <> [].
Proof.
  unfold TradeInput_init, validate_ticker, gt0, validate_stop_loss, validate_target,
    value_of, errors_of.
  destruct (strip (upper ticker)); destruct (Qltb 0 entry); destruct (Qltb 0 stop);
    destruct (Qltb 0 target); cbn;
    try destruct (Qle_bool entry stop); try destruct (Qle_bool target entry); cbn;
    intros H; inversion H; discriminate.
Qed.

End Construction.

(** X1.  Constructing a [TradeInput] succeeds exactly when the ticker is not
    blank, the entry and stop prices are positive and the stop is below the
    entry, which is below the target; the trade built carries the ticker in
    upper case without surrounding blanks and the prices as given, and
    satisfies the constraints of the model.  Whenever the stop is not below
    the entry, or the target not above it, construction fails with errors. *)
Theorem TradeInput_init_spec (ticker : string) (entry stop target : Q) :
  let built := TradeInput.mk (TradeInputFields.strip (upper ticker)) entry stop target in
  (TradeInputFields.TradeInput_init ticker entry stop target
     = TradeInputFields.Constructed built <->
   TradeInputFields.strip (upper ticker) <> EmptyString /\
   0 < entry /\ 0 < stop /\ stop < entry /\ entry < target) /\
  (forall t, TradeInputFields.TradeInput_init ticker entry stop target
               = TradeInputFields.Constructed t ->
             t = built /\ TradeInput.valid t) /\
  (entry <= stop \/ target <= entry ->
   exists errors, errors <> [] /\
     TradeInputFields.TradeInput_init ticker entry stop target
       = TradeInputFields.ValidationError errors).
Proof.
  intros built. split; [split|split].
  - intros H. apply TradeInput_init_inv in H. tauto.
  - intros (Ht & He & Hs & Hse & Het). now apply TradeInput_init_ok.
  - intros t H. apply TradeInput_init_inv in H.
    destruct H as (-> & Ht & He & Hs & Hg & Hse & Het).
    split; [reflexivity|]. repeat split; assumption.
  - intros Hbad.
    destruct (TradeInputFields.TradeInput_init ticker entry stop target) as [t|errors] eqn:E.
    + apply TradeInput_init_inv in E. exfalso. destruct Hbad; lra.
    + exists errors. split; [|reflexivity]. now apply TradeInput_init_errors in E.
Qed.

Lemma TradeInput_init_spec_witness :
  TradeInputFields.TradeInput_init "  petr4 " 20 19 (43 # 2)
    = TradeInputFields.Constructed example_trade /\
  exists errors,
    TradeInputFields.TradeInput_init "PETR4" 20 21 (43 # 2)
      = TradeInputFields.ValidationError errors.
Proof.
  destruct (TradeInput_init_spec "  petr4 " 20 19 (43 # 2)) as ((_ & Hok) & _).
  destruct (TradeInput_init_spec "PETR4" 20 21 (43 # 2)) as (_ & _ & Hbad).
  split.
  - apply Hok. repeat split; discriminate.
  - destruct Hbad as (errors & _ & E); [left; discriminate|]. now exists errors.
Defined.

Section Normalization.

Import TradeInputFields.

Lemma upper_ascii_idem (c : ascii) : upper_ascii (upper_ascii c) = upper_ascii c.
Proof. destruct c as [[] [] [] [] [] [] [] []]; reflexivity. Qed.

Lemma is_space_upper_ascii (c : ascii) : is_space (upper_ascii c) = is_space c.
Proof. destruct c as [[] [] [] [] [] [] [] []]; reflexivity. Qed.

Lemma upper_idem (s : string) : upper (upper s) = upper s.
Proof.
  induction s as [|c s IH]; [reflexivity|]. cbn [upper].
  now rewrite upper_ascii_idem, IH.
Qed.

Lemma upper_lstrip (s : string) : upper (lstrip s) = lstrip (upper s).
Proof.
  induction s as [|c s IH]; [reflexivity|]. cbn [upper lstrip].
  rewrite is_space_upper_ascii. destruct (is_space c); [exact IH | reflexivity].
Qed.

Lemma upper_rstrip (s : string) : upper (rstrip s) = rstrip (upper s).
Proof.
  induction s as [|c s IH]; [reflexivity|]. cbn [upper rstrip].
  rewrite <- IH, is_space_upper_ascii.
  destruct (rstrip s) as [|d r]; cbn [upper]; [|reflexivity].
  destruct (is_space c); reflexivity.
Qed.

Lemma lstrip_idem (s : string) : lstrip (lstrip s) = lstrip s.
Proof.
  induction s as [|c s IH]; [reflexivity|]. cbn [lstrip].
  destruct (is_space c) eqn:E; [exact IH|]. cbn [lstrip]. now rewrite E.
Qed.

Lemma rstrip_idem (s : string) : rstrip (rstrip s) = rstrip s.
Proof.
  induction s as [|c s IH]; [reflexivity|]. cbn [rstrip].
  destruct (rstrip s) as [|d r] eqn:E.
  - destruct (is_space c) eqn:Ec; [reflexivity|]. cbn [rstrip]. now rewrite Ec.
  - cbn [rstrip] in *. now rewrite IH.
Qed.

(** Stripping on the left keeps a clean right end. *)
Lemma rstrip_lstrip (s : string) : rstrip s = s -> rstrip (lstrip s) = lstrip s.
Proof.
  induction s as [|c s IH]; [reflexivity|]. intros H. cbn [lstrip].
  destruct (is_space c) eqn:Ec; [|exact H].
  apply IH. cbn [rstrip] in H. destruct (rstrip s) as [|d r].
  - rewrite Ec in H. discriminate.
  - now injection H.
Qed.

Lemma strip_idem (s : string) : strip (strip s) = strip s.
Proof.
  unfold strip. rewrite (rstrip_lstrip (rstrip s)) by apply rstrip_idem.
  apply lstrip_idem.
Qed.

Lemma upper_strip (s : string) : upper (strip s) = strip (upper s).
Proof. unfold strip. now rewrite upper_lstrip, upper_rstrip. Qed.

End Normalization.

(** X2.  The ticker of a constructed trade is in normal form: it is not
    empty, equals its own upper-case form and has no blank at either end.
    Constructing a trade again from the fields of a constructed trade gives
    the same trade. *)
Theorem TradeInput_init_normal_form
    (ticker : string) (entry stop target : Q) (t : TradeInput.t) :
  TradeInputFields.TradeInput_init ticker entry stop target
    = TradeInputFields.Constructed t ->
  TradeInput.ticker t <> EmptyString /\
  upper (TradeInput.ticker t) = TradeInput.ticker t /\
  TradeInputFields.strip (TradeInput.ticker t) = TradeInput.ticker t /\
  TradeInputFields.TradeInput_init (TradeInput.ticker t) (TradeInput.entry_price t)
    (TradeInput.stop_loss t) (TradeInput.target t) = TradeInputFields.Constructed t.
Proof.
  intros H. apply TradeInput_init_inv in H.
  destruct H as (-> & Ht & He & Hs & Hg & Hse & Het). cbn.
  assert (Hup : upper (TradeInputFields.strip (upper ticker))
                = TradeInputFields.strip (upper ticker))
    by now rewrite upper_strip, upper_idem.
  assert (Hst : TradeInputFields.strip (TradeInputFields.strip (upper ticker))
                = TradeInputFields.strip (upper ticker)) by apply strip_idem.
  repeat split; try assumption.
  rewrite TradeInput_init_ok; try assumption.
  - now rewrite Hup, Hst.
  - now rewrite Hup, Hst.
Qed.

Lemma TradeInput_init_normal_form_witness :
  TradeInputFields.TradeInput_init "  petr4 " 20 19 (43 # 2)
    = TradeInputFields.Constructed example_trade /\
  TradeInputFields.TradeInput_init "PETR4" 20 19 (43 # 2)
    = TradeInputFields.Constructed example_trade.
Proof.
  assert (H : TradeInputFields.TradeInput_init "  petr4 " 20 19 (43 # 2)
              = TradeInputFields.Constructed example_trade) by reflexivity.
  split; [exact H|].
  exact (proj2 (proj2 (proj2 (TradeInput_init_normal_form _ _ _ _ _ H)))).
Defined.

(** ** The trade rules on a constructed trade *)

(** The result of [validate_trade] when the market data is present and the
    entry price is not zero, field by field. *)
Lemma validate_trade_fields
    (provider : MarketDataService.Provider) (trade : TradeInput.t)
    (market_service : MarketDataService.t) (data : MarketDataService.Data) :
  fst (MarketDataService.get_ticker_data provider (TradeInput.ticker trade)
         market_service) = Some data ->
  ~ TradeInput.entry_price trade == 0 ->
  let entry := TradeInput.entry_price trade in
  let risk := Qabs (entry - TradeInput.stop_loss trade) in
  let reward := Qabs (TradeInput.target trade - entry) in
  let slp := Qabs ((TradeInput.stop_loss trade - entry) / entry) in
  let rr := if Qltb 0 risk then reward / risk else 0 in
  let liquidity := MarketDataService.daily_liquidity data in
  exists v,
    fst (TradeValidator.validate_trade provider trade market_service) = Ok v /\
    TechnicalValidation.daily_liquidity v = liquidity /\
    TechnicalValidation.stop_loss_percent v = slp /\
    TechnicalValidation.risk_reward_ratio v = rr /\
    TechnicalValidation.max_quantity v
      = py_int (MarketDataService.average_daily_volume data * (1 # 100)) /\
    TechnicalValidation.valid v
      = negb (Qltb liquidity 30000000) && negb (Qltb (8 # 100) slp)
        && negb (Qltb rr (133 # 100)) /\
    length (TechnicalValidation.messages v) = 5%nat.
Proof.
  intros Hfetch Hentry entry risk reward slp rr liquidity.
  unfold TradeValidator.validate_trade.
  destruct (MarketDataService.get_ticker_data provider (TradeInput.ticker trade)
              market_service) as [md svc].
  cbn in Hfetch. subst md. cbn [fst].
  rewrite (py_truediv_ok (TradeInput.stop_loss trade - TradeInput.entry_price trade)
             (TradeInput.entry_price trade)) by assumption.
  fold entry liquidity.
  change (Qabs (entry - TradeInput.stop_loss trade)) with risk.
  change (Qabs (TradeInput.target trade - entry)) with reward.
  unfold TradeValidator.MIN_LIQUIDITY, TradeValidator.MAX_STOP_LOSS,
    TradeValidator.MIN_RISK_REWARD, TradeValidator.MAX_VOLUME_PERCENT.
  assert (Hrr : (if Qltb 0 risk then py_truediv reward risk else Ok 0) = Ok rr).
  { unfold rr. destruct (Qltb 0 risk) eqn:E; [|reflexivity].
    apply Qltb_lt in E. apply py_truediv_ok. lra. }
  rewrite Hrr. cbv beta iota zeta delta [mbind result_bind].
  fold slp.
  destruct (Qltb liquidity 30000000), (Qltb (8 # 100) slp), (Qltb rr (133 # 100));
    eexists; (split; [reflexivity|]); repeat split.
Qed.



(** With market data present and a zero entry price the stop-loss rule
    divides by zero. *)
Lemma validate_trade_zero_entry
    (provider : MarketDataService.Provider) (trade : TradeInput.t)
    (market_service : MarketDataService.t) (data : MarketDataService.Data) :
  fst (MarketDataService.get_ticker_data provider (TradeInput.ticker trade)
         market_service) = Some data ->
  TradeInput.entry_price trade == 0 ->
  fst (TradeValidator.validate_trade provider trade market_service)
    = Raise ZeroDivisionError.
Proof.
  intros Hfetch Ez. apply Qeq_bool_iff in Ez.
  unfold TradeValidator.validate_trade.
  destruct (MarketDataService.get_ticker_data provider (TradeInput.ticker trade)
              market_service) as [md svc].
  cbn in Hfetch. subst md. cbn [fst].
  destruct (Qltb _ TradeValidator.MIN_LIQUIDITY);
    cbv beta iota zeta; unfold py_truediv; rewrite Ez; reflexivity.
Qed.





(** ** The cache of the market data service *)

Section Cache.

Import MarketDataService.

(** What a fetch returns and caches depends on the service through its
    cache only. *)
Lemma get_ticker_data_cache_only (provider : Provider) (ticker : string)
    (s1 s2 : MarketDataService.t) :
  cache s1 = cache s2 ->
  fst (get_ticker_data provider ticker s1) = fst (get_ticker_data provider ticker s2) /\
  cache (snd (get_ticker_data provider ticker s1))
    = cache (snd (get_ticker_data provider ticker s2)).
Proof.
  intros Hc. unfold get_ticker_data. rewrite Hc.
  destruct (cache s2 !! normalize ticker) as [[d ts]|]; [now split|].
  destruct (history (provider (normalize ticker))) as [[|bar hist]|]; cbn; try now split.
  destruct (info (provider (normalize ticker))); cbn; [|now split].
  now split.
Qed.

Lemma get_ticker_data_some_cached (provider : Provider) (ticker : string)
    (self : MarketDataService.t) (data : Data) :
  fst (get_ticker_data provider ticker self) = Some data ->
  exists timestamp,
    cache (snd (get_ticker_data provider ticker self)) !! normalize ticker
      = Some (data, timestamp).
Proof.
  intros Hsome.
  destruct (cache self !! normalize ticker) as [[d ts]|] eqn:Hlook.
  - rewrite (get_ticker_data_hit provider ticker self d ts Hlook) in *.
    cbn in *. exists ts. congruence.
  - destruct (get_ticker_data_miss provider ticker self Hlook) as [_ H].
    rewrite Hsome in H. destruct H as (Hcache & _).
    exists None. rewrite Hcache. apply lookup_insert_eq.
Qed.

End Cache.

(** X6.  Once a fetch has returned data, every later fetch of a ticker with
    the same symbol, the symbol itself included, returns that same data and
    leaves the service unchanged, whatever the provider would answer by
    then: it is not asked.  When the first fetch was a miss, the data carry
    the ticker as it was spelled in that fetch. *)
Theorem get_ticker_data_served_from_cache
    (provider provider' : MarketDataService.Provider) (ticker ticker' : string)
    (self : MarketDataService.t) (data : MarketDataService.Data) :
  fst (MarketDataService.get_ticker_data provider ticker self) = Some data ->
  let after := snd (MarketDataService.get_ticker_data provider ticker self) in
  (MarketDataService.normalize ticker' = MarketDataService.normalize ticker ->
   MarketDataService.get_ticker_data provider' ticker' after = (Some data, after)) /\
  MarketDataService.get_ticker_data provider' (MarketDataService.normalize ticker) after
    = (Some data, after) /\
  (MarketDataService.cache self !! MarketDataService.normalize ticker = None ->
   MarketDataService.ticker data = ticker /\
   MarketDataService.ticker_b3 data = MarketDataService.normalize ticker).
Proof.
  intros Hsome after.
  destruct (get_ticker_data_some_cached provider ticker self data Hsome) as [ts Hts].
  fold after in Hts.
  assert (Halias : forall t', MarketDataService.normalize t' = MarketDataService.normalize ticker ->
            MarketDataService.get_ticker_data provider' t' after = (Some data, after)).
  { intros t' Hn. apply get_ticker_data_hit with ts. now rewrite Hn. }
  split; [apply Halias|]. split; [apply Halias, normalize_idempotent|].
  intros Hmiss. revert Hsome. unfold MarketDataService.get_ticker_data. rewrite Hmiss.
  destruct (MarketDataService.history _) as [[|bar hist]|]; cbn; try discriminate.
  destruct (MarketDataService.info _); cbn; [|discriminate].
  intros H. inversion H. split; reflexivity.
Qed.

Lemma get_ticker_data_served_from_cache_witness :
  MarketDataService.get_ticker_data no_data "PETR4.SA"
    (snd (MarketDataService.get_ticker_data (flat_history 22 25 2000000) "PETR4"
            MarketDataService.init))
  = (Some (fetched_data (flat_history 22 25 2000000) "PETR4" MarketDataService.init),
     snd (MarketDataService.get_ticker_data (flat_history 22 25 2000000) "PETR4"
            MarketDataService.init)) /\
  MarketDataService.ticker
    (fetched_data (flat_history 22 25 2000000) "PETR4" MarketDataService.init) = "PETR4".
Proof.
  destruct (get_ticker_data_served_from_cache (flat_history 22 25 2000000) no_data
              "PETR4" "PETR4.SA" MarketDataService.init
              (fetched_data (flat_history 22 25 2000000) "PETR4" MarketDataService.init)
              eq_refl) as (Halias & _ & Hname).
  split; [apply Halias; reflexivity | apply Hname; reflexivity].
Defined.

(** X7.  A fetch that returns nothing leaves no trace in the cache: the
    failure is not remembered, and any later fetch returns and caches what
    it would have without the failed one. *)
Theorem get_ticker_data_failure_not_cached
    (provider provider' : MarketDataService.Provider) (ticker ticker' : string)
    (self : MarketDataService.t) :
  fst (MarketDataService.get_ticker_data provider ticker self) = None ->
  let after := snd (MarketDataService.get_ticker_data provider ticker self) in
  MarketDataService.cache after = MarketDataService.cache self /\
  fst (MarketDataService.get_ticker_data provider' ticker' after)
    = fst (MarketDataService.get_ticker_data provider' ticker' self) /\
  MarketDataService.cache (snd (MarketDataService.get_ticker_data provider' ticker' after))
    = MarketDataService.cache (snd (MarketDataService.get_ticker_data provider' ticker' self)).
Proof.
  intros Hnone after.
  assert (Hcache : MarketDataService.cache after = MarketDataService.cache self).
  { subst after.
    destruct (MarketDataService.cache self !! MarketDataService.normalize ticker)
      as [[d ts]|] eqn:Hlook.
    - now rewrite (get_ticker_data_hit provider ticker self d ts Hlook).
    - destruct (get_ticker_data_miss provider ticker self Hlook) as [_ H].
      now rewrite Hnone in H. }
  split; [exact Hcache|]. now apply get_ticker_data_cache_only.
Qed.

Lemma get_ticker_data_failure_not_cached_witness :
  fst (MarketDataService.get_ticker_data no_data "PETR4" MarketDataService.init) = None /\
  fst (MarketDataService.get_ticker_data (flat_history 22 25 2000000) "PETR4"
         (snd (MarketDataService.get_ticker_data no_data "PETR4" MarketDataService.init)))
  = Some (fetched_data (flat_history 22 25 2000000) "PETR4" MarketDataService.init).
Proof.
  assert (H : fst (MarketDataService.get_ticker_data no_data "PETR4"
                     MarketDataService.init) = None) by reflexivity.
  split; [exact H|].
  destruct (get_ticker_data_failure_not_cached no_data (flat_history 22 25 2000000)
              "PETR4" "PETR4" MarketDataService.init H) as (_ & Hsame & _).
  rewrite Hsame. reflexivity.
Defined.

(** X8.  [clear_cache] empties the cache and is idempotent.  After it every
    fetch asks the provider, for the symbol of the ticker, and returns what
    a service that was just created would return. *)
Theorem clear_cache_forgets
    (provider : MarketDataService.Provider) (ticker : string)
    (self : MarketDataService.t) :
  let cleared := MarketDataService.clear_cache self in
  MarketDataService.cache cleared = ∅ /\
  MarketDataService.clear_cache cleared = cleared /\
  MarketDataService.requested
    (snd (MarketDataService.get_ticker_data provider ticker cleared))
    = MarketDataService.requested self ++ [MarketDataService.normalize ticker] /\
  fst (MarketDataService.get_ticker_data provider ticker cleared)
    = fst (MarketDataService.get_ticker_data provider ticker MarketDataService.init) /\
  MarketDataService.cache
    (snd (MarketDataService.get_ticker_data provider ticker cleared))
    = MarketDataService.cache
        (snd (MarketDataService.get_ticker_data provider ticker MarketDataService.init)).
Proof.
  intros cleared. split; [reflexivity|]. split; [reflexivity|]. split.
  - apply (get_ticker_data_miss provider ticker cleared). apply lookup_empty.
  - now apply get_ticker_data_cache_only.
Qed.

(** ** The data derived from a history *)

Section Snapshot.

Import MarketDataService.

(** What a fetch returns on a miss, case by case. *)
Lemma get_ticker_data_miss_cases (provider : Provider) (ticker : string)
    (self : MarketDataService.t) :
  cache self !! normalize ticker = None ->
  fst (get_ticker_data provider ticker self) =
  match history (provider (normalize ticker)), info (provider (normalize ticker)) with
  | Some (bar :: hist), Some i =>
      Some (snapshot_of ticker (normalize ticker) (bar :: hist) i)
  | _, _ => None
  end.
Proof.
  intros Hmiss. unfold get_ticker_data. rewrite Hmiss.
  destruct (history (provider (normalize ticker))) as [[|bar hist]|];
    destruct (info (provider (normalize ticker))); reflexivity.
Qed.

Lemma tail_app_length {A : Type} (old recent : list A) (n : nat) :
  length recent = n -> tail n (old ++ recent) = recent.
Proof.
  intros <-. unfold tail. rewrite length_app.
  replace (length old + length recent - length recent)%nat with (length old) by lia.
  apply drop_app_length.
Qed.

Lemma tail_full {A : Type} (l : list A) (n : nat) :
  (length l <= n)%nat -> tail n l = l.
Proof.
  intros H. unfold tail. replace (length l - n)%nat with 0%nat by lia. reflexivity.
Qed.

Lemma iloc_back_app (old recent : list Q) (k : nat) :
  (1 <= k <= length recent)%nat ->
  iloc_back k (old ++ recent) = iloc_back k recent.
Proof.
  intros Hk. unfold iloc_back. rewrite length_app.
  rewrite app_nth2 by lia. f_equal. lia.
Qed.

(** The data built from a history of twenty rows or more are those of its
    last twenty rows. *)
Lemma snapshot_of_window (ticker symbol : string) (old recent : list Bar) (i : Info) :
  length recent = 20%nat ->
  snapshot_of ticker symbol (old ++ recent) i = snapshot_of ticker symbol recent i.
Proof.
  intros Hlen. unfold snapshot_of.
  rewrite !map_app.
  rewrite !(tail_app_length _ _ 20) by now rewrite length_map.
  rewrite !iloc_back_app by (rewrite length_map; lia).
  rewrite !(tail_full _ 20) by (rewrite length_map; lia).
  rewrite length_app, Hlen.
  replace (1 <? length old + 20)%nat with true by (symmetry; apply Nat.ltb_lt; lia).
  reflexivity.
Qed.

Lemma fold_left_Qplus_nonneg (xs : list Q) (a : Q) :
  0 <= a -> Forall (fun x => 0 <= x) xs -> 0 <= fold_left Qplus xs a.
Proof.
  revert a. induction xs as [|x xs IH]; intros a Ha Hxs; [exact Ha|].
  inversion Hxs; subst. cbn [fold_left]. apply IH; [lra | assumption].
Qed.

Lemma mean_nonneg (xs : list Q) : Forall (fun x => 0 <= x) xs -> 0 <= mean xs.
Proof.
  intros Hxs. unfold mean, Qdiv. apply Qmult_le_0_compat.
  - apply fold_left_Qplus_nonneg; [lra | assumption].
  - apply Qinv_le_0_compat. change 0 with (inject_Z 0). rewrite <- Zle_Qle. lia.
Qed.

Lemma iloc_back_nonneg (xs : list Q) (k : nat) :
  Forall (fun x => 0 <= x) xs -> 0 <= iloc_back k xs.
Proof.
  intros Hxs. unfold iloc_back.
  destruct (nth_in_or_default (length xs - k) xs 0) as [Hin|Hd].
  - rewrite List.Forall_forall in Hxs. now apply Hxs.
  - rewrite Hd. lra.
Qed.

Lemma snapshot_of_nonneg (ticker symbol : string) (hist : list Bar) (i : Info) :
  Forall (fun bar => 0 <= Volume bar /\ 0 <= Close bar) hist ->
  data_nonneg (snapshot_of ticker symbol hist i).
Proof.
  intros Hhist.
  assert (Hv : Forall (fun x => 0 <= x) (map Volume hist)).
  { apply List.Forall_map. eapply List.Forall_impl; [|exact Hhist]. cbn. tauto. }
  assert (Hc : Forall (fun x => 0 <= x) (map Close hist)).
  { apply List.Forall_map. eapply List.Forall_impl; [|exact Hhist]. cbn. tauto. }
  assert (Htail : forall xs, Forall (fun x => 0 <= x) xs ->
                             Forall (fun x => 0 <= x) (tail 20 xs))
    by (intros xs H; now apply Forall_drop).
  unfold data_nonneg, snapshot_of. cbn.
  split; [|split].
  - apply mean_nonneg, Htail, Hv.
  - apply Qmult_le_0_compat; apply mean_nonneg, Htail; assumption.
  - now apply iloc_back_nonneg.
Qed.

End Snapshot.

(** X9.  The data of a ticker depend on the trailing twenty rows of the
    history only: two providers whose histories end in the same twenty rows,
    with the same info, give the same data and cache the same entry,
    whatever the older rows are. *)
Theorem get_ticker_data_trailing_window
    (provider1 provider2 : MarketDataService.Provider) (ticker : string)
    (self : MarketDataService.t)
    (old1 old2 recent : list MarketDataService.Bar) (i : MarketDataService.Info) :
  let symbol := MarketDataService.normalize ticker in
  length recent = 20%nat ->
  MarketDataService.history (provider1 symbol) = Some (old1 ++ recent) ->
  MarketDataService.history (provider2 symbol) = Some (old2 ++ recent) ->
  MarketDataService.info (provider1 symbol) = Some i ->
  MarketDataService.info (provider2 symbol) = Some i ->
  fst (MarketDataService.get_ticker_data provider1 ticker self)
    = fst (MarketDataService.get_ticker_data provider2 ticker self) /\
  MarketDataService.cache (snd (MarketDataService.get_ticker_data provider1 ticker self))
    = MarketDataService.cache (snd (MarketDataService.get_ticker_data provider2 ticker self)) /\
  (MarketDataService.cache self !! symbol = None ->
   fst (MarketDataService.get_ticker_data provider1 ticker self)
     = Some (snapshot_of ticker symbol recent i)).
Proof.
  intros symbol Hlen Hh1 Hh2 Hi1 Hi2.
  destruct (MarketDataService.cache self !! symbol) as [[d ts]|] eqn:Hlook.
  - rewrite !(get_ticker_data_hit _ ticker self d ts Hlook).
    split; [reflexivity|]. split; [reflexivity | discriminate].
  - assert (Hdata : forall provider old,
              MarketDataService.history (provider symbol) = Some (old ++ recent) ->
              MarketDataService.info (provider symbol) = Some i ->
              fst (MarketDataService.get_ticker_data provider ticker self)
                = Some (snapshot_of ticker symbol recent i)).
    { intros provider old Hh Hi.
      rewrite (get_ticker_data_miss_cases provider ticker self Hlook).
      fold symbol. rewrite Hh, Hi.
      destruct (old ++ recent) as [|bar hist] eqn:E.
      - apply (f_equal (@length _)) in E. rewrite length_app, Hlen in E. cbn in E. lia.
      - rewrite <- E. now rewrite snapshot_of_window. }
    pose proof (Hdata provider1 old1 Hh1 Hi1) as H1.
    pose proof (Hdata provider2 old2 Hh2 Hi2) as H2.
    split; [congruence|]. split; [|intros _; exact H1].
    destruct (get_ticker_data_miss provider1 ticker self Hlook) as [_ M1].
    destruct (get_ticker_data_miss provider2 ticker self Hlook) as [_ M2].
    rewrite H1 in M1. rewrite H2 in M2.
    destruct M1 as (-> & _), M2 as (-> & _). reflexivity.
Qed.

Lemma get_ticker_data_trailing_window_witness :
  fst (MarketDataService.get_ticker_data (flat_history 22 25 2000000) "PETR4"
         MarketDataService.init)
  = fst (MarketDataService.get_ticker_data (flat_history 20 25 2000000) "PETR4"
           MarketDataService.init).
Proof.
  exact (proj1 (get_ticker_data_trailing_window
                  (flat_history 22 25 2000000) (flat_history 20 25 2000000)
                  "PETR4" MarketDataService.init
                  (repeat {| MarketDataService.Open := 25; MarketDataService.High := 25;
                             MarketDataService.Low := 25; MarketDataService.Close := 25;
                             MarketDataService.Volume := 2000000 |} 2)
                  []
                  (repeat {| MarketDataService.Open := 25; MarketDataService.High := 25;
                             MarketDataService.Low := 25; MarketDataService.Close := 25;
                             MarketDataService.Volume := 2000000 |} 20)
                  {| MarketDataService.longName := Some "Petrobras";
                     MarketDataService.sector := None |}
                  eq_refl eq_refl eq_refl eq_refl eq_refl)).
Defined.

Section CacheInvariants.

Import MarketDataService.

Lemma cache_keyed_step (provider : Provider) (ticker : string)
    (self : MarketDataService.t) :
  cache_keyed self -> cache_keyed (snd (get_ticker_data provider ticker self)).
Proof.
  intros Hinv.
  destruct (cache self !! normalize ticker) as [[d ts]|] eqn:Hlook.
  - now rewrite (get_ticker_data_hit provider ticker self d ts Hlook).
  - destruct (get_ticker_data_miss provider ticker self Hlook) as [_ H].
    destruct (fst (get_ticker_data provider ticker self)) as [data|].
    + destruct H as (Hcache & Hb3 & _).
      intros symbol d ts. rewrite Hcache, lookup_insert.
      destruct (decide (normalize ticker = symbol)) as [<-|Hne].
      * intros E. inversion E; subst.
        split; [assumption|]. split; [apply normalize_contains | reflexivity].
      * apply Hinv.
    + intros symbol d ts. rewrite H. apply Hinv.
Qed.

Lemma cache_nonneg_step (provider : Provider) (ticker : string)
    (self : MarketDataService.t) :
  nonneg_provider provider -> cache_nonneg self ->
  cache_nonneg (snd (get_ticker_data provider ticker self)) /\
  forall data, fst (get_ticker_data provider ticker self) = Some data -> data_nonneg data.
Proof.
  intros Hp Hinv.
  destruct (cache self !! normalize ticker) as [[d ts]|] eqn:Hlook.
  - rewrite (get_ticker_data_hit provider ticker self d ts Hlook). cbn.
    split; [assumption|]. intros data E. inversion E; subst. eapply Hinv, Hlook.
  - pose proof (get_ticker_data_miss_cases provider ticker self Hlook) as Hcases.
    destruct (get_ticker_data_miss provider ticker self Hlook) as [_ H].
    destruct (fst (get_ticker_data provider ticker self)) as [data|].
    + assert (Hdata : data_nonneg data).
      { destruct (history (provider (normalize ticker))) as [[|bar hist]|] eqn:Eh;
          try discriminate.
        destruct (info (provider (normalize ticker))); [|discriminate].
        inversion Hcases; subst. apply snapshot_of_nonneg. eapply Hp, Eh. }
      destruct H as (Hcache & _). split.
      * intros symbol d ts. rewrite Hcache, lookup_insert.
        destruct (decide (normalize ticker = symbol)) as [<-|Hne].
        -- intros E. now inversion E; subst.
        -- apply Hinv.
      * intros d E. now inversion E; subst.
    + split; [|discriminate]. intros symbol d ts. rewrite H. apply Hinv.
Qed.

End CacheInvariants.

(** X10.  The cache keeps its keys honest.  A service that was just created,
    every service after a fetch and every cleared service hold each entry
    under the symbol recorded in its data, a symbol that contains [.SA];
    hence the data a fetch returns always carry the symbol of the ticker
    asked for. *)
Theorem cache_keyed_invariant
    (provider : MarketDataService.Provider) (ticker : string)
    (self : MarketDataService.t) :
  cache_keyed MarketDataService.init /\
  (cache_keyed self ->
   cache_keyed (snd (MarketDataService.get_ticker_data provider ticker self)) /\
   cache_keyed (MarketDataService.clear_cache self) /\
   forall data,
     fst (MarketDataService.get_ticker_data provider ticker self) = Some data ->
     MarketDataService.ticker_b3 data = MarketDataService.normalize ticker).
Proof.
  split.
  - intros symbol d ts H. cbn in H. rewrite lookup_empty in H. discriminate.
  - intros Hinv. split; [now apply cache_keyed_step|]. split.
    + intros symbol d ts H. cbn in H. rewrite lookup_empty in H. discriminate.
    + intros data Hsome.
      destruct (get_ticker_data_some_cached provider ticker self data Hsome) as [ts Hts].
      eapply (cache_keyed_step provider ticker self Hinv), Hts.
Qed.

Lemma cache_keyed_invariant_witness :
  cache_keyed
    (snd (MarketDataService.get_ticker_data (flat_history 22 25 2000000) "PETR4"
            MarketDataService.init)) /\
  MarketDataService.ticker_b3
    (fetched_data (flat_history 22 25 2000000) "PETR4" MarketDataService.init)
  = "PETR4.SA".
Proof.
  destruct (cache_keyed_invariant (flat_history 22 25 2000000) "PETR4"
              MarketDataService.init) as (Hinit & Hstep).
  destruct (Hstep Hinit) as (Hafter & _ & Hsym).
  split; [exact Hafter | apply Hsym; reflexivity].
Defined.

(** X11.  With a provider whose volumes and closing prices are not negative,
    no fetch ever returns or caches a negative average volume, liquidity or
    current price, and [validate_trade] never returns a negative maximum
    quantity or daily liquidity. *)
Theorem nonneg_provider_invariant
    (provider : MarketDataService.Provider) (trade : TradeInput.t)
    (self : MarketDataService.t) :
  nonneg_provider provider -> cache_nonneg self ->
  cache_nonneg
    (snd (MarketDataService.get_ticker_data provider (TradeInput.ticker trade) self)) /\
  cache_nonneg (snd (TradeValidator.validate_trade provider trade self)) /\
  (forall data,
     fst (MarketDataService.get_ticker_data provider (TradeInput.ticker trade) self)
       = Some data -> data_nonneg data) /\
  (forall v,
     fst (TradeValidator.validate_trade provider trade self) = Ok v ->
     (0 <= TechnicalValidation.max_quantity v)%Z /\
     0 <= TechnicalValidation.daily_liquidity v).
Proof.
  intros Hp Hinv.
  destruct (cache_nonneg_step provider (TradeInput.ticker trade) self Hp Hinv)
    as [Hafter Hdata].
  split; [exact Hafter|]. split; [now rewrite validate_trade_service|].
  split; [exact Hdata|].
  intros v Hrun.
  destruct (fst (MarketDataService.get_ticker_data provider (TradeInput.ticker trade) self))
    as [data|] eqn:Hfetch.
  - destruct (Hdata data eq_refl) as (Hvol & Hliq & _).
    destruct (Qeq_bool (TradeInput.entry_price trade) 0) eqn:Ez.
    + apply Qeq_bool_iff in Ez.
      rewrite (validate_trade_zero_entry provider trade self data Hfetch Ez) in Hrun.
      discriminate.
    + apply Qeq_bool_neq in Ez.
      destruct (validate_trade_fields provider trade self data Hfetch Ez)
        as (v' & Hrun' & Hl & _ & _ & Hmax & _).
      assert (v' = v) by congruence. subst v'.
      rewrite Hmax, Hl. split; [|exact Hliq].
      apply py_int_sign. lra.
  - rewrite (validate_trade_absent provider trade self Hfetch) in Hrun.
    inversion Hrun; subst. cbn. split; [lia | lra].
Qed.

Lemma nonneg_provider_invariant_witness :
  nonneg_provider (flat_history 22 25 2000000) /\
  cache_nonneg MarketDataService.init /\
  cache_nonneg
    (snd (TradeValidator.validate_trade (flat_history 22 25 2000000) example_trade
            MarketDataService.init)).
Proof.
  assert (Hp : nonneg_provider (flat_history 22 25 2000000)).
  { intros symbol hist H. cbn in H. inversion H; subst.
    repeat constructor; discriminate. }
  assert (Hc : cache_nonneg MarketDataService.init).
  { intros symbol d ts H. cbn in H. rewrite lookup_empty in H. discriminate. }
  split; [exact Hp | split; [exact Hc|]].
  exact (proj1 (proj2 (nonneg_provider_invariant (flat_history 22 25 2000000)
                         example_trade MarketDataService.init Hp Hc))).
Defined.

Lemma mean_singleton (x : Q) : MarketDataService.mean [x] == x.
Proof. unfold MarketDataService.mean. cbn. field. Qed.

(** X12.  A history of a single row is enough for a fetch: the averages are
    the volume and the closing price of that row, the liquidity their
    product, the current price that closing price, and the change in percent
    is 0, since there is no earlier close to compare with. *)
Theorem get_ticker_data_single_row
    (provider : MarketDataService.Provider) (ticker : string)
    (self : MarketDataService.t) (bar : MarketDataService.Bar)
    (i : MarketDataService.Info) :
  let symbol := MarketDataService.normalize ticker in
  MarketDataService.cache self !! symbol = None ->
  MarketDataService.history (provider symbol) = Some [bar] ->
  MarketDataService.info (provider symbol) = Some i ->
  exists data,
    fst (MarketDataService.get_ticker_data provider ticker self) = Some data /\
    MarketDataService.change_percent data = 0 /\
    MarketDataService.current_price data = MarketDataService.Close bar /\
    MarketDataService.average_daily_volume data == MarketDataService.Volume bar /\
    MarketDataService.daily_liquidity data
      == MarketDataService.Volume bar * MarketDataService.Close bar.
Proof.
  intros symbol Hmiss Hh Hi.
  rewrite (get_ticker_data_miss_cases provider ticker self Hmiss).
  fold symbol. rewrite Hh, Hi. eexists. split; [reflexivity|].
  unfold snapshot_of. cbn [MarketDataService.change_percent
    MarketDataService.current_price MarketDataService.average_daily_volume
    MarketDataService.daily_liquidity map length Nat.ltb Nat.leb].
  split; [reflexivity|]. split; [reflexivity|].
  change (MarketDataService.tail 20 [MarketDataService.Volume bar])
    with [MarketDataService.Volume bar].
  change (MarketDataService.tail 20 [MarketDataService.Close bar])
    with [MarketDataService.Close bar].
  rewrite !mean_singleton. split; reflexivity.
Qed.

Lemma get_ticker_data_single_row_witness :
  exists data,
    fst (MarketDataService.get_ticker_data (flat_history 1 25 2000000) "PETR4"
           MarketDataService.init) = Some data /\
    MarketDataService.change_percent data = 0 /\
    MarketDataService.daily_liquidity data == 50000000.
Proof.
  destruct (get_ticker_data_single_row (flat_history 1 25 2000000) "PETR4"
              MarketDataService.init
              {| MarketDataService.Open := 25; MarketDataService.High := 25;
                 MarketDataService.Low := 25; MarketDataService.Close := 25;
                 MarketDataService.Volume := 2000000 |}
              {| MarketDataService.longName := Some "Petrobras";
                 MarketDataService.sector := None |}
              eq_refl eq_refl eq_refl)
    as (data & Hrun & Hchange & _ & _ & Hliq).
  exists data. split; [exact Hrun | split; [exact Hchange|]].
  rewrite Hliq. reflexivity.
Defined.

(** X13.  The two accessors read one snapshot.  When [get_daily_liquidity]
    returns a value, [get_current_price] for the same ticker afterwards
    returns the current price of the very data whose liquidity was returned,
    without asking the provider and without changing the service. *)
Theorem accessors_share_snapshot
    (provider provider' : MarketDataService.Provider) (ticker : string)
    (self : MarketDataService.t) (liquidity : Q) :
  fst (MarketDataAccessors.get_daily_liquidity provider ticker self) = Some liquidity ->
  let after := snd (MarketDataAccessors.get_daily_liquidity provider ticker self) in
  exists data,
    fst (MarketDataService.get_ticker_data provider ticker self) = Some data /\
    liquidity = MarketDataService.daily_liquidity data /\
    MarketDataAccessors.get_current_price provider' ticker after
      = (Some (MarketDataService.current_price data), after).
Proof.
  unfold MarketDataAccessors.get_daily_liquidity, MarketDataAccessors.get_current_price.
  destruct (MarketDataService.get_ticker_data provider ticker self) as [[data|] svc] eqn:E;
    cbn; [|discriminate].
  intros H. inversion H; subst. exists data. split; [reflexivity|]. split; [reflexivity|].
  assert (Hsome : fst (MarketDataService.get_ticker_data provider ticker self) = Some data)
    by now rewrite E.
  destruct (get_ticker_data_some_cached provider ticker self data Hsome) as [ts Hts].
  rewrite E in Hts. cbn in Hts.
  now rewrite (get_ticker_data_hit provider' ticker svc data ts Hts).
Qed.

Lemma accessors_share_snapshot_witness :
  fst (MarketDataAccessors.get_daily_liquidity (flat_history 22 25 2000000) "PETR4"
         MarketDataService.init)
    = Some (MarketDataService.daily_liquidity
              (fetched_data (flat_history 22 25 2000000) "PETR4" MarketDataService.init)) /\
  fst (MarketDataAccessors.get_current_price no_data "PETR4"
         (snd (MarketDataAccessors.get_daily_liquidity (flat_history 22 25 2000000)
                 "PETR4" MarketDataService.init)))
    = Some (MarketDataService.current_price
              (fetched_data (flat_history 22 25 2000000) "PETR4" MarketDataService.init)).
Proof.
  assert (H : fst (MarketDataAccessors.get_daily_liquidity (flat_history 22 25 2000000)
                     "PETR4" MarketDataService.init)
              = Some (MarketDataService.daily_liquidity
                        (fetched_data (flat_history 22 25 2000000) "PETR4"
                           MarketDataService.init))) by reflexivity.
  split; [exact H|].
  destruct (accessors_share_snapshot (flat_history 22 25 2000000) no_data "PETR4"
              MarketDataService.init _ H) as (data & Hd & _ & Hprice).
  rewrite Hprice. cbn [fst]. f_equal. f_equal.
  cbv [fetched_data]. rewrite Hd. reflexivity.
Defined.

(** ** The allocation in exact arithmetic, further *)

Lemma calculate_share_quantity_nonzero_price
    (client : Client.t) (entry_price : Q) (max_quantity : Z) :
  ~ entry_price == 0 ->
  let pre := pre_clamp_quantity client entry_price max_quantity in
  calculate_share_quantity client entry_price max_quantity =
  if Qltb (Client.net_available client) (inject_Z pre * entry_price)
  then Ok (py_int (Client.net_available client / entry_price),
           inject_Z (py_int (Client.net_available client / entry_price)) * entry_price)
  else Ok (pre, inject_Z pre * entry_price).
Proof.
  intros Hp pre. unfold calculate_share_quantity.
  rewrite !py_truediv_ok by assumption. reflexivity.
Qed.

(** The amount returned is the quantity returned times the price. *)
Lemma calculate_share_quantity_amount
    (client : Client.t) (entry_price : Q) (max_quantity : Z) (quantity : Z) (invested : Q) :
  calculate_share_quantity client entry_price max_quantity = Ok (quantity, invested) ->
  invested = inject_Z quantity * entry_price /\ ~ entry_price == 0.
Proof.
  intros H.
  destruct (Qeq_bool entry_price 0) eqn:Ez.
  - unfold calculate_share_quantity, py_truediv in H. rewrite Ez in H. discriminate.
  - apply Qeq_bool_neq in Ez. split; [|assumption].
    rewrite calculate_share_quantity_nonzero_price in H by assumption.
    destruct (Qltb _ _); inversion H; reflexivity.
Qed.


(** ** The basket in exact arithmetic *)

Section BasketShape.

Variable trade : TradeInput.t.
Variable validation : TechnicalValidation.t.
Hypothesis price_nonzero : ~ TradeInput.entry_price trade == 0.

Lemma calculate_share_quantity_allocation (client : Client.t) :
  calculate_share_quantity client (TradeInput.entry_price trade)
    (TechnicalValidation.max_quantity validation)
  = Ok (allocation client (TradeInput.entry_price trade)
          (TechnicalValidation.max_quantity validation)).
Proof.
  rewrite calculate_share_quantity_nonzero_price by assumption.
  unfold allocation. cbv zeta. now destruct (Qltb _ _).
Qed.

(** The loop of [generate_basket], client by client. *)
Lemma generate_basket_loop_eq (clients : list Client.t) :
  forall orders warnings,
    generate_basket_loop trade validation clients orders warnings
    = Ok (orders ++ flat_map (orders_of_client trade validation) clients,
          warnings ++ flat_map (warnings_of_client trade validation) clients).
Proof.
  induction clients as [|client clients IH]; intros orders warnings.
  - cbn. now rewrite !app_nil_r.
  - cbn [generate_basket_loop flat_map].
    rewrite calculate_share_quantity_allocation.
    unfold orders_of_client at 1, warnings_of_client at 1.
    destruct (allocation client _ _) as [quantity invested]. cbn [mbind result_bind fst snd].
    destruct (quantity =? 0)%Z; rewrite IH; cbn [app]; now rewrite <- ?app_assoc.
Qed.

Lemma orders_of_client_shape (client : Client.t) :
  Forall (order_of_trade trade) (orders_of_client trade validation client).
Proof.
  unfold orders_of_client.
  pose proof (calculate_share_quantity_allocation client) as Hrun.
  destruct (allocation client _ _) as [quantity invested]. cbn [fst snd].
  destruct (quantity =? 0)%Z eqn:E; constructor; [|constructor].
  apply calculate_share_quantity_amount in Hrun. destruct Hrun as [-> _].
  apply Z.eqb_neq in E. repeat split; try reflexivity. assumption.
Qed.

End BasketShape.



Lemma length_pos_Q {A : Type} (l : list A) :
  l <> [] -> 0 < inject_Z (Z.of_nat (length l)).
Proof.
  intros H. destruct l; [congruence|].
  change 0 with (inject_Z 0). rewrite <- Zlt_Qlt. cbn [length]. lia.
Qed.

(** The summary of a list that is not empty, when it returns. *)
Lemma calculate_summary_ok (orders : list ClientOrder.t) :
  orders <> [] -> kept_amounts orders <> [] ->
  exists mn mx,
    is_min mn (kept_amounts orders) /\ is_max mx (kept_amounts orders) /\
    calculate_summary orders =
    Ok {| total_orders := Z.of_nat (length orders);
          total_shares := fold_left Z.add (map ClientOrder.quantity orders) 0%Z;
          total_invested := py_sum (kept_amounts orders);
          average_investment :=
            py_sum (kept_amounts orders)
            / inject_Z (Z.of_nat (length (kept_amounts orders)));
          min_investment := mn;
          max_investment := mx |}.
Proof.
  intros Hne Hkept.
  rewrite calculate_summary_nonempty by assumption. cbv zeta.
  destruct (py_min_spec _ Hkept) as (mn & Hmn & Hmin).
  destruct (py_max_spec _ Hkept) as (mx & Hmx & Hmax).
  exists mn, mx. split; [assumption|]. split; [assumption|].
  rewrite py_truediv_ok, Hmn, Hmx; [reflexivity|].
  pose proof (length_pos_Q _ Hkept). intros H0. lra.
Qed.

Lemma kept_amounts_of_basket (trade : TradeInput.t) (orders : list ClientOrder.t) :
  ~ TradeInput.entry_price trade == 0 ->
  Forall (order_of_trade trade) orders ->
  kept_amounts orders
  = map (fun order => inject_Z (ClientOrder.quantity order) * TradeInput.entry_price trade)
        orders.
Proof.
  intros Hp Hshape. unfold kept_amounts, present_amounts.
  induction Hshape as [|o orders Ho _ IH]; [reflexivity|].
  destruct Ho as (_ & _ & _ & _ & _ & _ & _ & _ & Hq & Hinv).
  cbn [omap list_omap]. rewrite Hinv. cbn [List.filter map].
  assert (Hnz : Qeq_bool (inject_Z (ClientOrder.quantity o) * TradeInput.entry_price trade) 0
                = false).
  { destruct (Qeq_bool _ 0) eqn:E; [|reflexivity]. apply Qeq_bool_iff in E.
    apply Qmult_integral in E. destruct E as [E|E]; [|contradiction].
    exfalso. apply Hq. unfold Qeq, inject_Z in E. cbn in E. lia. }
  rewrite Hnz. cbn [negb]. now rewrite IH.
Qed.

Lemma Qsum_scaled (p : Q) (zs : list Z) :
  Qsum (map (fun z => inject_Z z * p) zs) == inject_Z (Zsum zs) * p.
Proof.
  induction zs as [|z zs IH]; unfold Qsum, Zsum in *; cbn [map fold_right].
  - ring.
  - rewrite IH, inject_Z_plus. ring.
Qed.

(** X19.  Filtering is idempotent and goes through concatenation: filtering
    the eligible clients again keeps them all, every diagnostic passing, and
    filtering two lists joined gives the two results joined. *)
Theorem filter_eligible_clients_idempotent (clients more : list Client.t) :
  let kept := fst (filter_eligible_clients clients) in
  fst (filter_eligible_clients kept) = kept /\
  Forall (fun m => mark_of m = Pass) (snd (filter_eligible_clients kept)) /\
  filter_eligible_clients (clients ++ more)
  = (fst (filter_eligible_clients clients) ++ fst (filter_eligible_clients more),
     snd (filter_eligible_clients clients) ++ snd (filter_eligible_clients more)).
Proof.
  unfold filter_eligible_clients. rewrite !filter_eligible_clients_fold. cbn [fst snd app].
  split; [|split].
  - induction clients as [|c cs IH]; [reflexivity|]. cbn [List.filter].
    destruct (eligibleb c) eqn:E; [|exact IH].
    cbn [List.filter]. rewrite E. now rewrite IH.
  - apply List.Forall_map. apply List.Forall_forall. intros c Hc.
    apply filter_In in Hc. apply diagnostic_mark, eligibleb_spec, Hc.
  - now rewrite List.filter_app, map_app.
Qed.

(** ** The spreadsheet, further *)

(** X20.  The two internal fields of an order never reach the sheet:
    [generate_excel] returns the same path and writes the same sheet when
    the client names and invested amounts are removed from the orders. *)
Theorem generate_excel_hides_internal_fields
    (now : ExcelGenerator.datetime) (orders : list ClientOrder.t)
    (ticker : string) (self : ExcelGenerator.t) :
  ExcelGenerator.generate_excel now (map scrub orders) ticker self
  = ExcelGenerator.generate_excel now orders ticker self.
Proof.
  destruct orders as [|o orders]; [reflexivity|].
  rewrite !generate_excel_nonempty by discriminate.
  rewrite map_map. reflexivity.
Qed.

Section Format.

Import ExcelGenerator ExcelFormat.

Lemma validate_format_sheet (filepath : string) (self : ExcelGenerator.t)
    (orders : list ClientOrder.t) :
  orders <> [] ->
  files self !! filepath = Some {| columns := COLUMNS; rows := map export_row orders |} ->
  validate_format filepath self = true.
Proof.
  intros Hne Hfile. unfold validate_format, read_excel. rewrite Hfile.
  destruct orders; [congruence | reflexivity].
Qed.

End Format.

(** X21.  What [generate_excel] writes passes [validate_format], and keeps
    passing it.  After a generation the file at the returned path is valid,
    every file that was valid before is still valid, and a path that holds
    no file is not valid. *)
Theorem generate_excel_validate_format
    (now : ExcelGenerator.datetime) (orders : list ClientOrder.t)
    (ticker : string) (self : ExcelGenerator.t) :
  orders <> [] ->
  let after := snd (ExcelGenerator.generate_excel now orders ticker self) in
  exists filepath,
    fst (ExcelGenerator.generate_excel now orders ticker self) = Ok filepath /\
    ExcelFormat.validate_format filepath after = true /\
    (forall other, ExcelFormat.validate_format other self = true ->
                   ExcelFormat.validate_format other after = true) /\
    (forall other, ExcelGenerator.files after !! other = None ->
                   ExcelFormat.validate_format other after = false).
Proof.
  intros Hne after. subst after.
  rewrite generate_excel_nonempty by assumption. cbv zeta. cbn [fst snd].
  eexists. split; [reflexivity|]. split; [|split].
  - apply validate_format_sheet with orders; [assumption|]. apply lookup_insert_eq.
  - intros other Hvalid.
    match goal with |- context [<[?p := _]> _] => destruct (decide (p = other)) as [<-|Hother] end.
    + apply validate_format_sheet with orders; [assumption|]. apply lookup_insert_eq.
    + unfold ExcelFormat.validate_format, ExcelFormat.read_excel in *.
      cbn [ExcelGenerator.files]. now rewrite lookup_insert_ne.
  - intros other Hnone. unfold ExcelFormat.validate_format, ExcelFormat.read_excel.
    now rewrite Hnone.
Qed.

Lemma generate_excel_validate_format_witness :
  [order_with 500 (Some 10000)] <> [] /\
  ExcelFormat.validate_format "output/basket_PETR4_20240102_030405.xlsx"
    (snd (ExcelGenerator.generate_excel example_now [order_with 500 (Some 10000)]
            "PETR4" fresh_generator)) = true /\
  ExcelFormat.validate_format "output/basket_PETR4_20240102_030405.xlsx"
    fresh_generator = false.
Proof.
  assert (Hne : [order_with 500 (Some 10000)] <> []) by discriminate.
  split; [exact Hne|].
  destruct (generate_excel_validate_format example_now [order_with 500 (Some 10000)]
              "PETR4" fresh_generator Hne) as (path & Hpath & Hvalid & _ & _).
  assert (Hp : path = "output/basket_PETR4_20240102_030405.xlsx").
  { assert (H : Ok path = Ok "output/basket_PETR4_20240102_030405.xlsx"
                :> result string) by (rewrite <- Hpath; reflexivity).
    now inversion H. }
  rewrite <- Hp. split; [exact Hvalid|]. rewrite Hp. reflexivity.
Defined.

(** ** The endpoint: [gerar_basket] *)

Section Rows.

Import Main.

Lemma clients_of_rows_fold (rows : list Row) : forall clients,
  fold_left (fun clients row =>
               match client_of_row row with
               | Some client => clients ++ [client]
               | None => clients
               end) rows clients
  = clients ++ flat_map clients_of_row rows.
Proof.
  induction rows as [|row rows IH]; intros clients; cbn [fold_left flat_map].
  - now rewrite app_nil_r.
  - rewrite IH. unfold clients_of_row at 2.
    destruct (client_of_row row); cbn [app]; now rewrite <- ?app_assoc.
Qed.

Lemma clients_of_rows_flat_map (rows : list Row) :
  clients_of_rows rows = flat_map clients_of_row rows.
Proof. unfold clients_of_rows. now rewrite clients_of_rows_fold. Qed.

Lemma clients_of_rows_length (rows : list Row) :
  (length (clients_of_rows rows) <= length rows)%nat.
Proof.
  rewrite clients_of_rows_flat_map.
  induction rows as [|row rows IH]; cbn [flat_map length]; [lia|].
  rewrite length_app. unfold clients_of_row at 1.
  destruct (client_of_row row); cbn [length]; lia.
Qed.

End Rows.

(** X23.  Every client that the endpoint builds comes from a row of the
    table: account number, name and net total are those of the row; the
    three descriptive columns are blank when the table lacks them; without
    the column of the available balance the net total stands for it, and
    without the column of the average operation value it is zero. *)
Theorem clients_of_rows_spec (rows : list Main.Row) (client : Client.t) :
  In client (Main.clients_of_rows rows) ->
  exists row,
    In row rows /\
    Main.str_item (Main.NUMERO_CONTA row) = Some (Client.account_number client) /\
    Main.str_item (Main.CLIENTE row) = Some (Client.client_name client) /\
    Main.float_item (Main.NET_TOTAL row) = Some (Client.net_total client) /\
    Client.equity_advisor client = Main.str_get (Main.ASSESSOR_RV row) /\
    Client.advisor client = Main.str_get (Main.ADVISOR row) /\
    Client.strategy client = Main.str_get (Main.ESTRATEGIA row) /\
    match Main.NET_DISPONIVEL row with
    | Some c => Main.as_float c = Some (Client.net_available client)
    | None => Client.net_available client = Client.net_total client
    end /\
    match Main.VALOR_MEDIO_POR_OPERACAO row with
    | Some c => Main.as_float c = Some (Client.average_operation_value client)
    | None => Client.average_operation_value client = 0
    end.
Proof.
  rewrite clients_of_rows_flat_map. intros Hin.
  apply in_flat_map in Hin. destruct Hin as (row & Hrow & Hin).
  exists row. split; [exact Hrow|].
  unfold clients_of_row in Hin.
  destruct (Main.client_of_row row) as [c|] eqn:Ec; [|destruct Hin].
  destruct Hin as [<-|[]].
  unfold Main.client_of_row, Main.str_item, Main.float_item in *.
  destruct row as [account rv adv name strat total avail avg]. cbn in *.
  destruct account as [account|]; cbn in Ec; [|discriminate].
  destruct name as [name|]; cbn in Ec; [|discriminate].
  destruct total as [total|]; cbn in Ec; [|discriminate].
  destruct (Main.as_float total) as [t|] eqn:Et; cbn in Ec; [|discriminate].
  destruct avail as [avail|]; cbn in Ec.
  - destruct (Main.as_float avail) as [a|] eqn:Ea; cbn in Ec; [|discriminate].
    destruct avg as [avg|]; cbn in Ec.
    + destruct (Main.as_float avg) as [g|] eqn:Eg; cbn in Ec; [|discriminate].
      inversion Ec; subst c; cbn. repeat split; assumption.
    + inversion Ec; subst c; cbn. repeat split; assumption.
  - rewrite Et in Ec. cbn in Ec. destruct avg as [avg|]; cbn in Ec.
    + destruct (Main.as_float avg) as [g|] eqn:Eg; cbn in Ec; [|discriminate].
      inversion Ec; subst c; cbn. repeat split; assumption.
    + inversion Ec; subst c; cbn. repeat split; assumption.
Qed.

Lemma clients_of_rows_spec_witness :
  In (Client.mk "0001" EmptyString EmptyString "client" EmptyString 30000 30000 0)
     (Main.clients_of_rows [example_row "0000" (text_cell "n/a");
                            example_row "0001" (number_cell "30000" 30000)]) /\
  exists row,
    In row [example_row "0000" (text_cell "n/a");
            example_row "0001" (number_cell "30000" 30000)] /\
    Main.str_item (Main.NUMERO_CONTA row) = Some "0001".
Proof.
  assert (Hin : In (Client.mk "0001" EmptyString EmptyString "client" EmptyString
                      30000 30000 0)
                   (Main.clients_of_rows [example_row "0000" (text_cell "n/a");
                                          example_row "0001" (number_cell "30000" 30000)]))
    by (left; reflexivity).
  split; [exact Hin|].
  destruct (clients_of_rows_spec _ _ Hin) as (row & Hrow & Haccount & _).
  exists row. split; [exact Hrow | exact Haccount].
Defined.

Section Endpoint.

Import Main.

Variable provider : MarketDataService.Provider.
Variable excel_time response_time : ExcelGenerator.datetime.
Variable trade : TradeInput.t.
Variable rows : list Row.
Variable services : Services.

Abbreviation validated :=
  (TradeValidator.validate_trade provider trade (market_service services)).

Abbreviation answered :=
  (gerar_basket provider excel_time response_time trade rows services).

(** A trade is accepted only at an entry price that is not zero. *)
Lemma accepted_price_nonzero (validation : TechnicalValidation.t) :
  fst validated = Ok validation ->
  TechnicalValidation.valid validation = true ->
  ~ TradeInput.entry_price trade == 0.
Proof.
  intros Hrun Hvalid Ez.
  destruct (fst (MarketDataService.get_ticker_data provider (TradeInput.ticker trade)
                   (market_service services))) as [data|] eqn:Hfetch.
  - rewrite (validate_trade_zero_entry provider trade _ data Hfetch Ez) in Hrun.
    discriminate.
  - rewrite (validate_trade_absent provider trade _ Hfetch) in Hrun.
    inversion Hrun; subst validation. discriminate.
Qed.

Lemma orders_of_rows_shape (validation : TechnicalValidation.t) :
  ~ TradeInput.entry_price trade == 0 ->
  Forall (order_of_trade trade) (orders_of_rows trade validation rows).
Proof.
  intros Hp. unfold orders_of_rows.
  induction (List.filter eligibleb (clients_of_rows rows)) as [|c cs IH];
    cbn [flat_map]; [constructor|].
  apply Forall_app. split; [now apply orders_of_client_shape | exact IH].
Qed.

Lemma orders_of_rows_length (validation : TechnicalValidation.t) :
  (length (orders_of_rows trade validation rows) <= length (clients_of_rows rows))%nat.
Proof.
  unfold orders_of_rows.
  induction (clients_of_rows rows) as [|c cs IH]; cbn [List.filter flat_map length]; [lia|].
  destruct (eligibleb c); cbn [flat_map]; [|lia].
  rewrite length_app. unfold orders_of_client at 1.
  destruct (_ =? 0)%Z; cbn [length]; lia.
Qed.

Lemma orders_of_rows_positive (validation : TechnicalValidation.t) :
  0 < TradeInput.entry_price trade ->
  (0 <= TechnicalValidation.max_quantity validation)%Z ->
  Forall (fun order => (0 < ClientOrder.quantity order)%Z)
         (orders_of_rows trade validation rows).
Proof.
  intros Hp Hmax. unfold orders_of_rows.
  assert (Hel : Forall eligible (List.filter eligibleb (clients_of_rows rows))).
  { apply List.Forall_forall. intros c Hc. apply List.filter_In in Hc.
    now apply eligibleb_spec. }
  induction Hel as [|c cs Hc _ IH]; cbn [flat_map]; [constructor|].
  apply Forall_app. split; [|exact IH].
  unfold orders_of_client.
  assert (Hrun : calculate_share_quantity c (TradeInput.entry_price trade)
                   (TechnicalValidation.max_quantity validation)
                 = Ok (allocation c (TradeInput.entry_price trade)
                         (TechnicalValidation.max_quantity validation))).
  { apply calculate_share_quantity_allocation. intros H0. lra. }
  destruct (allocation c _ _) as [quantity invested]. cbn [fst snd].
  destruct (quantity =? 0)%Z eqn:Ez; [constructor|].
  constructor; [|constructor]. unfold order_for, ClientOrder.make. cbn [ClientOrder.quantity].
  apply Z.eqb_neq in Ez.
  pose proof (eligible_quantity_nonneg c _ _ quantity invested Hc Hp Hmax Hrun).
  lia.
Qed.

(** The answer to an accepted trade. *)
Lemma gerar_basket_accepted (validation : TechnicalValidation.t) :
  fst validated = Ok validation ->
  TechnicalValidation.valid validation = true ->
  let basket := orders_of_rows trade validation rows in
  exists s,
    BasketCalculator.calculate_summary basket = Ok s /\
    total_invested s
      == inject_Z (Zsum (map ClientOrder.quantity basket)) * TradeInput.entry_price trade /\
    answered
    = (Ok {| trade_valid := true;
             technical_validation := validation;
             orders := basket;
             total_clients := length (clients_of_rows rows);
             total_orders := length basket;
             total_invested_amount := total_invested s;
             summary := Some s;
             timestamp := response_time |},
       {| market_service := snd validated;
          excel_generator :=
            match basket with
            | [] => excel_generator services
            | _ => snd (ExcelGenerator.generate_excel excel_time basket
                          (TradeInput.ticker trade) (excel_generator services))
            end |}).
Proof.
  intros Hrun Hvalid basket.
  pose proof (accepted_price_nonzero validation Hrun Hvalid) as Hp.
  pose proof (orders_of_rows_shape validation Hp) as Hshape. fold basket in Hshape.
  pose proof (kept_amounts_of_basket trade basket Hp Hshape) as Hkept.
  unfold gerar_basket.
  destruct validated as [r market]. cbn [fst snd] in *. subst r.
  rewrite Hvalid. cbn [negb].
  unfold filter_eligible_clients. rewrite filter_eligible_clients_fold. cbn [app].
  unfold generate_basket. rewrite generate_basket_loop_eq by assumption. cbn [app].
  fold (orders_of_rows trade validation rows). fold basket.
  cbn [market_service excel_generator].
  destruct basket as [|o basket'] eqn:Eb.
  - eexists. split; [reflexivity|]. split; [cbn; reflexivity|]. reflexivity.
  - assert (Hne : o :: basket' <> []) by discriminate.
    assert (Hk : kept_amounts (o :: basket') <> []) by (rewrite Hkept; discriminate).
    destruct (calculate_summary_ok _ Hne Hk) as (mn & mx & _ & _ & Heq).
    rewrite generate_excel_nonempty by assumption. cbv zeta.
    rewrite Heq. eexists. split; [reflexivity|]. split; [|reflexivity].
    cbn [total_invested].
    rewrite py_sum_Qsum, Hkept.
    rewrite <- (map_map ClientOrder.quantity
                  (fun z => inject_Z z * TradeInput.entry_price trade)).
    apply Qsum_scaled.
Qed.

(** The answer to a rejected trade. *)
Lemma gerar_basket_rejected (validation : TechnicalValidation.t) :
  fst validated = Ok validation ->
  TechnicalValidation.valid validation = false ->
  answered
  = (Ok {| trade_valid := false;
           technical_validation := validation;
           orders := [];
           total_clients := 0;
           total_orders := 0;
           total_invested_amount := 0;
           summary := None;
           timestamp := response_time |},
     {| market_service := snd validated;
        excel_generator := excel_generator services |}).
Proof.
  intros Hrun Hvalid. unfold gerar_basket.
  destruct validated as [r market]. cbn [fst snd] in *. subst r.
  now rewrite Hvalid.
Qed.

Lemma gerar_basket_failed (e : exn) :
  fst validated = Raise e ->
  answered
  = (Raise e, {| market_service := snd validated;
                 excel_generator := excel_generator services |}).
Proof.
  intros Hrun. unfold gerar_basket.
  destruct validated as [r market]. cbn [fst snd] in *. now subst r.
Qed.

End Endpoint.

(** X25.  The endpoint writes a spreadsheet exactly when it answers with a
    basket that is not empty: the files are then those that
    [generate_excel] leaves for the orders of the answer, and they are
    untouched on an error, on a rejected trade and on an empty basket. *)
Theorem gerar_basket_files
    (provider : MarketDataService.Provider)
    (excel_time response_time : ExcelGenerator.datetime)
    (trade : TradeInput.t) (rows : list Main.Row) (services : Main.Services) :
  let answer := Main.gerar_basket provider excel_time response_time trade rows services in
  Main.excel_generator (snd answer)
  = match fst answer with
    | Ok output =>
        match Main.orders output with
        | [] => Main.excel_generator services
        | _ => snd (ExcelGenerator.generate_excel excel_time (Main.orders output)
                      (TradeInput.ticker trade) (Main.excel_generator services))
        end
    | Raise _ => Main.excel_generator services
    end.
Proof.
  intros answer. subst answer.
  destruct (fst (TradeValidator.validate_trade provider trade
                   (Main.market_service services))) as [validation|e'] eqn:Hrun.
  - destruct (TechnicalValidation.valid validation) eqn:Hvalid.
    + destruct (gerar_basket_accepted provider excel_time response_time trade rows
                  services validation Hrun Hvalid) as (s & _ & _ & ->).
      reflexivity.
    + rewrite (gerar_basket_rejected provider excel_time response_time trade rows
                 services validation Hrun Hvalid).
      reflexivity.
  - rewrite (gerar_basket_failed provider excel_time response_time trade rows
               services e' Hrun).
    reflexivity.
Qed.


(** X26.  What an answer of the endpoint holds.  Whenever [gerar_basket]
    answers, the answer carries the result of [validate_trade] and its
    verdict; its order count is the length of its basket, at most the number
    of clients, itself at most the number of rows; every order is for the
    ticker of the trade, of price type [l], at the entry price, with a
    quantity that is not zero, and that is positive when the entry price is
    positive and the maximum quantity not negative; a rejected trade is
    answered with an empty basket, no client counted and no summary, an
    accepted one with a summary; and the time stamp is that of the
    response. *)
Theorem gerar_basket_spec
    (provider : MarketDataService.Provider)
    (excel_time response_time : ExcelGenerator.datetime)
    (trade : TradeInput.t) (rows : list Main.Row) (services : Main.Services)
    (output : Main.BasketOutput) :
  fst (Main.gerar_basket provider excel_time response_time trade rows services)
    = Ok output ->
  fst (TradeValidator.validate_trade provider trade (Main.market_service services))
    = Ok (Main.technical_validation output) /\
  Main.trade_valid output = TechnicalValidation.valid (Main.technical_validation output) /\
  Main.total_orders output = length (Main.orders output) /\
  (Main.total_orders output <= Main.total_clients output <= length rows)%nat /\
  Forall (fun order =>
            ClientOrder.ticker order = TradeInput.ticker trade /\
            ClientOrder.price_type order = "l" /\
            ClientOrder.limit_price order = TradeInput.entry_price trade /\
            ClientOrder.quantity order <> 0%Z)
         (Main.orders output) /\
  (0 < TradeInput.entry_price trade ->
   (0 <= TechnicalValidation.max_quantity (Main.technical_validation output))%Z ->
   Forall (fun order => (0 < ClientOrder.quantity order)%Z) (Main.orders output)) /\
  (Main.trade_valid output = false ->
   Main.orders output = [] /\ Main.total_clients output = 0%nat /\
   Main.summary output = None) /\
  (Main.trade_valid output = true -> Main.summary output <> None) /\
  Main.timestamp output = response_time.
Proof.
  intros Hout.
  destruct (fst (TradeValidator.validate_trade provider trade
                   (Main.market_service services))) as [validation|e'] eqn:Hrun.
  - destruct (TechnicalValidation.valid validation) eqn:Hvalid.
    + pose proof (accepted_price_nonzero provider trade services validation Hrun Hvalid)
        as Hp.
      destruct (gerar_basket_accepted provider excel_time response_time trade rows
                  services validation Hrun Hvalid) as (s & _ & _ & Heq).
      rewrite Heq in Hout. cbn [fst] in Hout. inversion Hout; subst output. clear Hout.
      cbn [Main.technical_validation Main.trade_valid Main.total_orders Main.orders
           Main.total_clients Main.summary Main.timestamp].
      split; [reflexivity|]. split; [now rewrite Hvalid|]. split; [reflexivity|].
      split; [split; [apply orders_of_rows_length | apply clients_of_rows_length]|].
      split; [|split; [|split; [discriminate|split; [discriminate|reflexivity]]]].
      * pose proof (orders_of_rows_shape trade rows validation Hp) as Hshape.
        apply List.Forall_forall. intros order Hin.
        destruct (proj1 (List.Forall_forall _ _) Hshape order Hin)
          as (H1 & H2 & H3 & _ & _ & _ & _ & _ & H9 & _).
        repeat split; assumption.
      * intros He Hmax. now apply orders_of_rows_positive.
    + rewrite (gerar_basket_rejected provider excel_time response_time trade rows
                 services validation Hrun Hvalid) in Hout.
      cbn [fst] in Hout. inversion Hout; subst output. clear Hout.
      cbn [Main.technical_validation Main.trade_valid Main.total_orders Main.orders
           Main.total_clients Main.summary Main.timestamp].
      split; [reflexivity|]. split; [now rewrite Hvalid|]. split; [reflexivity|].
      split; [cbn; lia|]. split; [constructor|]. split; [constructor|].
      split; [now repeat split|]. split; [discriminate | reflexivity].
  - rewrite (gerar_basket_failed provider excel_time response_time trade rows
               services e' Hrun) in Hout.
    discriminate Hout.
Qed.

Lemma gerar_basket_spec_witness :
  exists output,
    fst (Main.gerar_basket (flat_history 22 25 2000000) example_now example_now
           example_trade [example_row "0000" (text_cell "n/a");
                          example_row "0001" (number_cell "30000" 30000)]
           example_services) = Ok output /\
    Main.trade_valid output = true /\
    Main.total_orders output = 1%nat /\
    (Main.total_orders output <= Main.total_clients output <= 2)%nat /\
    Forall (fun order => (0 < ClientOrder.quantity order)%Z) (Main.orders output).
Proof.
  eexists. split; [vm_compute; reflexivity|].
  match goal with
  | |- context [Main.trade_valid ?o] =>
      destruct (gerar_basket_spec (flat_history 22 25 2000000) example_now example_now
                  example_trade [example_row "0000" (text_cell "n/a");
                                 example_row "0001" (number_cell "30000" 30000)]
                  example_services o)
        as (_ & _ & Hcount & Hle & _ & Hpos & _)
  end.
  - vm_compute. reflexivity.
  - split; [reflexivity|]. split; [reflexivity|]. split; [exact Hle|].
    apply Hpos; [reflexivity | discriminate].
Defined.

(** * Properties on doubles *)

(** ** Comparisons, signs and conversions of doubles *)

Section DoubleFacts.

Import Doubles.

Lemma Prim2SF_zero : Prim2SF 0%float = S754_zero false.
Proof. reflexivity. Qed.

Lemma SFcompare_refl (x : spec_float) : x <> S754_nan -> SFcompare x x = Some Eq.
Proof.
  destruct x as [s|s| |s m e]; intros Hx; try congruence; cbn.
  - reflexivity.
  - now destruct s.
  - rewrite Z.compare_refl. change (Pos.compare_cont Eq m m) with (Pos.compare m m).
    rewrite Pos.compare_refl. now destruct s.
Qed.

Lemma SFcompare_antisym (x y : spec_float) :
  SFcompare y x = option_map CompOpp (SFcompare x y).
Proof.
  destruct x as [sx|sx| |sx mx ex], y as [sy|sy| |sy my ey]; cbn;
    try reflexivity; try (now destruct sx); try (now destruct sy);
    try (now destruct sx, sy).
  change (Pos.compare_cont Eq my mx) with (Pos.compare my mx).
  change (Pos.compare_cont Eq mx my) with (Pos.compare mx my).
  rewrite (Z.compare_antisym ex ey), (Pos.compare_antisym mx my).
  destruct sx, sy; try reflexivity;
    destruct (Z.compare ex ey); cbn; try reflexivity;
    destruct (Pos.compare mx my); reflexivity.
Qed.

(** A double is NaN exactly when it differs from itself. *)
Lemma is_nan_spec (x : float) : PrimFloat.is_nan x = true <-> Prim2SF x = S754_nan.
Proof.
  unfold PrimFloat.is_nan. rewrite FloatAxioms.eqb_spec. unfold SFeqb.
  destruct (Prim2SF x) as [s|s| |s m e] eqn:E.
  - cbn. split; discriminate.
  - rewrite SFcompare_refl by discriminate. split; discriminate.
  - cbn. split; reflexivity.
  - rewrite SFcompare_refl by discriminate. split; discriminate.
Qed.

Lemma is_number_spec (x : float) : is_number x = true <-> Prim2SF x <> S754_nan.
Proof.
  unfold is_number. rewrite negb_true_iff, <- not_true_iff_false, is_nan_spec.
  reflexivity.
Qed.

(** On numbers, [a < b] is false exactly when [b <= a]. *)
Lemma ltb_false_leb (a b : float) :
  is_number a = true -> is_number b = true ->
  (PrimFloat.ltb a b = false <-> PrimFloat.leb b a = true).
Proof.
  rewrite !is_number_spec, FloatAxioms.ltb_spec, FloatAxioms.leb_spec. unfold SFltb, SFleb.
  rewrite (SFcompare_antisym (Prim2SF a) (Prim2SF b)). intros Ha Hb.
  destruct (SFcompare (Prim2SF a) (Prim2SF b)) as [[| |]|] eqn:E; cbn;
    try (split; congruence).
  exfalso. destruct (Prim2SF a), (Prim2SF b); cbn in E; congruence.
Qed.

(** What is above zero is positive. *)
Lemma ltb_zero_positive (p : float) :
  PrimFloat.ltb 0%float p = true -> above_zero (Prim2SF p).
Proof.
  rewrite FloatAxioms.ltb_spec, Prim2SF_zero. unfold SFltb.
  destruct (Prim2SF p) as [s|[|]| |[|] m e]; cbn; try discriminate; trivial.
Qed.

Lemma positive_nonzero (p : float) :
  above_zero (Prim2SF p) -> PrimFloat.eqb p 0%float = false.
Proof.
  rewrite FloatAxioms.eqb_spec, Prim2SF_zero. unfold SFeqb.
  destruct (Prim2SF p) as [s|[|]| |[|] m e]; cbn; try contradiction; reflexivity.
Qed.

Lemma positive_signed_nonneg (x : spec_float) : above_zero x -> signed_nonneg x.
Proof. destruct x as [s|[|]| |[|] m e]; cbn; try contradiction; trivial. Qed.

(** What is not below a positive double is NaN or positive. *)
Lemma not_ltb_positive (a b : float) :
  PrimFloat.ltb a b = false -> above_zero (Prim2SF b) ->
  Prim2SF a = S754_nan \/ above_zero (Prim2SF a).
Proof.
  rewrite FloatAxioms.ltb_spec. unfold SFltb.
  destruct (Prim2SF a) as [sa|[|]| |[|] ma ea], (Prim2SF b) as [sb|[|]| |[|] mb eb];
    cbn; try contradiction; try discriminate; intros _ _; auto.
Qed.

(** What is not below a double whose sign bit is clear has its sign bit
    clear, or is a zero. *)
Lemma not_ltb_signed_nonneg (a b : float) :
  PrimFloat.ltb a b = false -> Prim2SF b <> S754_nan -> signed_nonneg (Prim2SF b) ->
  signed_nonneg (Prim2SF a).
Proof.
  rewrite FloatAxioms.ltb_spec. unfold SFltb.
  destruct (Prim2SF a) as [sa|[|]| |[|] ma ea], (Prim2SF b) as [sb|sb| |sb mb eb];
    cbn; try congruence; try (intros _ _ _; exact I); try reflexivity;
    intros H _ Hb; subst; try discriminate; try reflexivity.
Qed.

(** Rounding keeps the sign. *)
Lemma binary_round_aux_sign (s : bool) (m e : Z) (l : location) :
  match binary_round_aux prec emax s m e l with
  | S754_nan | S754_zero _ => True
  | S754_infinity s' | S754_finite s' _ _ => s' = s
  end.
Proof.
  unfold binary_round_aux.
  destruct (shr_fexp prec emax m e l) as [mrs' e'].
  destruct (shr_fexp prec emax _ e' loc_Exact) as [mrs'' e''].
  destruct (shr_m mrs''); [exact I| |exact I].
  destruct (Z.leb e'' (emax - prec)); reflexivity.
Qed.

Lemma SFmul_signed_nonneg (x y : spec_float) :
  signed_nonneg x -> above_zero y -> signed_nonneg (SF64mul x y).
Proof.
  destruct x as [sx|sx| |sx mx ex], y as [sy|[|]| |[|] my ey]; cbn;
    try contradiction; trivial; intros Hx _; subst; try reflexivity.
  pose proof (binary_round_aux_sign false (Z.pos (mx * my)) (ex + ey) loc_Exact) as H.
  cbn in H. destruct (binary_round_aux _ _ _ _ _ _); cbn; trivial.
Qed.

Lemma SFdiv_signed_nonneg (x y : spec_float) :
  signed_nonneg x -> above_zero y -> signed_nonneg (SF64div x y).
Proof.
  destruct x as [sx|sx| |sx mx ex], y as [sy|[|]| |[|] my ey]; cbn;
    try contradiction; trivial; intros Hx _; subst; try reflexivity.
  destruct (SFdiv_core_binary prec emax (Z.pos mx) ex (Z.pos my) ey) as [[mz ez] lz].
  pose proof (binary_round_aux_sign false mz ez lz) as H.
  cbn in H. destruct (binary_round_aux _ _ _ _ _ _); cbn; trivial.
Qed.

Lemma SFdiv_nan_l (x y : spec_float) : SF64div x y <> S754_nan -> x <> S754_nan.
Proof. intros H E. subst. apply H. reflexivity. Qed.

(** [int] of a double that is not negative is not negative, and [int]
    does not return on NaN. *)
Lemma py_int_signed_nonneg (x : float) (z : Z) :
  Binary64.py_int x = Ok z -> signed_nonneg (Prim2SF x) -> (0 <= z)%Z.
Proof.
  unfold Binary64.py_int.
  destruct (Prim2SF x) as [s|s| |s m e]; cbn; intros H Hs; inversion H; subst; [lia|].
  destruct (0 <=? e)%Z.
  - apply Z.shiftl_nonneg. lia.
  - apply Z.shiftr_nonneg. lia.
Qed.

Lemma py_int_number (x : float) (z : Z) :
  Binary64.py_int x = Ok z -> Prim2SF x <> S754_nan.
Proof. unfold Binary64.py_int. intros H E. rewrite E in H. discriminate. Qed.


Lemma py_truediv_inv (a b q : float) :
  Binary64.py_truediv a b = Ok q ->
  PrimFloat.eqb b 0%float = false /\ q = PrimFloat.div a b.
Proof.
  unfold Binary64.py_truediv. destruct (PrimFloat.eqb b 0%float); [discriminate|].
  intros H. inversion H. now split.
Qed.

Lemma py_truediv_ok64 (a b : float) :
  PrimFloat.eqb b 0%float = false ->
  Binary64.py_truediv a b = Ok (PrimFloat.div a b).
Proof. unfold Binary64.py_truediv. now intros ->. Qed.

End DoubleFacts.

(** ** Rounding never yields NaN *)

Section Rounding.

Import Doubles.








End Rounding.

(** ** Eligibility filter: [filter_eligible_clients] on doubles *)

Section Filter64.

Import Binary64.BasketCalculator Doubles.







End Filter64.

(** C3.  The code keeps a client whose capital is NaN.  Both tests of the
    loop are of the form [x < y], which is false on NaN, so the client built
    from a row with a blank net total passes both and is returned as
    eligible, with the passing diagnostic, although its net total is not at
    least 20000; and a client with a net total of 30000 and an unknown net
    available capital is returned as eligible although that capital is not
    at least 15000. *)
Theorem filter_eligible_clients_keeps_nan :
  let blank := Doubles.client_with "0001" PrimFloat.nan PrimFloat.nan in
  let unknown := Doubles.client_with "0002" 30000%float PrimFloat.nan in
  Binary64.BasketCalculator.filter_eligible_clients [blank; unknown]
  = ([blank; unknown],
     [Binary64.BasketCalculator.Eligible "client" "0001" PrimFloat.nan;
      Binary64.BasketCalculator.Eligible "client" "0002" 15000%float]) /\
  PrimFloat.leb 20000%float (Binary64.Client.net_total blank) = false /\
  PrimFloat.leb (PrimFloat.mul 30000%float 0.5%float)
    (Binary64.Client.net_available unknown) = false.
Proof. repeat split. Qed.

(** ** The allocation on doubles: [calculate_share_quantity] *)

Section Allocation64.

Import Binary64.BasketCalculator Doubles.





(** Half of a net total that passes the first test is NaN or not
    negative. *)
Lemma available_capital_signed_nonneg (net_total : float) :
  PrimFloat.ltb net_total MIN_NET_TOTAL = false ->
  signed_nonneg (Prim2SF (PrimFloat.mul net_total CAPITAL_PERCENT_PER_OPERATION)).
Proof.
  intros Ht. rewrite mul_spec.
  apply SFmul_signed_nonneg; [|exact I].
  destruct (not_ltb_positive _ _ Ht I) as [-> | H]; [exact I|].
  now apply positive_signed_nonneg.
Qed.

(** The quantity of a client that passes the two tests, at a positive price
    and under a maximum quantity that is not negative, is not negative. *)
Lemma calculate_share_quantity_nonneg
    (client : Binary64.Client.t) (entry_price : float) (max_quantity quantity : Z)
    (invested_amount : float) :
  PrimFloat.ltb 0%float entry_price = true ->
  eligibleb client = true ->
  (0 <= max_quantity)%Z ->
  calculate_share_quantity client entry_price max_quantity = Ok (quantity, invested_amount) ->
  (0 <= quantity)%Z.
Proof.
  intros Hp He Hmax Hrun.
  unfold eligibleb in He. apply andb_true_iff in He as [Ht Ha].
  apply negb_true_iff in Ht, Ha.
  pose proof (ltb_zero_positive _ Hp) as Hpos.
  pose proof (available_capital_signed_nonneg _ Ht) as Hhalf.
  unfold calculate_share_quantity in Hrun.
  set (half := PrimFloat.mul (Binary64.Client.net_total client)
                 CAPITAL_PERCENT_PER_OPERATION) in *.
  destruct (Binary64.py_truediv half entry_price) as [q0|e0] eqn:Ediv;
    cbn [mbind result_bind] in Hrun; [|discriminate].
  apply py_truediv_inv in Ediv as [_ ->].
  destruct (Binary64.py_int (PrimFloat.div half entry_price)) as [ideal|e1] eqn:Eint;
    cbn [mbind result_bind] in Hrun; [|discriminate].
  assert (Hideal : (0 <= ideal)%Z).
  { apply (py_int_signed_nonneg _ _ Eint). rewrite div_spec.
    now apply SFdiv_signed_nonneg. }
  destruct (Binary64.py_mul_int (Z.min ideal max_quantity) entry_price) as [inv0|e2];
    cbn [mbind result_bind] in Hrun; [|discriminate].
  destruct (PrimFloat.ltb (Binary64.Client.net_available client) inv0).
  - destruct (Binary64.py_truediv (Binary64.Client.net_available client) entry_price)
      as [q1|e3] eqn:Ediv'; cbn [mbind result_bind] in Hrun; [|discriminate].
    apply py_truediv_inv in Ediv' as [_ ->].
    destruct (Binary64.py_int _) as [q'|e4] eqn:Eint' in Hrun;
      cbn [mbind result_bind] in Hrun; [|discriminate].
    destruct (Binary64.py_mul_int q' entry_price) as [inv1|e5];
      cbn [mbind result_bind] in Hrun; [|discriminate].
    inversion Hrun; subst.
    apply (py_int_signed_nonneg _ _ Eint'). rewrite div_spec.
    apply SFdiv_signed_nonneg; [|assumption].
    apply (not_ltb_signed_nonneg _ half Ha); [|assumption].
    apply py_int_number in Eint. rewrite div_spec in Eint.
    now apply SFdiv_nan_l in Eint.
  - inversion Hrun; subst. lia.
Qed.

(** The invested amount returned is the product, rounded, of the quantity
    returned, as a double, and the price. *)
Lemma calculate_share_quantity_amount64
    (client : Binary64.Client.t) (entry_price : float) (max_quantity quantity : Z)
    (invested_amount : float) :
  calculate_share_quantity client entry_price max_quantity = Ok (quantity, invested_amount) ->
  Binary64.py_mul_int quantity entry_price = Ok invested_amount.
Proof.
  unfold calculate_share_quantity. intros Hrun.
  destruct (Binary64.py_truediv
              (PrimFloat.mul (Binary64.Client.net_total client)
                 CAPITAL_PERCENT_PER_OPERATION) entry_price) as [q0|e0];
    cbn [mbind result_bind] in Hrun; [|discriminate Hrun].
  destruct (Binary64.py_int q0) as [ideal|e1];
    cbn [mbind result_bind] in Hrun; [|discriminate Hrun].
  destruct (Binary64.py_mul_int (Z.min ideal max_quantity) entry_price) as [inv0|e2] eqn:E0;
    cbn [mbind result_bind] in Hrun; [|discriminate Hrun].
  destruct (PrimFloat.ltb (Binary64.Client.net_available client) inv0).
  - destruct (Binary64.py_truediv (Binary64.Client.net_available client) entry_price)
      as [q1|e3]; cbn [mbind result_bind] in Hrun; [|discriminate Hrun].
    destruct (Binary64.py_int q1) as [q'|e4];
      cbn [mbind result_bind] in Hrun; [|discriminate Hrun].
    destruct (Binary64.py_mul_int q' entry_price) as [inv1|e5] eqn:E1;
      cbn [mbind result_bind] in Hrun; [|discriminate Hrun].
    inversion Hrun; subst. exact E1.
  - inversion Hrun; subst. exact E0.
Qed.



End Allocation64.

(** ** The basket on doubles: [generate_basket] *)

Section Basket64.

Import Binary64.BasketCalculator Doubles.

Variable trade : Binary64.TradeInput.t.
Variable validation : Binary64.TechnicalValidation.t.

(** The loop of [generate_basket], client by client: the exception of the
    first allocation that raises, or else what the clients add. *)
Lemma generate_basket_loop_eq64 (clients : list Binary64.Client.t) :
  forall orders warnings,
    generate_basket_loop trade validation clients orders warnings
    = match allocation_error trade validation clients with
      | Some e => Raise e
      | None =>
          Ok (orders ++ flat_map (orders_of_client trade validation) clients,
              warnings ++ flat_map (warnings_of_client trade validation) clients)
      end.
Proof.
  induction clients as [|client clients IH]; intros orders warnings.
  - cbn. now rewrite !app_nil_r.
  - cbn [generate_basket_loop allocation_error flat_map].
    unfold orders_of_client at 1, warnings_of_client at 1.
    destruct (calculate_share_quantity client _ _) as [[quantity invested]|e];
      cbn [mbind result_bind]; [|reflexivity].
    destruct (quantity =? 0)%Z; rewrite IH;
      destruct (allocation_error trade validation clients);
      try reflexivity; cbn [app]; now rewrite <- ?app_assoc.
Qed.

Lemma generate_basket_eq64 (clients : list Binary64.Client.t) :
  generate_basket trade clients validation
  = match allocation_error trade validation clients with
    | Some e => Raise e
    | None =>
        Ok (flat_map (orders_of_client trade validation) clients,
            flat_map (warnings_of_client trade validation) clients)
    end.
Proof. unfold generate_basket. now rewrite generate_basket_loop_eq64. Qed.

Lemma allocation_error_none (clients : list Binary64.Client.t) :
  allocation_error trade validation clients = None <->
  forall client, In client clients ->
    exists alloc,
      calculate_share_quantity client (Binary64.TradeInput.entry_price trade)
        (Binary64.TechnicalValidation.max_quantity validation) = Ok alloc.
Proof.
  induction clients as [|client clients IH]; cbn [allocation_error].
  - split; [intros _ c []|reflexivity].
  - destruct (calculate_share_quantity client _ _) as [alloc|e] eqn:E.
    + rewrite IH. split.
      * intros H c [<-|Hc]; [now exists alloc | now apply H].
      * intros H c Hc. apply H. now right.
    + split; [discriminate|]. intros H.
      destruct (H client (or_introl eq_refl)) as [alloc Halloc]. congruence.
Qed.

Lemma orders_of_client_shape64 (client : Binary64.Client.t) :
  Forall (order_of_trade trade) (orders_of_client trade validation client).
Proof.
  unfold orders_of_client.
  destruct (calculate_share_quantity client _ _) as [[quantity invested]|e] eqn:E;
    [|constructor].
  destruct (quantity =? 0)%Z eqn:Ez; constructor; [|constructor].
  apply Z.eqb_neq in Ez. apply calculate_share_quantity_amount64 in E.
  unfold order_of_trade, order_for, Binary64.ClientOrder.make, optional_fields. cbn.
  repeat (split; [reflexivity|]). split; [assumption|].
  exists invested. now split.
Qed.

Lemma orders_of_client_account64 (client : Binary64.Client.t) :
  sublist (map Binary64.ClientOrder.account_number (orders_of_client trade validation client))
          [Binary64.Client.account_number client].
Proof.
  unfold orders_of_client.
  destruct (calculate_share_quantity client _ _) as [[quantity invested]|e];
    [|apply sublist_nil_l].
  destruct (quantity =? 0)%Z; cbn; [apply sublist_nil_l | reflexivity].
Qed.

Lemma warnings_of_client_account64 (client : Binary64.Client.t) :
  sublist (map account_of_warning (warnings_of_client trade validation client))
          [Binary64.Client.account_number client].
Proof.
  unfold warnings_of_client.
  destruct (calculate_share_quantity client _ _) as [[quantity invested]|e];
    [|apply sublist_nil_l].
  destruct (quantity =? 0)%Z; cbn; [reflexivity | apply sublist_nil_l].
Qed.

Lemma orders_warnings_length (client : Binary64.Client.t) alloc :
  calculate_share_quantity client (Binary64.TradeInput.entry_price trade)
    (Binary64.TechnicalValidation.max_quantity validation) = Ok alloc ->
  (length (orders_of_client trade validation client)
   + length (warnings_of_client trade validation client) = 1)%nat.
Proof.
  intros E. unfold orders_of_client, warnings_of_client. rewrite E.
  destruct alloc as [quantity invested]. now destruct (quantity =? 0)%Z.
Qed.

Lemma orders_of_client_positive (client : Binary64.Client.t) :
  PrimFloat.ltb 0%float (Binary64.TradeInput.entry_price trade) = true ->
  eligibleb client = true ->
  (0 <= Binary64.TechnicalValidation.max_quantity validation)%Z ->
  Forall (fun order => (0 < Binary64.ClientOrder.quantity order)%Z)
         (orders_of_client trade validation client).
Proof.
  intros Hp He Hmax. unfold orders_of_client.
  destruct (calculate_share_quantity client _ _) as [[quantity invested]|e] eqn:E;
    [|constructor].
  destruct (quantity =? 0)%Z eqn:Ez; constructor; [|constructor].
  apply Z.eqb_neq in Ez.
  pose proof (calculate_share_quantity_nonneg _ _ _ _ _ Hp He Hmax E).
  unfold order_for, Binary64.ClientOrder.make. cbn. lia.
Qed.

End Basket64.

(** C4.  For every trade with a positive entry price, every list of clients
    that pass the two tests of [filter_eligible_clients] and every maximum
    quantity that is not negative, as [validate_trade] computes it, every
    order in the basket that [generate_basket] returns has a positive
    quantity.  A client whose allocation is zero is skipped with a logged
    warning and does not stop the loop: every client yields one order or one
    warning, and the basket is returned whenever every allocation returns. *)
Theorem generate_basket_quantities
    (trade : Binary64.TradeInput.t) (clients : list Binary64.Client.t)
    (validation : Binary64.TechnicalValidation.t) :
  PrimFloat.ltb 0%float (Binary64.TradeInput.entry_price trade) = true ->
  Forall (fun client => Doubles.eligibleb client = true) clients ->
  (0 <= Binary64.TechnicalValidation.max_quantity validation)%Z ->
  (forall orders warnings,
     Binary64.BasketCalculator.generate_basket trade clients validation
       = Ok (orders, warnings) ->
     Forall (fun order => (0 < Binary64.ClientOrder.quantity order)%Z) orders /\
     orders = flat_map (Doubles.orders_of_client trade validation) clients /\
     warnings = flat_map (Doubles.warnings_of_client trade validation) clients /\
     (length orders + length warnings = length clients)%nat) /\
  ((forall client, In client clients ->
      exists alloc,
        Binary64.BasketCalculator.calculate_share_quantity client
          (Binary64.TradeInput.entry_price trade)
          (Binary64.TechnicalValidation.max_quantity validation) = Ok alloc) ->
   exists orders warnings,
     Binary64.BasketCalculator.generate_basket trade clients validation
       = Ok (orders, warnings)).
Proof.
  intros Hp Hel Hmax. rewrite generate_basket_eq64. split.
  - intros orders warnings Hrun.
    destruct (Doubles.allocation_error trade validation clients) eqn:Eerr; [discriminate|].
    inversion Hrun; subst. clear Hrun.
    split; [|split; [reflexivity|split; [reflexivity|]]].
    + induction Hel as [|c cs Hc _ IH]; cbn [flat_map]; [constructor|].
      cbn [Doubles.allocation_error] in Eerr.
      destruct (Binary64.BasketCalculator.calculate_share_quantity c _ _) eqn:E in Eerr;
        [|discriminate].
      apply Forall_app. split; [now apply orders_of_client_positive | now apply IH].
    + clear Hel. induction clients as [|c cs IH]; [reflexivity|].
      cbn [Doubles.allocation_error] in Eerr.
      destruct (Binary64.BasketCalculator.calculate_share_quantity c _ _) as [alloc|e] eqn:E;
        [|discriminate].
      cbn [flat_map length]. rewrite !length_app.
      pose proof (orders_warnings_length trade validation c alloc E).
      specialize (IH Eerr). lia.
  - intros Hall. apply allocation_error_none in Hall. rewrite Hall.
    eexists. eexists. reflexivity.
Qed.

Lemma generate_basket_quantities_witness :
  PrimFloat.ltb 0%float 20%float = true /\
  exists orders warnings,
    Binary64.BasketCalculator.generate_basket
      (Binary64.TradeInput.mk "PETR4" 20%float 19%float 21.5%float)
      [Doubles.client_with "0001" 20000%float 10000%float;
       Doubles.client_with "0002" 30000%float 20000%float;
       Doubles.client_with "0003" 20000%float 10000.5%float]
      (Doubles.validation_with 600) = Ok (orders, warnings) /\
    Forall (fun order => (0 < Binary64.ClientOrder.quantity order)%Z) orders /\
    length orders = 3%nat.
Proof.
  assert (Hp : PrimFloat.ltb 0%float 20%float = true) by reflexivity.
  split; [exact Hp|].
  destruct (generate_basket_quantities
              (Binary64.TradeInput.mk "PETR4" 20%float 19%float 21.5%float)
              [Doubles.client_with "0001" 20000%float 10000%float;
               Doubles.client_with "0002" 30000%float 20000%float;
               Doubles.client_with "0003" 20000%float 10000.5%float]
              (Doubles.validation_with 600) Hp)
    as [Hpart _].
  - repeat constructor.
  - discriminate.
  - eexists. eexists. split; [vm_compute; reflexivity|].
    split; [|reflexivity].
    refine (proj1 (Hpart _ _ _)). vm_compute. reflexivity.
Defined.

(** X16.  What [generate_basket] returns on doubles.  Every order of a
    returned basket carries the ticker of the trade, the price type [l], the
    entry price as limit price, the defaults of the validity, strategy and
    direction fields, seven blank optional fields, a quantity that is not
    zero and, as invested amount, the rounded product of that quantity and
    the entry price; the accounts of the orders, and those of the skipped
    clients, follow the order of the clients.  The basket is returned
    exactly when every allocation returns; otherwise the call raises the
    exception of the first client, in list order, whose allocation raises. *)
Theorem generate_basket_orders
    (trade : Binary64.TradeInput.t) (clients : list Binary64.Client.t)
    (validation : Binary64.TechnicalValidation.t) :
  (forall orders warnings,
     Binary64.BasketCalculator.generate_basket trade clients validation
       = Ok (orders, warnings) ->
     Forall (Doubles.order_of_trade trade) orders /\
     sublist (map Binary64.ClientOrder.account_number orders)
             (map Binary64.Client.account_number clients) /\
     sublist (map Doubles.account_of_warning warnings)
             (map Binary64.Client.account_number clients)) /\
  ((exists basket,
      Binary64.BasketCalculator.generate_basket trade clients validation = Ok basket) <->
   (forall client, In client clients ->
      exists alloc,
        Binary64.BasketCalculator.calculate_share_quantity client
          (Binary64.TradeInput.entry_price trade)
          (Binary64.TechnicalValidation.max_quantity validation) = Ok alloc)) /\
  (forall e,
     Binary64.BasketCalculator.generate_basket trade clients validation = Raise e <->
     Doubles.allocation_error trade validation clients = Some e).
Proof.
  rewrite generate_basket_eq64. split; [|split].
  - intros orders warnings Hrun.
    destruct (Doubles.allocation_error trade validation clients); [discriminate|].
    inversion Hrun; subst. clear Hrun. split; [|split].
    + induction clients as [|c cs IH]; cbn [flat_map]; [constructor|].
      apply Forall_app. split; [apply orders_of_client_shape64 | exact IH].
    + induction clients as [|c cs IH]; cbn [flat_map map]; [constructor|].
      rewrite map_app.
      change (Binary64.Client.account_number c :: map Binary64.Client.account_number cs)
        with ([Binary64.Client.account_number c] ++ map Binary64.Client.account_number cs).
      apply sublist_app; [apply orders_of_client_account64 | exact IH].
    + induction clients as [|c cs IH]; cbn [flat_map map]; [constructor|].
      rewrite map_app.
      change (Binary64.Client.account_number c :: map Binary64.Client.account_number cs)
        with ([Binary64.Client.account_number c] ++ map Binary64.Client.account_number cs).
      apply sublist_app; [apply warnings_of_client_account64 | exact IH].
  - rewrite <- allocation_error_none.
    destruct (Doubles.allocation_error trade validation clients).
    + split; [intros [basket H]; discriminate | discriminate].
    + split; [reflexivity | intros _; eexists; reflexivity].
  - intros e. destruct (Doubles.allocation_error trade validation clients).
    + split; intros H; inversion H; reflexivity.
    + split; discriminate.
Qed.



(** ** Rounding in the allocation *)

(** C1.  The code exceeds the net available capital, and rounds the
    quantity up.  For the client with net total 765656.32 and 382828.16
    available, who passes the two tests of the filter, at price 185.12 and
    under a maximum of 1000000 shares: the quotient of half the net total by
    the price rounds to the double 2068, where the quotient of the two
    doubles is below 2068 and its floor is 2067; the product 2068 * 185.12
    rounds to 382828.16000000003, which is above the net available capital,
    so the safety check fires; the check divides again, gets 2068 again, and
    the pair returned is 2068 shares for 382828.16000000003.  The invested
    amount returned exceeds the net available capital, as a double and as
    the exact product of the quantity and the price. *)
Theorem calculate_share_quantity_exceeds_available :
  let client := Doubles.client_with "0001" 765656.32%float 382828.16%float in
  let price := 185.12%float in
  Doubles.eligibleb client = true /\
  Binary64.py_truediv (PrimFloat.mul 765656.32%float 0.5%float) price = Ok 2068%float /\
  Qfloor (Doubles.exact (PrimFloat.mul 765656.32%float 0.5%float) / Doubles.exact price)
    = 2067%Z /\
  Binary64.py_mul_int (Z.min 2068 1000000) price = Ok 382828.16000000003%float /\
  PrimFloat.ltb (Binary64.Client.net_available client) 382828.16000000003%float = true /\
  Binary64.py_int (PrimFloat.div (Binary64.Client.net_available client) price) = Ok 2068%Z /\
  Binary64.BasketCalculator.calculate_share_quantity client price 1000000
    = Ok (2068%Z, 382828.16000000003%float) /\
  Doubles.exact (Binary64.Client.net_available client) < 2068 * Doubles.exact price.
Proof. repeat split. Qed.

(** C10.  The safety check is reached for a client that satisfies the
    eligibility condition.  The client with net total 765656.32 and
    382828.16 available has a net total of at least 20000 and a net
    available capital of at least half of it, and [filter_eligible_clients]
    keeps it; at price 185.12 the quantity before the check is 2068 and the
    amount before the check, the rounded product 2068 * 185.12, compares
    above the net available capital, so the branch of the check is taken. *)
Theorem clamp_reachable :
  let client := Doubles.client_with "0001" 765656.32%float 382828.16%float in
  let price := 185.12%float in
  Doubles.eligible client /\
  fst (Binary64.BasketCalculator.filter_eligible_clients [client]) = [client] /\
  PrimFloat.ltb 0%float price = true /\
  (exists q ideal before,
     Binary64.py_truediv
       (PrimFloat.mul (Binary64.Client.net_total client)
          Binary64.BasketCalculator.CAPITAL_PERCENT_PER_OPERATION) price = Ok q /\
     Binary64.py_int q = Ok ideal /\
     Binary64.py_mul_int (Z.min ideal 5000) price = Ok before /\
     PrimFloat.ltb (Binary64.Client.net_available client) before = true).
Proof.
  split; [split; reflexivity|]. split; [reflexivity|]. split; [reflexivity|].
  exists 2068%float, 2068%Z, 382828.16000000003%float. repeat split.
Qed.

(** ** Trade rules on doubles: [validate_trade] *)

Section Validation64.

Import Binary64.TradeValidator Doubles.

Variable service : Type.
Variable get_ticker_data :
  string -> service -> option Binary64.MarketDataService.Data * service.

Lemma ltb_zero_nonzero (x : float) :
  PrimFloat.ltb 0%float x = true -> PrimFloat.eqb x 0%float = false.
Proof. intros H. now apply positive_nonzero, ltb_zero_positive. Qed.

(** With market data present, [validate_trade] raises on a zero entry
    price, raises what [int] raises on the volume, and returns the result
    built from the three tests otherwise. *)
Lemma validate_trade_present64 (trade : Binary64.TradeInput.t) (self : service)
    (data : Binary64.MarketDataService.Data) :
  fst (get_ticker_data (Binary64.TradeInput.ticker trade) self) = Some data ->
  fst (validate_trade service get_ticker_data trade self)
  = if PrimFloat.eqb (Binary64.TradeInput.entry_price trade) 0%float
    then Raise ZeroDivisionError
    else
      match Binary64.py_int
              (PrimFloat.mul (Binary64.MarketDataService.average_daily_volume data)
                 MAX_VOLUME_PERCENT) with
      | Ok max_quantity => Ok (validation_of trade data max_quantity)
      | Raise e => Raise e
      end.
Proof.
  intros Hfetch. unfold validate_trade.
  destruct (get_ticker_data (Binary64.TradeInput.ticker trade) self) as [md svc].
  cbn in Hfetch. subst md. cbn [fst].
  destruct (PrimFloat.eqb (Binary64.TradeInput.entry_price trade) 0%float) eqn:Ez.
  { assert (H : Binary64.py_truediv
                  (PrimFloat.sub (Binary64.TradeInput.stop_loss trade)
                     (Binary64.TradeInput.entry_price trade))
                  (Binary64.TradeInput.entry_price trade) = Raise ZeroDivisionError)
      by (unfold Binary64.py_truediv; now rewrite Ez).
    rewrite H. now destruct (PrimFloat.ltb _ MIN_LIQUIDITY). }
  rewrite (py_truediv_ok64 _ _ Ez).
  unfold validation_of, stop_loss_percent_of, risk_reward_of.
  set (risk := PrimFloat.abs (PrimFloat.sub (Binary64.TradeInput.entry_price trade)
                                (Binary64.TradeInput.stop_loss trade))).
  set (reward := PrimFloat.abs (PrimFloat.sub (Binary64.TradeInput.target trade)
                                  (Binary64.TradeInput.entry_price trade))).
  assert (Hrr : (if PrimFloat.ltb 0%float risk then Binary64.py_truediv reward risk
                 else Ok 0%float)
                = Ok (if PrimFloat.ltb 0%float risk then PrimFloat.div reward risk
                      else 0%float)).
  { destruct (PrimFloat.ltb 0%float risk) eqn:E; [|reflexivity].
    apply py_truediv_ok64. now apply ltb_zero_nonzero. }
  rewrite Hrr. cbv beta iota zeta delta [mbind result_bind].
  destruct (PrimFloat.ltb (Binary64.MarketDataService.daily_liquidity data) MIN_LIQUIDITY);
    destruct (PrimFloat.ltb MAX_STOP_LOSS _);
    destruct (PrimFloat.ltb _ MIN_RISK_REWARD);
    destruct (Binary64.py_int _); reflexivity.
Qed.

End Validation64.

Section Quantity64.

Import Doubles.

Lemma leb_zero_signed_nonneg (x : float) :
  PrimFloat.leb 0%float x = true -> signed_nonneg (Prim2SF x).
Proof.
  rewrite FloatAxioms.leb_spec, Prim2SF_zero. unfold SFleb.
  destruct (Prim2SF x) as [s|[|]| |[|] m e]; cbn; try discriminate; trivial.
Qed.

(** [int] of a double that is not negative is the floor of its value. *)
Lemma py_int_floor (x : float) (z : Z) :
  Binary64.py_int x = Ok z -> signed_nonneg (Prim2SF x) -> z = Qfloor (exact x).
Proof.
  unfold Binary64.py_int, exact.
  destruct (Prim2SF x) as [s|s| |s m e]; cbn [signed_nonneg];
    intros H Hs; inversion H; subst; [reflexivity|].
  destruct (0 <=? e)%Z eqn:Ee.
  - now rewrite Qfloor_Z.
  - apply Z.leb_gt in Ee. cbn [Qfloor].
    rewrite Z.shiftr_div_pow2 by lia.
    rewrite Z2Pos.id by (apply Z.pow_pos_nonneg; lia). reflexivity.
Qed.

(** The maximum quantity of a volume that is not negative. *)
Lemma max_quantity_of_volume (volume : float) (mq : Z) :
  PrimFloat.leb 0%float volume = true ->
  Binary64.py_int (PrimFloat.mul volume Binary64.TradeValidator.MAX_VOLUME_PERCENT) = Ok mq ->
  (0 <= mq)%Z /\
  mq = Qfloor (exact (PrimFloat.mul volume Binary64.TradeValidator.MAX_VOLUME_PERCENT)).
Proof.
  intros Hv Hint.
  assert (Hs : signed_nonneg
                 (Prim2SF (PrimFloat.mul volume Binary64.TradeValidator.MAX_VOLUME_PERCENT))).
  { rewrite mul_spec. apply SFmul_signed_nonneg; [|exact I].
    now apply leb_zero_signed_nonneg. }
  split; [apply (py_int_signed_nonneg _ _ Hint Hs) | apply (py_int_floor _ _ Hint Hs)].
Qed.

End Quantity64.

(** C2, as the code has it.  For every trade with an entry price that is
    not zero and every present market snapshot whose volume [int] accepts,
    [validate_trade] returns a result whose stop-loss percent is the double
    [|(stop - entry) / entry|], whose risk/reward ratio is the double
    [|target - entry| / |entry - stop|], or 0 when the risk is not above 0,
    each operation rounded to nearest, and whose valid flag holds exactly
    when none of the three rejections fires on these doubles: the liquidity
    is not below 30,000,000, the stop-loss percent not above the double
    0.08, the ratio not below the double 1.33.  When the three values are
    numbers this is: liquidity at least 30,000,000, stop-loss percent at
    most 0.08 and ratio at least 1.33.  The maximum quantity, [int] of the
    rounded product of the volume and 0.01, its floor for a volume that is
    not negative, takes no part in the flag; its line is informational. *)
Theorem validate_trade_rules
    (service : Type)
    (get_ticker_data : string -> service -> option Binary64.MarketDataService.Data * service)
    (trade : Binary64.TradeInput.t) (self : service)
    (data : Binary64.MarketDataService.Data) (mq : Z) :
  fst (get_ticker_data (Binary64.TradeInput.ticker trade) self) = Some data ->
  PrimFloat.eqb (Binary64.TradeInput.entry_price trade) 0%float = false ->
  Binary64.py_int
    (PrimFloat.mul (Binary64.MarketDataService.average_daily_volume data) 0.01%float)
    = Ok mq ->
  let entry := Binary64.TradeInput.entry_price trade in
  let stop := Binary64.TradeInput.stop_loss trade in
  let slp := PrimFloat.abs (PrimFloat.div (PrimFloat.sub stop entry) entry) in
  let risk := PrimFloat.abs (PrimFloat.sub entry stop) in
  let reward := PrimFloat.abs (PrimFloat.sub (Binary64.TradeInput.target trade) entry) in
  let rr := if PrimFloat.ltb 0%float risk then PrimFloat.div reward risk else 0%float in
  let liquidity := Binary64.MarketDataService.daily_liquidity data in
  let volume := Binary64.MarketDataService.average_daily_volume data in
  exists v,
    fst (Binary64.TradeValidator.validate_trade service get_ticker_data trade self) = Ok v /\
    Binary64.TechnicalValidation.daily_liquidity v = liquidity /\
    Binary64.TechnicalValidation.stop_loss_percent v = slp /\
    Binary64.TechnicalValidation.risk_reward_ratio v = rr /\
    Binary64.TechnicalValidation.max_quantity v = mq /\
    (Binary64.TechnicalValidation.valid v = true <->
       PrimFloat.ltb liquidity 30000000%float = false /\
       PrimFloat.ltb 0.08%float slp = false /\
       PrimFloat.ltb rr 1.33%float = false) /\
    (Doubles.is_number liquidity = true -> Doubles.is_number slp = true ->
     Doubles.is_number rr = true ->
     (Binary64.TechnicalValidation.valid v = true <->
        PrimFloat.leb 30000000%float liquidity = true /\
        PrimFloat.leb slp 0.08%float = true /\
        PrimFloat.leb 1.33%float rr = true)) /\
    (PrimFloat.leb 0%float volume = true ->
     (0 <= mq)%Z /\ mq = Qfloor (Doubles.exact (PrimFloat.mul volume 0.01%float))) /\
    map Binary64.TechnicalValidation.mark_of (Binary64.TechnicalValidation.messages v) =
      [ Doubles.verdict (Binary64.TechnicalValidation.valid v);
        Doubles.verdict (negb (PrimFloat.ltb liquidity 30000000%float));
        Doubles.verdict (negb (PrimFloat.ltb 0.08%float slp));
        Doubles.verdict (negb (PrimFloat.ltb rr 1.33%float));
        Info ].
Proof.
  intros Hfetch Hentry Hint entry stop slp risk reward rr liquidity volume.
  exists (Doubles.validation_of trade data mq).
  split.
  { rewrite (validate_trade_present64 service get_ticker_data trade self data Hfetch).
    rewrite Hentry.
    change Binary64.TradeValidator.MAX_VOLUME_PERCENT with 0.01%float.
    now rewrite Hint. }
  unfold Doubles.validation_of.
  change (Doubles.stop_loss_percent_of trade) with slp.
  change (Doubles.risk_reward_of trade) with rr.
  change Binary64.TradeValidator.MIN_LIQUIDITY with 30000000%float.
  change Binary64.TradeValidator.MAX_STOP_LOSS with 0.08%float.
  change Binary64.TradeValidator.MIN_RISK_REWARD with 1.33%float.
  fold liquidity.
  cbn [Binary64.TechnicalValidation.valid Binary64.TechnicalValidation.daily_liquidity
       Binary64.TechnicalValidation.stop_loss_percent
       Binary64.TechnicalValidation.risk_reward_ratio
       Binary64.TechnicalValidation.max_quantity Binary64.TechnicalValidation.messages].
  do 4 (split; [reflexivity|]).
  assert (Hflag : negb (PrimFloat.ltb liquidity 30000000%float)
                  && negb (PrimFloat.ltb 0.08%float slp)
                  && negb (PrimFloat.ltb rr 1.33%float) = true <->
                  PrimFloat.ltb liquidity 30000000%float = false /\
                  PrimFloat.ltb 0.08%float slp = false /\
                  PrimFloat.ltb rr 1.33%float = false).
  { rewrite !andb_true_iff, !negb_true_iff. tauto. }
  split; [exact Hflag|]. split; [|split].
  - intros Hl Hs Hr. rewrite Hflag.
    rewrite (ltb_false_leb liquidity 30000000%float Hl eq_refl).
    rewrite (ltb_false_leb 0.08%float slp eq_refl Hs).
    rewrite (ltb_false_leb rr 1.33%float Hr eq_refl).
    reflexivity.
  - intros Hv. now apply max_quantity_of_volume.
  - cbn [map]. unfold Doubles.verdict.
    destruct (PrimFloat.ltb liquidity 30000000%float),
             (PrimFloat.ltb 0.08%float slp), (PrimFloat.ltb rr 1.33%float); reflexivity.
Qed.

Lemma validate_trade_rules_witness :
  PrimFloat.eqb 20%float 0%float = false /\
  exists v,
    fst (Binary64.TradeValidator.validate_trade unit
           (Doubles.constant_service (Some (Doubles.snapshot 2000000%float 50000000%float)))
           (Binary64.TradeInput.mk "PETR4" 20%float 19%float 21.5%float) tt) = Ok v /\
    Binary64.TechnicalValidation.valid v = true /\
    Binary64.TechnicalValidation.stop_loss_percent v = 0.05%float /\
    Binary64.TechnicalValidation.risk_reward_ratio v = 1.5%float /\
    Binary64.TechnicalValidation.max_quantity v = 20000%Z.
Proof.
  assert (Hp : PrimFloat.eqb 20%float 0%float = false) by reflexivity.
  split; [exact Hp|].
  destruct (validate_trade_rules unit
              (Doubles.constant_service (Some (Doubles.snapshot 2000000%float 50000000%float)))
              (Binary64.TradeInput.mk "PETR4" 20%float 19%float 21.5%float) tt
              (Doubles.snapshot 2000000%float 50000000%float) 20000 eq_refl Hp eq_refl)
    as (v & Hrun & _ & Hslp & Hrr & Hmax & Hvalid & _).
  exists v. split; [exact Hrun|]. split; [|split; [|split]].
  - apply Hvalid. repeat split.
  - rewrite Hslp. reflexivity.
  - rewrite Hrr. reflexivity.
  - exact Hmax.
Defined.

(** C2 as stated fails at the threshold of the stop-loss rule.  For the
    trade with entry 6.75 and stop 6.21 the quotient [|stop - entry| / entry]
    of the two doubles is above 0.08, above 8/100 and above the double
    nearest to it, yet the code computes the double 0.08 for it, which is
    not above its threshold, and approves the trade. *)
Lemma validate_trade_threshold_rounding :
  let trade := Binary64.TradeInput.mk "PETR4" 6.75%float 6.21%float 8%float in
  let service :=
    Doubles.constant_service (Some (Doubles.snapshot 2000000%float 50000000%float)) in
  (exists v,
     fst (Binary64.TradeValidator.validate_trade unit service trade tt) = Ok v /\
     Binary64.TechnicalValidation.valid v = true /\
     Binary64.TechnicalValidation.stop_loss_percent v = 0.08%float) /\
  8 # 100 < Qabs (Doubles.exact 6.21%float - Doubles.exact 6.75%float)
            / Doubles.exact 6.75%float /\
  Doubles.exact 0.08%float
    < Qabs (Doubles.exact 6.21%float - Doubles.exact 6.75%float)
      / Doubles.exact 6.75%float.
Proof.
  split; [|split; reflexivity].
  eexists. split; [vm_compute; reflexivity|]. split; reflexivity.
Qed.



(** ** The rows of the client table *)

Section Rows64.

Import Binary64.Main Doubles.

Lemma clients_of_rows_fold64 (rows : list Row) : forall clients,
  fold_left (fun clients row =>
               match client_of_row row with
               | Some client => clients ++ [client]
               | None => clients
               end) rows clients
  = clients ++ flat_map clients_of_row rows.
Proof.
  induction rows as [|row rows IH]; intros clients; cbn [fold_left flat_map].
  - now rewrite app_nil_r.
  - rewrite IH. unfold clients_of_row at 2.
    destruct (client_of_row row); cbn [app]; now rewrite <- ?app_assoc.
Qed.

Lemma clients_of_rows_flat_map64 (rows : list Row) :
  clients_of_rows rows = flat_map clients_of_row rows.
Proof. unfold clients_of_rows. now rewrite clients_of_rows_fold64. Qed.

End Rows64.

(** X22.  A row of the client table is skipped exactly when the account
    number, the client name or the net total is missing from it, or [float]
    raises on its net total, on its available balance or on its average
    operation value.  A blank cell of a numeric column reads as NaN, which
    [float] accepts: such a row is not skipped, it becomes a client whose
    capital is NaN.  A skipped row leaves the clients of the other rows as
    they are, in their order. *)
Theorem clients_of_rows_skips (before after : list Binary64.Main.Row)
    (row : Binary64.Main.Row) (account : string) :
  (Binary64.Main.client_of_row row = None <->
   Binary64.Main.NUMERO_CONTA row = None \/ Binary64.Main.CLIENTE row = None \/
   Binary64.Main.float_item (Binary64.Main.NET_TOTAL row) = None \/
   (exists c, Binary64.Main.NET_DISPONIVEL row = Some c /\
              Binary64.Main.as_float c = None) \/
   (exists c, Binary64.Main.VALOR_MEDIO_POR_OPERACAO row = Some c /\
              Binary64.Main.as_float c = None)) /\
  Binary64.Main.client_of_row (Doubles.row_with account Doubles.blank_cell)
  = Some (Binary64.Client.mk account EmptyString EmptyString "client" EmptyString
            PrimFloat.nan PrimFloat.nan 0%float) /\
  Binary64.Main.clients_of_rows (before ++ row :: after)
  = Binary64.Main.clients_of_rows before ++ Doubles.clients_of_row row
    ++ Binary64.Main.clients_of_rows after.
Proof.
  split; [|split].
  - unfold Binary64.Main.client_of_row, Binary64.Main.str_item, Binary64.Main.float_item.
    destruct row as [acc rv adv name strat total avail avg]. cbn.
    destruct acc as [acc|]; cbn; [|now split; [left|]].
    destruct name as [name|]; cbn; [|now split; [right; left|]].
    destruct total as [total|]; cbn; [|now split; [right; right; left|]].
    destruct (Binary64.Main.as_float total) as [t|] eqn:Et; cbn;
      [|now split; [right; right; left|]].
    destruct avail as [avail|]; cbn.
    + destruct (Binary64.Main.as_float avail) as [a|] eqn:Ea; cbn.
      * destruct avg as [avg|]; cbn.
        -- destruct (Binary64.Main.as_float avg) as [g|] eqn:Eg; cbn.
           ++ split; [discriminate|].
              intros [H|[H|[H|[(c & H & Hc)|(c & H & Hc)]]]]; congruence.
           ++ split; [|reflexivity]. intros _. do 4 right. now exists avg.
        -- split; [discriminate|].
           intros [H|[H|[H|[(c & H & Hc)|(c & H & Hc)]]]]; congruence.
      * split; [|reflexivity]. intros _. do 3 right. left. now exists avail.
    + rewrite Et. cbn. destruct avg as [avg|]; cbn.
      * destruct (Binary64.Main.as_float avg) as [g|] eqn:Eg; cbn.
        -- split; [discriminate|].
           intros [H|[H|[H|[(c & H & Hc)|(c & H & Hc)]]]]; congruence.
        -- split; [|reflexivity]. intros _. do 4 right. now exists avg.
      * split; [discriminate|].
        intros [H|[H|[H|[(c & H & Hc)|(c & H & Hc)]]]]; congruence.
  - reflexivity.
  - rewrite !clients_of_rows_flat_map64, flat_map_app. reflexivity.
Qed.
